(** * Course management backend: registration, allotment and cancellation

    A shallow embedding of the controllers of the course management
    service (src/controllers/courseController.ts,
    src/controllers/registrationController.ts), of their helpers
    (src/utils/helpers.ts, src/utils/validators.ts) and of the part of the
    DynamoDB document client they drive.

    Conventions of the embedding.
    - The strings are ASCII strings ([Js.ascii_only]): on them
      [toUpperCase], [trim], the character classes of the regular
      expressions and the collation are those of the runtime.  A statement
      that depends on which characters are white space, or on the order of
      the collation, says so in a hypothesis.
    - A request is well typed: its names, dates, ids and emails are
      strings, as the helpers declare their arguments (an absent one is
      [""], which is as falsy as [undefined]); [min_employees] and
      [max_employees] are integers ([Z]), or [None] when the field is
      absent.  The document client refuses to store an integer beyond
      [Number.MAX_SAFE_INTEGER].
    - An item of the table is a record of optional attributes: [None] is a
      JavaScript [undefined].  The primary key (PK, SK) is the key of the
      map and is not repeated inside the item.
    - The clock is an input: [today] is the number of the current local
      calendar day, [now] the ISO timestamp written into [created_at].
    - The store is reliable: the only rejections of a transaction are the
      deterministic ones of [TransactWriteItems] (item count, two actions
      on one item); a query returns the whole slice of its partition.
    - [String.prototype.localeCompare] belongs to the runtime.  What does
      not depend on the order is proved for every collation (class
      [Collation]); the order itself is that of the root collation
      ([rootCollation]), which the English locales use.
      [Array.prototype.sort] is a stable insertion sort, which is what
      every conforming sort computes when the comparator is a total
      preorder.
    - The service is the transition system of the four writing requests;
      [getCourseRegistrations] only reads: it is a function of the table. *)

From Stdlib Require Import ZArith Ascii String Sorted Permutation.
From stdpp Require Import base option list gmap strings sorting fin_maps.

Local Open Scope Z_scope.

(** ** Strings *)

Module Js.

(** The characters of ASCII, and the strings made of them. *)
Definition is_ascii (c : ascii) : bool := (nat_of_ascii c <? 128)%nat.

Fixpoint ascii_only (s : string) : bool :=
  match s with
  | EmptyString => true
  | String c s' => is_ascii c && ascii_only s'
  end.

(** [String.prototype.toUpperCase] on an ASCII string: the letters a-z
    are the only characters of ASCII that it changes. *)
Definition upper_ascii (c : ascii) : ascii :=
  let n := nat_of_ascii c in
  if (Nat.leb 97 n && Nat.leb n 122)%bool then ascii_of_nat (n - 32) else c.

Fixpoint toUpperCase (s : string) : string :=
  match s with
  | EmptyString => EmptyString
  | String c s' => String (upper_ascii c) (toUpperCase s')
  end.

(** [String.prototype.trim] on an ASCII string: white space is removed at
    both ends.  The white space of ASCII is the tab, the line feed, the
    vertical tab, the form feed, the carriage return and the space
    ([Ascii.is_space]). *)
Fixpoint trimStart (s : string) : string :=
  match s with
  | String c s' => if Ascii.is_space c then trimStart s' else s
  | EmptyString => EmptyString
  end.

Definition trimEnd (s : string) : string :=
  String.rev (trimStart (String.rev s)).

Definition trim (s : string) : string := trimEnd (trimStart s).

(** [s.split(sep)] for a one-character separator: the result is never
    empty, and the empty string splits into one empty part. *)
Fixpoint split (sep : ascii) (s : string) : list string :=
  match s with
  | EmptyString => [EmptyString]
  | String c s' =>
      if Ascii.eqb c sep then EmptyString :: split sep s'
      else match split sep s' with
           | p :: ps => String c p :: ps
           | [] => [String c EmptyString]
           end
  end.

(** [parts.join(sep)]. *)
Fixpoint join (sep : string) (parts : list string) : string :=
  match parts with
  | [] => EmptyString
  | [p] => p
  | p :: ps => p +:+ sep +:+ join sep ps
  end.

(** [parts.slice(1)]. *)
Definition slice1 {A} (parts : list A) : list A := tail parts.

(** [s.startsWith(p)]. *)
Definition startsWith (p s : string) : bool := String.prefix p s.

(** [s.substring(a, b)] for [a <= b]. *)
Definition substring (a b : nat) (s : string) : string :=
  String.substring a (b - a) s.

(** [!s] for a string that may be absent: [undefined] and the empty
    string are both falsy, so an absent field is passed as [""]. *)
Definition falsy (s : string) : bool :=
  match s with EmptyString => true | _ => false end.

End Js.

(** ** src/utils/helpers.ts *)

Definition hyphen : ascii := "-"%char.

Definition generateCourseId (courseName instructorName : string) : string :=
  "OFFERING-" +:+ Js.toUpperCase courseName +:+ "-" +:+ Js.toUpperCase instructorName.

Definition generateRegistrationId (employeeName courseId : string) : string :=
  Js.toUpperCase employeeName +:+ "-" +:+ courseId.

Definition extractCourseIdFromRegistration (registrationId : string) : string :=
  let parts := Js.split hyphen registrationId in
  Js.join "-" (Js.slice1 parts).

(** A string without any hyphen. *)
Fixpoint hyphen_free (s : string) : bool :=
  match s with
  | EmptyString => true
  | String c s' => negb (Ascii.eqb c hyphen) && hyphen_free s'
  end.

(** ** Numbers and dates of the runtime *)

Module Num.

(** Value of a character as a digit, in any radix up to 36. *)
Definition digit_value (c : ascii) : option Z :=
  let n := Z.of_nat (nat_of_ascii c) in
  if (48 <=? n) && (n <=? 57) then Some (n - 48)
  else if (97 <=? n) && (n <=? 122) then Some (n - 87)
  else if (65 <=? n) && (n <=? 90) then Some (n - 55)
  else None.

Definition is_digit (c : ascii) : bool :=
  let n := Z.of_nat (nat_of_ascii c) in (48 <=? n) && (n <=? 57).

Definition is_alpha (c : ascii) : bool :=
  let n := Z.of_nat (nat_of_ascii c) in
  ((97 <=? n) && (n <=? 122)) || ((65 <=? n) && (n <=? 90)).

(** The longest prefix of digits of the radix; [None] when it is empty. *)
Fixpoint digits_prefix (radix : Z) (s : string) (acc : option Z) : option Z :=
  match s with
  | String c s' =>
      match digit_value c with
      | Some d =>
          if d <? radix
          then digits_prefix radix s' (Some (default 0 acc * radix + d))
          else acc
      | None => acc
      end
  | EmptyString => acc
  end.

Definition has_hex_prefix (s : string) : bool :=
  match s with
  | String "0" (String "x" _) | String "0" (String "X" _) => true
  | _ => false
  end.

(** [parseInt(s)] and [parseInt(s, 10)]: leading white space, a sign,
    a [0x] prefix when no radix is given, then digits.  [None] is NaN. *)
Definition parseInt (radix : option Z) (s : string) : option Z :=
  let s := Js.trimStart s in
  let '(sign, s) :=
    match s with
    | String "-" r => (-1, r)
    | String "+" r => (1, r)
    | _ => (1, s)
    end in
  let '(r, s) :=
    match radix with
    | Some r => (r, s)
    | None =>
        if has_hex_prefix s then (16, String.substring 2 (String.length s - 2) s)
        else (10, s)
    end in
  (fun v => sign * v) <$> digits_prefix r s None.

(** Relational operators: a comparison with NaN or [undefined] is false. *)
Definition lt (a b : option Z) : bool :=
  match a, b with Some x, Some y => x <? y | _, _ => false end.
Definition gt (a b : option Z) : bool := lt b a.
Definition ge (a b : option Z) : bool :=
  match a, b with Some x, Some y => y <=? x | _, _ => false end.

(** Number of days from 1970-01-01 to the civil date [y]-[m]-[d] of the
    proleptic Gregorian calendar, [m] in 1..12. *)
Definition days_from_civil (y m d : Z) : Z :=
  let y' := if m <=? 2 then y - 1 else y in
  let era := y' / 400 in
  let yoe := y' - era * 400 in
  let mp := if 2 <? m then m - 3 else m + 9 in
  let doy := (153 * mp + 2) / 5 + d - 1 in
  let doe := yoe * 365 + yoe / 4 - yoe / 100 + doy in
  era * 146097 + doe - 719468.

(** [new Date(year, month, day)] followed by [setHours(0, 0, 0, 0)]: the
    local calendar day, as a day number; the month is 0-indexed, months
    and days out of range carry over, a year in 0..99 means 1900 + year.
    [None] is an invalid date. *)
Definition newDate (year month day : option Z) : option Z :=
  match year, month, day with
  | Some y, Some m, Some d =>
      let y := if (0 <=? y) && (y <=? 99) then 1900 + y else y in
      let ym := y + m / 12 in
      let mn := m mod 12 in
      Some (days_from_civil ym (mn + 1) 1 + d - 1)
  | _, _, _ => None
  end.

End Num.

(** ** src/utils/validators.ts *)

Fixpoint string_forall (p : ascii → bool) (s : string) : bool :=
  match s with
  | EmptyString => true
  | String c s' => p c && string_forall p s'
  end.

(** The longest prefix of [s] whose characters satisfy [p], and the rest. *)
Fixpoint span (p : ascii → bool) (s : string) : string * string :=
  match s with
  | EmptyString => (EmptyString, EmptyString)
  | String c s' =>
      if p c then let '(a, b) := span p s' in (String c a, b)
      else (EmptyString, s)
  end.

Definition one_of (cs : string) (c : ascii) : bool :=
  negb (string_forall (fun d => negb (Ascii.eqb c d)) cs).

(** [[a-zA-Z0-9._-]] and [[a-zA-Z0-9.-]]. *)
Definition email_local_char (c : ascii) : bool :=
  Num.is_alpha c || Num.is_digit c || one_of "._-" c.
Definition email_domain_char (c : ascii) : bool :=
  Num.is_alpha c || Num.is_digit c || one_of ".-" c.

(** [/^[a-zA-Z0-9._-]+@[a-zA-Z0-9.-]+\.[a-zA-Z]{2,}$/.test(s)].  The local
    part cannot contain [@], so it is the longest run of its class; the
    final group cannot contain a dot, so it is what follows the last dot. *)
Definition emailRegex_test (s : string) : bool :=
  let '(loc, r1) := span email_local_char s in
  match r1 with
  | String "@" dom =>
      let '(tld_rev, r2) := span Num.is_alpha (String.rev dom) in
      match r2 with
      | String "." host_rev =>
          negb (Js.falsy loc)
          && negb (Js.falsy host_rev)
          && string_forall email_domain_char host_rev
          && (2 <=? String.length tld_rev)%nat
      | _ => false
      end
  | _ => false
  end.

Definition isValidEmail (email : string) : bool :=
  if Js.falsy email then false
  else emailRegex_test (Js.trim email).

(** [(year % 4 === 0 && year % 100 !== 0) || (year % 400 === 0)]; no
    equality holds of NaN. *)
Definition isLeapYear (year : option Z) : bool :=
  match year with
  | Some year =>
      ((year mod 4 =? 0) && negb (year mod 100 =? 0)) || (year mod 400 =? 0)
  | None => false
  end.

Definition daysInMonth (year : option Z) : list Z :=
  let l := [31; 28; 31; 30; 31; 30; 31; 31; 30; 31; 30; 31] in
  if isLeapYear year then <[1%nat := 29]> l else l.

Definition isValidDateFormat (dateStr : string) : bool :=
  if Js.falsy dateStr || negb (String.length dateStr =? 8)%nat then false
  else if negb (string_forall Num.is_digit dateStr) then false
  else
    let day := Num.parseInt (Some 10) (Js.substring 0 2 dateStr) in
    let month := Num.parseInt (Some 10) (Js.substring 2 4 dateStr) in
    let year := Num.parseInt (Some 10) (Js.substring 4 8 dateStr) in
    if Num.lt month (Some 1) || Num.gt month (Some 12) then false
    else if Num.lt day (Some 1) || Num.gt day (Some 31) then false
    else if Num.gt day (month ≫= fun m => daysInMonth year !! Z.to_nat (m - 1))
    then false
    else if Num.lt year (Some 1900) || Num.gt year (Some 2100) then false
    else true.

Definition isValidRegistrationIdFormat (registrationId : string) : bool :=
  if Js.falsy registrationId then false
  else
    let trimmed := Js.trim registrationId in
    let parts := Js.split hyphen trimmed in
    if (length parts <? 4)%nat then false
    else if negb (bool_decide (parts !! 1%nat = Some "OFFERING")) then false
    else forallb (fun part => (0 <? String.length part)%nat) parts.

Definition isValidCourseIdFormat (courseId : string) : bool :=
  if Js.falsy courseId then false
  else
    let trimmed := Js.trim courseId in
    if negb (Js.startsWith "OFFERING-" trimmed) then false
    else
      let parts := Js.split hyphen trimmed in
      if (length parts <? 3)%nat then false
      else forallb (fun part => (0 <? String.length part)%nat) parts.

Definition sanitizeInput (input : string) : string :=
  if Js.falsy input then "" else Js.trim input.

Definition isEmptyAfterTrim (input : string) : bool :=
  (String.length (sanitizeInput input) =? 0)%nat.

(** ** src/constants/constants.ts *)

Inductive RegistrationStatus :=
  ACCEPTED | CONFIRMED | COURSE_CANCELED | COURSE_FULL_ERROR.

Inductive CancellationStatus := CANCEL_ACCEPTED | CANCEL_REJECTED.

Inductive EntityType := COURSE | REGISTRATION | EMPLOYEE_COURSE.

#[global] Instance RegistrationStatus_eq_dec : EqDecision RegistrationStatus.
Proof. solve_decision. Defined.
#[global] Instance CancellationStatus_eq_dec : EqDecision CancellationStatus.
Proof. solve_decision. Defined.
#[global] Instance EntityType_eq_dec : EqDecision EntityType.
Proof. solve_decision. Defined.

(** ** The table *)

(** An item: every attribute that some writer of the code base sets. *)
Module Item.
Record t := mk {
  course_id : option string;
  course_name : option string;
  instructor_name : option string;
  start_date : option string;
  min_employees : option Z;
  max_employees : option Z;
  current_count : option Z;
  is_allotted : option bool;
  course_status : option RegistrationStatus;
  registration_id : option string;
  employee_name : option string;
  email : option string;
  status : option RegistrationStatus;
  created_at : option string;
  entity_type : option EntityType
}.

(** The item that holds nothing but its key. *)
Definition empty : t :=
  mk None None None None None None None None None None None None None None None.

Definition set_status (v : RegistrationStatus) (it : t) : t :=
  mk (course_id it) (course_name it) (instructor_name it) (start_date it)
     (min_employees it) (max_employees it) (current_count it) (is_allotted it)
     (course_status it) (registration_id it) (employee_name it) (email it)
     (Some v) (created_at it) (entity_type it).

Definition set_allotted (a : bool) (v : RegistrationStatus) (it : t) : t :=
  mk (course_id it) (course_name it) (instructor_name it) (start_date it)
     (min_employees it) (max_employees it) (current_count it) (Some a)
     (Some v) (registration_id it) (employee_name it) (email it)
     (status it) (created_at it) (entity_type it).

Definition add_current_count (n : Z) (it : t) : t :=
  mk (course_id it) (course_name it) (instructor_name it) (start_date it)
     (min_employees it) (max_employees it)
     (Some (default 0 (current_count it) + n)) (is_allotted it)
     (course_status it) (registration_id it) (employee_name it) (email it)
     (status it) (created_at it) (entity_type it).

(** Truth value of the attribute [is_allotted]. *)
Definition allotted (it : t) : bool := default false (is_allotted it).
End Item.

(** A primary key: partition key and sort key. *)
Abbreviation Key := (string * string)%type.
Abbreviation Table := (gmap (string * string) Item.t).

Definition courseKey (course_id : string) : Key :=
  ("COURSE#" +:+ course_id, "METADATA").
Definition regKey (course_id registration_id : string) : Key :=
  ("COURSE#" +:+ course_id, "REG#" +:+ registration_id).
Definition employeeKey (email course_id : string) : Key :=
  ("EMPLOYEE#" +:+ Js.toUpperCase email, "COURSE#" +:+ course_id).

(** ** The document client *)

Module Ddb.

Inductive UpdateExpression :=
| ADD_current_count (n : Z)
| SET_status (v : RegistrationStatus)
| SET_is_allotted_course_status (a : bool) (v : RegistrationStatus).

Inductive TransactItem :=
| Put (k : Key) (it : Item.t)
| Update (k : Key) (u : UpdateExpression)
| Delete (k : Key).

Definition key_of (a : TransactItem) : Key :=
  match a with Put k _ | Update k _ | Delete k => k end.

Definition eval (u : UpdateExpression) (it : Item.t) : Item.t :=
  match u with
  | ADD_current_count n => Item.add_current_count n it
  | SET_status v => Item.set_status v it
  | SET_is_allotted_course_status a v => Item.set_allotted a v it
  end.

(** [GetCommand]. *)
Definition get (k : Key) (s : Table) : option Item.t := s !! k.

(** A [Put]: the item replaces whatever the key held. *)
Definition put (k : Key) (it : Item.t) (s : Table) : Table := <[k := it]> s.

(** The numbers that the document client marshalls: it throws on a
    number beyond the safe integers of the runtime. *)
Definition MAX_SAFE_INTEGER : Z := 9007199254740991.

Definition safeNumber (n : option Z) : bool :=
  match n with
  | Some n => (- MAX_SAFE_INTEGER <=? n) && (n <=? MAX_SAFE_INTEGER)
  | None => true
  end.

Definition marshalls (it : Item.t) : bool :=
  safeNumber (Item.min_employees it) && safeNumber (Item.max_employees it)
  && safeNumber (Item.current_count it).

(** [PutCommand]: [None] when the item cannot be marshalled. *)
Definition putCommand (k : Key) (it : Item.t) (s : Table) : option Table :=
  if marshalls it then Some (put k it s) else None.

(** [UpdateCommand]: the expression is applied to the item of the key,
    which is created when the key holds none. *)
Definition update (k : Key) (u : UpdateExpression) (s : Table) : Table :=
  <[k := eval u (default Item.empty (s !! k))]> s.

Definition apply (s : Table) (a : TransactItem) : Table :=
  match a with
  | Put k it => put k it s
  | Update k u => update k u s
  | Delete k => delete k s
  end.

(** Largest number of actions of one transaction. *)
Definition MAX_TRANSACT_ITEMS : nat := 100.

(** [TransactWriteCommand]: all the actions or none.  The request is
    rejected when it is empty, too long, or names one item twice. *)
Definition transactWrite (items : list TransactItem) (s : Table) : option Table :=
  if bool_decide (items ≠ [] ∧ (length items ≤ MAX_TRANSACT_ITEMS)%nat
                  ∧ NoDup (key_of <$> items))
  then Some (foldl apply s items)
  else None.

(** [QueryCommand] with [PK = :pk AND begins_with(SK, :sk)]: the items of
    the partition whose sort key has the prefix, by ascending sort key. *)
Definition matches (pk skPrefix : string) (e : Key * Item.t) : Prop :=
  e.1.1 = pk ∧ String.prefix skPrefix e.1.2 = true.

#[global] Instance matches_dec pk skPrefix e : Decision (matches pk skPrefix e).
Proof. unfold matches. apply _. Defined.

Definition by_sort_key (a b : Key * Item.t) : Prop := String.le a.1.2 b.1.2.

Definition query (pk skPrefix : string) (s : Table) : list Item.t :=
  snd <$> merge_sort by_sort_key (filter (matches pk skPrefix) (map_to_list s)).

End Ddb.

(** ** Collation *)

(** [String.prototype.localeCompare] is supplied by the runtime: negative,
    zero or positive as the receiver sorts before, with or after the
    argument. *)
Class Collation := localeCompare : string → string → Z.

(** The order of a collation, and what [Array.prototype.sort] needs of a
    comparator to produce a sorted array. *)
Definition collation_le `{Collation} (a b : string) : Prop :=
  localeCompare a b <= 0.

Class ConsistentCollation `{Collation} := {
  collation_total a b : collation_le a b ∨ collation_le b a;
  collation_trans a b c : collation_le a b → collation_le b c → collation_le a c
}.

(** The root collation on ASCII strings, which is the collation of the
    English locales: two strings are compared by their sort keys.  No
    secondary weight differs between two characters of ASCII, so the key
    has the primary and the tertiary weights only. *)
Module Root.

(** The control characters that are no white space have no weight. *)
Definition ignorable (c : ascii) : bool :=
  let n := nat_of_ascii c in
  ((n <? 9) || ((13 <? n) && (n <? 32)) || (n =? 127))%nat.

(** The punctuation and the symbols of ASCII in the order of the
    collation. *)
Definition punctuation : string :=
  "_-,;:!?.'" +:+ String "034" "()[]{}@*/\&#%`^+<=>|~$".

Fixpoint index (c : ascii) (s : string) : option nat :=
  match s with
  | EmptyString => None
  | String d s' => if Ascii.eqb c d then Some 0%nat else S <$> index c s'
  end.

(** Primary weights: the white space, then the punctuation and the
    symbols, the digits, and the letters without regard to their case. *)
Definition primary (c : ascii) : nat :=
  let n := nat_of_ascii c in
  if ((9 <=? n) && (n <=? 13))%nat then n - 8
  else if (n =? 32)%nat then 6
  else if ((48 <=? n) && (n <=? 57))%nat then 39 + (n - 48)
  else if ((65 <=? n) && (n <=? 90))%nat then 49 + (n - 65)
  else if ((97 <=? n) && (n <=? 122))%nat then 49 + (n - 97)
  else match index c punctuation with
       | Some i => 7 + i
       | None => Nat.max n 128
       end.

(** Tertiary weights: an upper-case letter comes after its lower-case
    form. *)
Definition tertiary (c : ascii) : nat :=
  let n := nat_of_ascii c in
  if ((65 <=? n) && (n <=? 90))%nat then 2 else 1.

Fixpoint weights (w : ascii → nat) (s : string) : string :=
  match s with
  | EmptyString => EmptyString
  | String c s' =>
      if ignorable c then weights w s'
      else String (ascii_of_nat (w c)) (weights w s')
  end.

(** The sort key: the primary weights of the whole string, a separator
    below every weight, then the tertiary weights. *)
Definition sortKey (s : string) : string :=
  weights primary s +:+ String zero (weights tertiary s).

Definition compare (a b : string) : Z :=
  match String.compare (sortKey a) (sortKey b) with
  | Lt => -1
  | Eq => 0
  | Gt => 1
  end.

End Root.

Definition rootCollation : Collation := Root.compare.

(** ** Responses *)

(** The [message] of a failure response (src/constants/errorMessages.ts);
    [COURSE_FULL] stands for the message COURSE_FULL_ERROR, and
    [Error_in_controller] for the message of [handleControllerError]. *)
Inductive Message :=
| INPUT_DATA_ERROR
| DUPLICATE_COURSE_ERROR
| COURSE_FULL
| COURSE_ALLOT_DATE_ERROR
| Course_not_found
| Registration_not_found
| Already_registered
| Course_canceled
| Course_already_allotted
| Error_in_controller.

(** One entry of the list returned by an allotment. *)
Module Allotment.
Record t := mk {
  registration_id : option string;
  email : option string;
  course_name : option string;
  course_id : string;
  status : RegistrationStatus
}.
End Allotment.

(** What a controller sends: the HTTP status with the failure message, or
    the success payload. *)
Inductive Response :=
| Failure (status : Z) (message : Message)
| CourseAdded (course_id : string)
| Registered (registration_id : string) (status : RegistrationStatus)
| Cancellation (registration_id course_id : string) (status : CancellationStatus)
| Allotted (isCanceled : bool) (registrations : list Allotment.t).

#[global] Instance Message_eq_dec : EqDecision Message.
Proof. solve_decision. Defined.

(** [handleControllerError]: whatever is thrown becomes a 500. *)
Definition handleControllerError : Response := Failure 500 Error_in_controller.

(** The business-rule failures: duplicate registration, full course,
    allotted or canceled course, allotment after the start date. *)
Definition isConflict (r : Response) : bool :=
  match r with
  | Failure 400 (Already_registered | COURSE_FULL | Course_canceled
                 | Course_already_allotted | COURSE_ALLOT_DATE_ERROR) => true
  | _ => false
  end.

(** ** src/utils/helpers.ts: sortByRegistrationId *)

Section Sorting.
Context `{Collation}.

(** The comparator [(a, b) => a.registration_id.localeCompare(b.registration_id)]:
    it throws when [a] has no registration id ([None]); an absent
    argument is compared as the string ["undefined"]. *)
Definition compareRegistrations (a b : Allotment.t) : option Z :=
  match Allotment.registration_id a with
  | None => None
  | Some ida =>
      Some (localeCompare ida (default "undefined" (Allotment.registration_id b)))
  end.

Fixpoint insertSorted (a : Allotment.t) (l : list Allotment.t)
  : option (list Allotment.t) :=
  match l with
  | [] => Some [a]
  | b :: l' =>
      c ← compareRegistrations a b;
      if c <=? 0 then Some (a :: b :: l')
      else (cons b) <$> insertSorted a l'
  end.

(** [items.sort(comparator)], a stable sort: each item is entered in
    front of the first later item that does not sort before it. *)
Fixpoint sortByRegistrationId (items : list Allotment.t)
  : option (list Allotment.t) :=
  match items with
  | [] => Some []
  | a :: items' => sorted ← sortByRegistrationId items'; insertSorted a sorted
  end.
End Sorting.

(** ** src/controllers/courseController.ts *)

Definition newCourse (course_id course_name instructor_name start_date : string)
    (min_employees max_employees : Z) : Item.t :=
  {| Item.course_id := Some course_id;
     Item.course_name := Some course_name;
     Item.instructor_name := Some instructor_name;
     Item.start_date := Some start_date;
     Item.min_employees := Some min_employees;
     Item.max_employees := Some max_employees;
     Item.current_count := Some 0;
     Item.is_allotted := Some false;
     Item.course_status := None;
     Item.registration_id := None;
     Item.employee_name := None;
     Item.email := None;
     Item.status := None;
     Item.created_at := None;
     Item.entity_type := Some COURSE |}.

(** The start date [DDMMYYYY] as the controllers read it: three
    [parseInt] calls and [new Date(year, month - 1, day)]. *)
Definition courseStartDate (startDateStr : string) : option Z :=
  let day := Num.parseInt None (Js.substring 0 2 startDateStr) in
  let month := (fun m => m - 1) <$> Num.parseInt None (Js.substring 2 4 startDateStr) in
  let year := Num.parseInt None (Js.substring 4 8 startDateStr) in
  Num.newDate year month day.

(** [addCourseOffering].  [min_employees] and [max_employees] are the
    two numbers of the request: [None] is a field that is absent. *)
Definition addCourseOffering (today : Z)
    (course_name instructor_name start_date : string)
    (min_employees max_employees : option Z) (s : Table) : Response * Table :=
  match min_employees, max_employees with
  | Some min_employees, Some max_employees =>
      if Js.falsy course_name || Js.falsy instructor_name || Js.falsy start_date
      then (Failure 400 INPUT_DATA_ERROR, s)
      else
        let sanitizedCourseName := sanitizeInput course_name in
        let sanitizedInstructorName := sanitizeInput instructor_name in
        let sanitizedStartDate := sanitizeInput start_date in
        if isEmptyAfterTrim course_name || isEmptyAfterTrim instructor_name
           || isEmptyAfterTrim start_date
        then (Failure 400 INPUT_DATA_ERROR, s)
        else if (min_employees <? 0) || (max_employees <? 0)
        then (Failure 400 INPUT_DATA_ERROR, s)
        else if max_employees <? min_employees
        then (Failure 400 INPUT_DATA_ERROR, s)
        else if negb (isValidDateFormat sanitizedStartDate)
        then (Failure 400 INPUT_DATA_ERROR, s)
        else if Num.lt (courseStartDate sanitizedStartDate) (Some today)
        then (Failure 400 INPUT_DATA_ERROR, s)
        else
          let course_id := generateCourseId sanitizedCourseName sanitizedInstructorName in
          match Ddb.get (courseKey course_id) s with
          | Some _ => (Failure 400 DUPLICATE_COURSE_ERROR, s)
          | None =>
              match Ddb.putCommand (courseKey course_id)
                      (newCourse course_id sanitizedCourseName
                         sanitizedInstructorName sanitizedStartDate
                         min_employees max_employees) s with
              | Some s' => (CourseAdded course_id, s')
              | None => (handleControllerError, s)
              end
          end
  | _, _ => (Failure 400 INPUT_DATA_ERROR, s)
  end.

(** The status that an allotment decides. *)
Definition finalStatus (registrations : list Item.t) (course : Item.t)
  : RegistrationStatus :=
  if Num.ge (Some (Z.of_nat (length registrations))) (Item.min_employees course)
  then CONFIRMED else COURSE_CANCELED.

(** The key that the allotment addresses for a registration it has read:
    an absent [registration_id] is printed as ["undefined"]. *)
Definition allotKey (course_id : string) (reg : Item.t) : Key :=
  regKey course_id (default "undefined" (Item.registration_id reg)).

Definition allotItems (course_id : string) (registrations : list Item.t)
    (st : RegistrationStatus) : list Ddb.TransactItem :=
  ((fun reg => Ddb.Update (allotKey course_id reg) (Ddb.SET_status st))
     <$> registrations)
  ++ [Ddb.Update (courseKey course_id) (Ddb.SET_is_allotted_course_status true st)].

Definition updatedRegistration (course_id : string) (course : Item.t)
    (st : RegistrationStatus) (reg : Item.t) : Allotment.t :=
  {| Allotment.registration_id := Item.registration_id reg;
     Allotment.email := Item.email reg;
     Allotment.course_name := Item.course_name course;
     Allotment.course_id := course_id;
     Allotment.status := st |}.

Definition startDatePassed (today : Z) (course : Item.t) : bool :=
  match Item.start_date course with
  | Some startDateStr =>
      if negb (Js.falsy startDateStr) && (String.length startDateStr =? 8)%nat
      then Num.gt (Some today) (courseStartDate startDateStr)
      else false
  | None => false
  end.

Definition allotCourse `{Collation} (today : Z) (course_id : string) (s : Table)
  : Response * Table :=
  if Js.falsy course_id then (Failure 400 INPUT_DATA_ERROR, s)
  else if negb (isValidCourseIdFormat course_id) then (Failure 400 INPUT_DATA_ERROR, s)
  else
    match Ddb.get (courseKey course_id) s with
    | None => (Failure 404 Course_not_found, s)
    | Some course =>
        if startDatePassed today course then (Failure 400 COURSE_ALLOT_DATE_ERROR, s)
        else if Item.allotted course then (Failure 400 Course_already_allotted, s)
        else
          let registrations := Ddb.query ("COURSE#" +:+ course_id) "REG#" s in
          let st := finalStatus registrations course in
          let written :=
            if (0 <? length registrations)%nat
            then Ddb.transactWrite (allotItems course_id registrations st) s
            else Some (Ddb.update (courseKey course_id)
                         (Ddb.SET_is_allotted_course_status true COURSE_CANCELED) s) in
          match written with
          | None => (handleControllerError, s)
          | Some s' =>
              let updatedRegistrations :=
                updatedRegistration course_id course st <$> registrations in
              match sortByRegistrationId updatedRegistrations with
              | None => (handleControllerError, s')
              | Some sortedRegistrations =>
                  let isCanceled := bool_decide (st = COURSE_CANCELED) in
                  (Allotted isCanceled sortedRegistrations, s')
              end
          end
    end.

(** ** src/controllers/registrationController.ts *)

Definition registrationByCourse (registration_id employee_name email course_id now : string)
  : Item.t :=
  {| Item.course_id := Some course_id;
     Item.course_name := None;
     Item.instructor_name := None;
     Item.start_date := None;
     Item.min_employees := None;
     Item.max_employees := None;
     Item.current_count := None;
     Item.is_allotted := None;
     Item.course_status := None;
     Item.registration_id := Some registration_id;
     Item.employee_name := Some employee_name;
     Item.email := Some email;
     Item.status := Some ACCEPTED;
     Item.created_at := Some now;
     Item.entity_type := Some REGISTRATION |}.

Definition registrationByEmployee (registration_id employee_name course_id : string)
  : Item.t :=
  {| Item.course_id := Some course_id;
     Item.course_name := None;
     Item.instructor_name := None;
     Item.start_date := None;
     Item.min_employees := None;
     Item.max_employees := None;
     Item.current_count := None;
     Item.is_allotted := None;
     Item.course_status := None;
     Item.registration_id := Some registration_id;
     Item.employee_name := Some employee_name;
     Item.email := None;
     Item.status := Some ACCEPTED;
     Item.created_at := None;
     Item.entity_type := Some EMPLOYEE_COURSE |}.

Definition registerItems (course_id registration_id sanitizedEmployeeName
    sanitizedEmail now : string) : list Ddb.TransactItem :=
  [ Ddb.Put (regKey course_id registration_id)
      (registrationByCourse registration_id sanitizedEmployeeName sanitizedEmail
         course_id now);
    Ddb.Put (employeeKey sanitizedEmail course_id)
      (registrationByEmployee registration_id sanitizedEmployeeName course_id);
    Ddb.Update (courseKey course_id) (Ddb.ADD_current_count 1) ].

Definition registerForCourse (now : string) (course_id employee_name email : string)
    (s : Table) : Response * Table :=
  if Js.falsy employee_name || Js.falsy email || Js.falsy course_id
  then (Failure 400 INPUT_DATA_ERROR, s)
  else
    let sanitizedEmployeeName := sanitizeInput employee_name in
    let sanitizedEmail := sanitizeInput email in
    if isEmptyAfterTrim employee_name || isEmptyAfterTrim email
    then (Failure 400 INPUT_DATA_ERROR, s)
    else if negb (isValidEmail sanitizedEmail) then (Failure 400 INPUT_DATA_ERROR, s)
    else if negb (isValidCourseIdFormat course_id) then (Failure 400 INPUT_DATA_ERROR, s)
    else
      match Ddb.get (courseKey course_id) s with
      | None => (Failure 404 Course_not_found, s)
      | Some course =>
          if bool_decide (Item.course_status course = Some COURSE_CANCELED)
          then (Failure 400 Course_canceled, s)
          else if Item.allotted course then (Failure 400 Course_already_allotted, s)
          else
            match Ddb.get (employeeKey sanitizedEmail course_id) s with
            | Some _ => (Failure 400 Already_registered, s)
            | None =>
                if Num.ge (Item.current_count course) (Item.max_employees course)
                then (Failure 400 COURSE_FULL, s)
                else
                  let registration_id :=
                    generateRegistrationId sanitizedEmployeeName course_id in
                  match Ddb.transactWrite
                          (registerItems course_id registration_id
                             sanitizedEmployeeName sanitizedEmail now) s with
                  | None => (handleControllerError, s)
                  | Some s' => (Registered registration_id ACCEPTED, s')
                  end
            end
      end.

Definition cancelItems (course_id registration_id email : string)
  : list Ddb.TransactItem :=
  [ Ddb.Delete (regKey course_id registration_id);
    Ddb.Delete (employeeKey email course_id);
    Ddb.Update (courseKey course_id) (Ddb.ADD_current_count (-1)) ].

Definition cancelRegistration (registration_id : string) (s : Table)
  : Response * Table :=
  if Js.falsy registration_id then (Failure 400 INPUT_DATA_ERROR, s)
  else if negb (isValidRegistrationIdFormat registration_id)
  then (Failure 400 INPUT_DATA_ERROR, s)
  else
    let course_id := extractCourseIdFromRegistration registration_id in
    match Ddb.get (regKey course_id registration_id) s with
    | None => (Failure 404 Registration_not_found, s)
    | Some registration =>
        match Ddb.get (courseKey course_id) s with
        | None => (Failure 404 Course_not_found, s)
        | Some course =>
            if Item.allotted course
            then (Cancellation registration_id course_id CANCEL_REJECTED, s)
            else
              match Item.email registration with
              | None => (handleControllerError, s)
              | Some email =>
                  match Ddb.transactWrite
                          (cancelItems course_id registration_id email) s with
                  | None => (handleControllerError, s)
                  | Some s' =>
                      (Cancellation registration_id course_id CANCEL_ACCEPTED, s')
                  end
              end
        end
    end.

(** [getCourseRegistrations]: the course and the rows filed under it,
    read and not written.  The four answers differ by their message. *)

Module Listing.

(** One entry of the list of registrations of a course. *)
Record entry := mkEntry {
  registration_id : option string;
  employee_name : option string;
  email : option string;
  status : option RegistrationStatus;
  created_at : option string
}.

(** The [message] of the answer. *)
Inductive Message :=
| Course_is_canceled
| No_registrations_found
| Course_is_allotted
| Course_is_not_allotted_yet.

Record t := mk {
  message : Message;
  course_id : string;
  course_status : option RegistrationStatus;
  is_allotted : bool;
  registrations : list entry
}.

End Listing.

(** What [getCourseRegistrations] sends: a failure with its HTTP status
    and message, or the list. *)
Inductive ListingResponse :=
| ListingFailure (status : Z) (message : Message)
| Listed (listing : Listing.t).

Definition listingEntry (reg : Item.t) : Listing.entry :=
  {| Listing.registration_id := Item.registration_id reg;
     Listing.employee_name := Item.employee_name reg;
     Listing.email := Item.email reg;
     Listing.status := Item.status reg;
     Listing.created_at := Item.created_at reg |}.

Definition getCourseRegistrations (course_id : string) (s : Table) : ListingResponse :=
  if Js.falsy course_id then ListingFailure 400 INPUT_DATA_ERROR
  else if negb (isValidCourseIdFormat course_id) then ListingFailure 400 INPUT_DATA_ERROR
  else
    match Ddb.get (courseKey course_id) s with
    | None => ListingFailure 404 Course_not_found
    | Some course =>
        let registrations := Ddb.query ("COURSE#" +:+ course_id) "REG#" s in
        if bool_decide (Item.course_status course = Some COURSE_CANCELED)
        then Listed {| Listing.message := Listing.Course_is_canceled;
                       Listing.course_id := course_id;
                       Listing.course_status := Some COURSE_CANCELED;
                       Listing.is_allotted := Item.allotted course;
                       Listing.registrations := listingEntry <$> registrations |}
        else if (length registrations =? 0)%nat
        then Listed {| Listing.message := Listing.No_registrations_found;
                       Listing.course_id := course_id;
                       Listing.course_status := Item.course_status course;
                       Listing.is_allotted := Item.allotted course;
                       Listing.registrations := [] |}
        else if Item.allotted course
        then Listed {| Listing.message := Listing.Course_is_allotted;
                       Listing.course_id := course_id;
                       Listing.course_status := Item.course_status course;
                       Listing.is_allotted := true;
                       Listing.registrations := listingEntry <$> registrations |}
        else Listed {| Listing.message := Listing.Course_is_not_allotted_yet;
                       Listing.course_id := course_id;
                       Listing.course_status := Item.course_status course;
                       Listing.is_allotted := false;
                       Listing.registrations := listingEntry <$> registrations |}
    end.

(** ** The service as a transition system *)

Inductive Request :=
| AddCourseOffering (course_name instructor_name start_date : string)
    (min_employees max_employees : option Z)
| RegisterForCourse (course_id employee_name email : string)
| CancelRegistration (registration_id : string)
| AllotCourse (course_id : string).

(** One request, served at the day [today] and the instant [now]. *)
Definition handle `{Collation} (today : Z) (now : string) (req : Request)
    (s : Table) : Response * Table :=
  match req with
  | AddCourseOffering course_name instructor_name start_date min_employees max_employees =>
      addCourseOffering today course_name instructor_name start_date
        min_employees max_employees s
  | RegisterForCourse course_id employee_name email =>
      registerForCourse now course_id employee_name email s
  | CancelRegistration registration_id => cancelRegistration registration_id s
  | AllotCourse course_id => allotCourse today course_id s
  end.

(** The tables that the service can hold: it starts empty and serves its
    requests one after the other. *)
Inductive reachable `{Collation} : Table → Prop :=
| reachable_empty : reachable ∅
| reachable_handle today now req s :
    reachable s → reachable (handle today now req s).2.

(** Serving a list of requests, all at the same day and instant. *)
Definition serve `{Collation} (today : Z) (now : string) (reqs : list Request)
    (s : Table) : Table :=
  foldl (fun s req => (handle today now req s).2) s reqs.

(** ** Reading a transaction *)

(** The action of a transaction on a key, and what it leaves under the
    key. *)
Fixpoint action_for (k : Key) (items : list Ddb.TransactItem)
  : option Ddb.TransactItem :=
  match items with
  | [] => None
  | a :: items' =>
      if decide (Ddb.key_of a = k) then Some a else action_for k items'
  end.

Definition effect (a : option Ddb.TransactItem) (old : option Item.t)
  : option Item.t :=
  match a with
  | None => old
  | Some (Ddb.Put _ it) => Some it
  | Some (Ddb.Update _ u) => Some (Ddb.eval u (default Item.empty old))
  | Some (Ddb.Delete _) => None
  end.

(** ** Well-formed tables *)

(** A course id that the controllers accept. *)
Definition acceptedCourseId (course_id : string) : Prop :=
  Js.falsy course_id = false ∧ isValidCourseIdFormat course_id = true.

(** What every item of a table of the service satisfies: a row filed
    under [REG#x] is the registration [x], and a [METADATA] row has its
    threshold and a valid start date, and is allotted only under an id
    that [allotCourse] accepts. *)
Definition itemOk (k : Key) (it : Item.t) : Prop :=
  (∀ x, k.2 = "REG#" +:+ x → Item.registration_id it = Some x)
  ∧ (k.2 = "METADATA" →
       is_Some (Item.min_employees it)
       ∧ (∃ startDateStr, Item.start_date it = Some startDateStr
                          ∧ isValidDateFormat startDateStr = true)
       ∧ (Item.allotted it = true →
            ∃ course_id, k.1 = "COURSE#" +:+ course_id ∧ acceptedCourseId course_id)).

Definition wf (s : Table) : Prop := map_Forall itemOk s.

(** The actions that keep a table well formed. *)
Definition actionOk (s : Table) (a : Ddb.TransactItem) : Prop :=
  match a with
  | Ddb.Put k it => itemOk k it
  | Ddb.Update k u =>
      is_Some (s !! k)
      ∧ match u with
        | Ddb.SET_is_allotted_course_status _ _ =>
            ∃ course_id, k = courseKey course_id ∧ acceptedCourseId course_id
        | _ => True
        end
  | Ddb.Delete _ => True
  end.

Definition isUpdate (a : Ddb.TransactItem) : Prop :=
  match a with Ddb.Update _ _ => True | _ => False end.

(** The actions that cannot take an allotment back: they neither replace
    nor delete a [METADATA] row, nor reset [is_allotted]. *)
Definition keepsAllotted (a : Ddb.TransactItem) : Prop :=
  match a with
  | Ddb.Put k _ | Ddb.Delete k => k.2 ≠ "METADATA"
  | Ddb.Update _ (Ddb.SET_is_allotted_course_status a _) => a = true
  | Ddb.Update _ _ => True
  end.

(** The order of the entries of an allotment by registration id. *)
Definition allotment_le `{Collation} (a b : Allotment.t) : Prop :=
  match Allotment.registration_id a, Allotment.registration_id b with
  | Some x, Some y => collation_le x y
  | _, _ => False
  end.

(** The same for the lexicographic order, which compares the strings as
    sequences of character codes. *)
Definition allotment_lex (a b : Allotment.t) : Prop :=
  match Allotment.registration_id a, Allotment.registration_id b with
  | Some x, Some y => String.le x y
  | _, _ => False
  end.

(** The characters on which the collation and the character codes agree:
    the space, the hyphen, the digits and the upper-case letters. *)
Definition plain (c : ascii) : bool :=
  let n := nat_of_ascii c in
  ((n =? 32) || (n =? 45) || ((48 <=? n) && (n <=? 57))
   || ((65 <=? n) && (n <=? 90)))%nat.

Definition plainId (s : string) : bool := string_forall plain s.

(** Entries whose ids are ASCII strings, and entries whose ids are made
    of plain characters. *)
Definition asciiIds (rows : list Allotment.t) : bool :=
  forallb (λ row, from_option Js.ascii_only false (Allotment.registration_id row))
    rows.

Definition plainIds (rows : list Allotment.t) : bool :=
  forallb (λ row, from_option plainId false (Allotment.registration_id row)) rows.

Fixpoint zero_free (s : string) : bool :=
  match s with
  | EmptyString => true
  | String c s' => negb (Ascii.eqb c zero) && zero_free s'
  end.

Definition all_ascii : list ascii := ascii_of_nat <$> seq 0 256.

(** The input validation of [registerForCourse]: the first four checks
    of the controller. *)
Definition registrationInputOk (course_id employee_name email : string) : bool :=
  negb (Js.falsy employee_name || Js.falsy email || Js.falsy course_id)
  && negb (isEmptyAfterTrim employee_name || isEmptyAfterTrim email)
  && isValidEmail (sanitizeInput email)
  && isValidCourseIdFormat course_id.

(** A string that begins, or ends, with a character that [trim] keeps. *)
Definition starts_clean (s : string) : bool :=
  match s with
  | String c _ => negb (Ascii.is_space c)
  | EmptyString => false
  end.

Definition ends_clean (s : string) : bool := starts_clean (String.rev s).

(** The shape of the rows: a [METADATA] row has its count and is filed
    under a course id without white space around it, and a row [REG#x]
    is filed under the id made from the name that it carries, an id that
    passes the validation when the name has no hyphen. *)
Definition shapeOk (k : Key) (it : Item.t) : Prop :=
  (k.2 = "METADATA" →
     is_Some (Item.current_count it)
     ∧ ∃ course_id, k.1 = "COURSE#" +:+ course_id ∧ Js.trim course_id = course_id)
  ∧ (∀ x, k.2 = "REG#" +:+ x →
       ∃ course_id name,
         k.1 = "COURSE#" +:+ course_id
         ∧ Item.employee_name it = Some name
         ∧ x = generateRegistrationId name course_id
         ∧ (hyphen_free name = true → isValidRegistrationIdFormat x = true)).

Definition wfShape (s : Table) : Prop := map_Forall shapeOk s.

(** ** Counting the registrations of a course *)

(** The number of rows filed under a course, as [allotCourse] and
    [getCourseRegistrations] count them. *)
Definition rowCount (course_id : string) (s : Table) : nat :=
  length (Ddb.query ("COURSE#" +:+ course_id) "REG#" s).

(** Every course has the count of its rows. *)
Definition countsMatch (s : Table) : Prop :=
  ∀ course_id course,
    s !! courseKey course_id = Some course →
    Item.current_count course = Some (Z.of_nat (rowCount course_id s)).

(** Every row is filed under a course that exists. *)
Definition rowsHaveCourse (s : Table) : Prop :=
  ∀ course_id x,
    is_Some (s !! regKey course_id x) → is_Some (s !! courseKey course_id).

(** A request that does not register under the id of a row that is
    filed already. *)
Definition reusesNoId (req : Request) (s : Table) : Prop :=
  match req with
  | RegisterForCourse course_id employee_name _ =>
      s !! regKey course_id
             (generateRegistrationId (sanitizeInput employee_name) course_id)
      = None
  | _ => True
  end.

(** The tables of the runs in which no registration id is reused. *)
Inductive reachableFresh `{Collation} : Table → Prop :=
| reachableFresh_empty : reachableFresh ∅
| reachableFresh_handle today now req s :
    reachableFresh s → reusesNoId req s →
    reachableFresh (handle today now req s).2.

(** ** Calendar dates and names *)

(** The days of a month of the Gregorian calendar. *)
Definition calendarDays (year month : Z) : Z :=
  if month =? 2
  then if ((year mod 4 =? 0) && negb (year mod 100 =? 0)) || (year mod 400 =? 0)
       then 29 else 28
  else if bool_decide (month ∈ [4; 6; 9; 11]) then 30 else 31.

(** No part of the string between two hyphens, before the first or after
    the last, is empty. *)
Definition parts_nonempty (s : string) : bool :=
  forallb (fun part => (0 <? String.length part)%nat) (Js.split hyphen s).

(** ** Sound tables *)

(** A course of the service: its threshold and its capacity, the count
    between the number of its rows and the capacity, and a final status
    that the rows bear out. *)
Definition courseOk (s : Table) (c : string) (course : Item.t) : Prop :=
  ∃ mn mx n,
    Item.min_employees course = Some mn
    ∧ Item.max_employees course = Some mx
    ∧ Item.current_count course = Some n
    ∧ 0 ≤ mn ≤ mx
    ∧ Z.of_nat (rowCount c s) ≤ n ≤ mx
    ∧ match Item.course_status course with
      | None => Item.is_allotted course = Some false
      | Some CONFIRMED =>
          Item.is_allotted course = Some true
          ∧ (0 < rowCount c s)%nat ∧ mn ≤ Z.of_nat (rowCount c s)
      | Some COURSE_CANCELED =>
          Item.is_allotted course = Some true
          ∧ (Z.of_nat (rowCount c s) < mn ∨ rowCount c s = 0%nat)
      | Some _ => False
      end.

(** A registration of the service: filed under a course, with the status
    of the course once it is allotted and ACCEPTED before. *)
Definition registrationOk (s : Table) (c : string) (reg : Item.t) : Prop :=
  ∃ course,
    s !! courseKey c = Some course
    ∧ Item.status reg = Some (default ACCEPTED (Item.course_status course))
    ∧ is_Some (Item.employee_name reg)
    ∧ is_Some (Item.email reg)
    ∧ is_Some (Item.created_at reg).

(** The tables that the service keeps. *)
Definition sound (s : Table) : Prop :=
  (∀ c course, s !! courseKey c = Some course → courseOk s c course)
  ∧ (∀ c x reg, s !! regKey c x = Some reg → registrationOk s c reg)
  ∧ (∀ pk c, is_Some (s !! (pk, "COURSE#" +:+ c)) → is_Some (s !! courseKey c)).


(** ** Listings *)



(** ** Runs *)

(** The attributes of a course that [addCourseOffering] sets and no
    update expression names. *)
Definition courseAttributes (it : Item.t) :=
  (Item.course_id it, Item.course_name it, Item.instructor_name it,
   Item.start_date it, Item.min_employees it, Item.max_employees it,
   Item.entity_type it).

(** The tables that follow a table in a run of the service. *)
Inductive reaches `{Collation} (s : Table) : Table → Prop :=
| reaches_here : reaches s s
| reaches_handle today now req s' :
    reaches s s' → reaches s (handle today now req s').2.

(** The course that a request is about. *)
Definition courseOf (req : Request) : string :=
  match req with
  | AddCourseOffering course_name instructor_name _ _ _ =>
      generateCourseId (sanitizeInput course_name) (sanitizeInput instructor_name)
  | RegisterForCourse course_id _ _ => course_id
  | CancelRegistration registration_id =>
      extractCourseIdFromRegistration registration_id
  | AllotCourse course_id => course_id
  end.

(** ** Scenarios *)

(** The days of June 2022, the month of the course of the examples. *)
Definition june2022 (day : Z) : Z := Num.days_from_civil 2022 6 day.

Definition JAVA : string := "OFFERING-JAVA-JAMES".

Definition addJava (min_employees max_employees : Z) : Request :=
  AddCourseOffering "JAVA" "JAMES" "15062022" (Some min_employees) (Some max_employees).

(** Requests served on the first of June 2022 under the root collation,
    from the empty table. *)
Definition scenario (reqs : list Request) : Table :=
  @serve rootCollation (june2022 1) "2022-06-01T08:00:00.000Z" reqs ∅.

Definition rowsOf (r : Response) : list Allotment.t :=
  match r with Allotted _ rows => rows | _ => [] end.

Definition isCanceledOf (r : Response) : bool :=
  match r with Allotted b _ => b | _ => false end.

(** * Properties *)

Lemma split_nonempty sep s : Js.split sep s ≠ [].
Proof.
  destruct s as [|c s]; simpl; [done|].
  destruct (Ascii.eqb c sep); [done|]. by destruct (Js.split sep s).
Qed.

Lemma split_app sep a b :
  Js.split sep (a +:+ String sep b) = Js.split sep a ++ Js.split sep b.
Proof.
  induction a as [|c a IH]; simpl.
  - by rewrite Ascii.eqb_refl.
  - destruct (Ascii.eqb c sep); [by rewrite IH|].
    rewrite IH. pose proof (split_nonempty sep a).
    by destruct (Js.split sep a).
Qed.

Lemma split_hyphen_free s : hyphen_free s = true → Js.split hyphen s = [s].
Proof.
  induction s as [|c s IH]; simpl; [done|].
  intros [Hc Hs]%andb_prop. apply negb_true_iff in Hc. rewrite Hc.
  by rewrite (IH Hs).
Qed.

Lemma join_cons sep p q ps :
  Js.join sep (p :: q :: ps) = p +:+ sep +:+ Js.join sep (q :: ps).
Proof. reflexivity. Qed.

Lemma join_split s : Js.join "-" (Js.split hyphen s) = s.
Proof.
  induction s as [|c s IH]; [done|]. cbn [Js.split].
  pose proof (split_nonempty hyphen s) as Hne.
  destruct (Ascii.eqb c hyphen) eqn:Hc.
  - apply Ascii.eqb_eq in Hc as ->.
    destruct (Js.split hyphen s) as [|p ps]; [done|].
    by rewrite join_cons, IH.
  - destruct (Js.split hyphen s) as [|p ps]; [done|].
    destruct ps as [|q ps].
    + simpl in *. by rewrite IH.
    + rewrite join_cons. rewrite join_cons in IH. by rewrite <- IH.
Qed.

Lemma upper_ascii_hyphen c :
  Ascii.eqb (Js.upper_ascii c) hyphen = Ascii.eqb c hyphen.
Proof.
  destruct c as [[] [] [] [] [] [] [] []]; reflexivity.
Qed.

Lemma toUpperCase_hyphen_free s :
  hyphen_free (Js.toUpperCase s) = hyphen_free s.
Proof.
  induction s as [|c s IH]; simpl; [done|].
  by rewrite upper_ascii_hyphen, IH.
Qed.

(** For a name without hyphen the course id is recovered from the
    registration id. *)
Lemma extract_generate employeeName courseId :
  hyphen_free employeeName = true →
  extractCourseIdFromRegistration (generateRegistrationId employeeName courseId)
  = courseId.
Proof.
  intros Hn. unfold extractCourseIdFromRegistration, generateRegistrationId.
  change ("-" +:+ courseId) with (String hyphen courseId).
  rewrite split_app, split_hyphen_free by (by rewrite toUpperCase_hyphen_free).
  simpl. apply join_split.
Qed.

(** ** Keys *)

Lemma prefix_app p s : String.prefix p s = true ↔ ∃ r, s = p +:+ r.
Proof.
  revert s. induction p as [|c p IH]; intros s.
  - split; [intros _; by exists s|]. intros _. by destruct s.
  - destruct s as [|d s]; simpl; [split; [done|intros [r [=]]]|].
    destruct (ascii_dec c d) as [->|Hne].
    + rewrite IH. split; intros [r Hr]; exists r; [by subst|by injection Hr].
    + split; [done|]. intros [r Hr]. injection Hr as -> _. done.
Qed.

Lemma courseKey_inj a b : courseKey a = courseKey b → a = b.
Proof. unfold courseKey. intros [= E]. exact (String.app_inj _ _ _ E). Qed.

Lemma regKey_inj a b c d : regKey a b = regKey c d → a = c ∧ b = d.
Proof.
  unfold regKey. intros [= E1 E2].
  split; [exact (String.app_inj _ _ _ E1)|exact (String.app_inj _ _ _ E2)].
Qed.

Lemma courseKey_regKey a b c : courseKey a ≠ regKey b c.
Proof. unfold courseKey, regKey. by intros [= _ ?]. Qed.

Lemma courseKey_employeeKey a b c : courseKey a ≠ employeeKey b c.
Proof. unfold courseKey, employeeKey. by intros [= ? _]. Qed.

Lemma regKey_employeeKey a b c d : regKey a b ≠ employeeKey c d.
Proof. unfold regKey, employeeKey. by intros [= ? _]. Qed.

(** ** Transactions *)

Lemma putCommand_Some k it s s' :
  Ddb.putCommand k it s = Some s' → s' = <[k := it]> s.
Proof. unfold Ddb.putCommand, Ddb.put. case_match; by intros [= <-]. Qed.

Lemma putCommand_None k it s :
  Ddb.putCommand k it s = None → Ddb.marshalls it = false.
Proof. unfold Ddb.putCommand. by case_match. Qed.

Lemma action_for_Some k items a :
  action_for k items = Some a → a ∈ items ∧ Ddb.key_of a = k.
Proof.
  induction items as [|b items IH]; simpl; [done|].
  case_decide as Hk.
  - intros [= ->]. split; [left|done].
  - intros [Hin ?]%IH. split; [by right|done].
Qed.

Lemma action_for_None k items :
  action_for k items = None ↔ k ∉ Ddb.key_of <$> items.
Proof.
  induction items as [|b items IH]; simpl.
  - split; [intros _; apply not_elem_of_nil|done].
  - rewrite not_elem_of_cons. case_decide as Hk.
    + split; [done|]. intros [Hne _]. by destruct Hne.
    + rewrite IH. split; [by split; [apply not_eq_sym|]|by intros [_ ?]].
Qed.

Lemma apply_lookup_ne s a k :
  Ddb.key_of a ≠ k → Ddb.apply s a !! k = s !! k.
Proof.
  destruct a; simpl; unfold Ddb.put, Ddb.update; intros Hk.
  - by rewrite lookup_insert_ne.
  - by rewrite lookup_insert_ne.
  - by rewrite lookup_delete_ne.
Qed.

Lemma apply_lookup_eq s a :
  Ddb.apply s a !! Ddb.key_of a = effect (Some a) (s !! Ddb.key_of a).
Proof.
  destruct a; simpl; unfold Ddb.put, Ddb.update.
  - by rewrite lookup_insert_eq.
  - by rewrite lookup_insert_eq.
  - by rewrite lookup_delete_eq.
Qed.

Lemma foldl_apply_notin s items k :
  k ∉ Ddb.key_of <$> items → foldl Ddb.apply s items !! k = s !! k.
Proof.
  revert s. induction items as [|a items IH]; intros s; simpl; [done|].
  rewrite not_elem_of_cons. intros [Hk Hin].
  rewrite IH by done. by apply apply_lookup_ne.
Qed.

(** The table after the actions of a transaction, key by key. *)
Lemma foldl_apply_lookup s items k :
  NoDup (Ddb.key_of <$> items) →
  foldl Ddb.apply s items !! k = effect (action_for k items) (s !! k).
Proof.
  revert s. induction items as [|a items IH]; intros s; simpl; [done|].
  rewrite NoDup_cons. intros [Hnotin Hnodup].
  case_decide as Hk.
  - subst k. rewrite foldl_apply_notin by done. apply apply_lookup_eq.
  - rewrite IH by done. by rewrite apply_lookup_ne.
Qed.

Lemma transactWrite_Some items s s' :
  Ddb.transactWrite items s = Some s' →
  NoDup (Ddb.key_of <$> items) ∧ s' = foldl Ddb.apply s items.
Proof.
  unfold Ddb.transactWrite. case_bool_decide as Hc; [|done].
  intros [= <-]. by destruct Hc as (_ & _ & Hnodup).
Qed.

Lemma transactWrite_lookup items s s' k :
  Ddb.transactWrite items s = Some s' →
  s' !! k = effect (action_for k items) (s !! k).
Proof. intros [? ->]%transactWrite_Some. by apply foldl_apply_lookup. Qed.

(** ** Queries *)

Lemma elem_of_query pk skPrefix s it :
  it ∈ Ddb.query pk skPrefix s ↔
  ∃ sk, String.prefix skPrefix sk = true ∧ s !! (pk, sk) = Some it.
Proof.
  unfold Ddb.query. rewrite list_elem_of_fmap. split.
  - intros ([[pk' sk] it'] & -> & Hin). simpl.
    rewrite merge_sort_Permutation in Hin.
    apply list_elem_of_filter in Hin as [[Hpk Hsk] Hin]. simpl in *. subst pk'.
    apply elem_of_map_to_list in Hin. eauto.
  - intros (sk & Hsk & Hlook). exists ((pk, sk), it). split; [done|].
    rewrite merge_sort_Permutation. apply list_elem_of_filter. split; [done|].
    by apply elem_of_map_to_list.
Qed.

(** ** Well-formed tables *)

Lemma eval_registration_id u it :
  Item.registration_id (Ddb.eval u it) = Item.registration_id it.
Proof. by destruct u. Qed.

Lemma eval_min_employees u it :
  Item.min_employees (Ddb.eval u it) = Item.min_employees it.
Proof. by destruct u. Qed.

Lemma eval_start_date u it :
  Item.start_date (Ddb.eval u it) = Item.start_date it.
Proof. by destruct u. Qed.

Lemma wf_apply s a : wf s → actionOk s a → wf (Ddb.apply s a).
Proof.
  intros Hwf Ha. destruct a as [k it|k u|k]; simpl in *.
  - by apply map_Forall_insert_2.
  - destruct Ha as [[it Hit] Hu]. unfold Ddb.update. rewrite Hit. simpl.
    apply map_Forall_insert_2; [|done].
    destruct (Hwf k it Hit) as [Hreg Hmeta]. split.
    + intros x Hx. rewrite eval_registration_id. eauto.
    + intros Hk. rewrite eval_min_employees, eval_start_date.
      destruct (Hmeta Hk) as (Hmin & Hdate & Hallotted). do 2 (split; [done|]).
      destruct u as [n|v|a v]; simpl; [done..|].
      intros _. destruct Hu as (course_id & -> & Hacc). by exists course_id.
  - by apply map_Forall_delete.
Qed.

Lemma update_is_Some s k u k' :
  is_Some (s !! k') → is_Some (Ddb.update k u s !! k').
Proof.
  unfold Ddb.update. destruct (decide (k = k')) as [->|Hne].
  - rewrite lookup_insert_eq. eauto.
  - by rewrite lookup_insert_ne.
Qed.

Lemma wf_foldl_updates s items :
  wf s → Forall (λ a, actionOk s a ∧ isUpdate a) items →
  wf (foldl Ddb.apply s items).
Proof.
  revert s. induction items as [|a items IH]; intros s Hwf Hall; simpl; [done|].
  apply Forall_cons in Hall as [[Ha Hupd] Hall].
  apply IH; [by apply wf_apply|].
  eapply Forall_impl; [exact Hall|]. intros b [Hb Hupdb]. split; [|done].
  destruct a as [|k u|]; try done. simpl.
  destruct b as [|kb ub|]; try done. simpl in *.
  destruct Hb as [Hsome Hu]. split; [by apply update_is_Some|done].
Qed.

Lemma itemOk_newCourse course_id course_name instructor_name start_date mn mx :
  isValidDateFormat start_date = true →
  itemOk (courseKey course_id)
    (newCourse course_id course_name instructor_name start_date mn mx).
Proof.
  intros Hdate. split; [by intros x [=]|]. intros _.
  split; [by eexists|]. split; [by eexists|done].
Qed.

Lemma itemOk_registrationByCourse course_id rid name email now :
  itemOk (regKey course_id rid) (registrationByCourse rid name email course_id now).
Proof.
  split; [|by intros [=]]. simpl. intros x Hx.
  by rewrite (String.app_inj _ _ _ Hx).
Qed.

Lemma itemOk_registrationByEmployee course_id rid name email :
  itemOk (employeeKey email course_id) (registrationByEmployee rid name course_id).
Proof. split; [by intros x [=]|by intros [=]]. Qed.

Lemma wf_addCourseOffering today course_name instructor_name start_date mn mx s :
  wf s →
  wf (addCourseOffering today course_name instructor_name start_date mn mx s).2.
Proof.
  intros Hwf. unfold addCourseOffering.
  repeat case_match; simpl; try done.
  match goal with H : Ddb.putCommand _ _ _ = Some _ |- _ =>
    apply putCommand_Some in H as -> end.
  apply map_Forall_insert_2; [|done].
  apply itemOk_newCourse. by apply negb_false_iff.
Qed.

Lemma wf_registerForCourse now course_id employee_name email s :
  wf s → wf (registerForCourse now course_id employee_name email s).2.
Proof.
  intros Hwf. unfold registerForCourse.
  repeat case_match; simpl; try done.
  match goal with H : Ddb.transactWrite _ _ = Some _ |- _ =>
    apply transactWrite_Some in H as [_ ->] end.
  unfold registerItems. cbn [foldl].
  apply wf_apply; [apply wf_apply; [apply wf_apply; [done|]|]|]; simpl.
  - apply itemOk_registrationByCourse.
  - apply itemOk_registrationByEmployee.
  - split; [|done]. unfold Ddb.put, Ddb.get in *.
    rewrite !lookup_insert_ne by eauto using courseKey_regKey, courseKey_employeeKey.
    eauto.
Qed.

Lemma wf_cancelRegistration registration_id s :
  wf s → wf (cancelRegistration registration_id s).2.
Proof.
  intros Hwf. unfold cancelRegistration.
  repeat case_match; simpl; try done.
  match goal with H : Ddb.transactWrite _ _ = Some _ |- _ =>
    apply transactWrite_Some in H as [_ ->] end.
  unfold cancelItems. cbn [foldl].
  apply wf_apply; [apply wf_apply; [apply wf_apply; [done|]|]|]; simpl; try done.
  split; [|done]. unfold Ddb.get in *.
  rewrite !lookup_delete_ne by eauto using courseKey_regKey, courseKey_employeeKey.
  eauto.
Qed.

(** In a well-formed table the registrations that a course query returns
    are the rows filed under the course, each under its own id. *)
Lemma elem_of_query_reg s course_id reg :
  wf s →
  reg ∈ Ddb.query ("COURSE#" +:+ course_id) "REG#" s ↔
  ∃ x, s !! regKey course_id x = Some reg ∧ Item.registration_id reg = Some x.
Proof.
  intros Hwf. rewrite elem_of_query. split.
  - intros (sk & [x ->]%prefix_app & Hlook). exists x. split; [done|].
    by apply (Hwf _ _ Hlook).
  - intros (x & Hlook & _). exists ("REG#" +:+ x). split; [|done].
    apply prefix_app. eauto.
Qed.

Lemma allotKey_query s course_id reg :
  wf s → reg ∈ Ddb.query ("COURSE#" +:+ course_id) "REG#" s →
  s !! allotKey course_id reg = Some reg.
Proof.
  intros Hwf (x & Hlook & Hid)%elem_of_query_reg; [|done].
  unfold allotKey. by rewrite Hid.
Qed.


Lemma allotItems_ok s course_id regs st course :
  wf s → acceptedCourseId course_id →
  s !! courseKey course_id = Some course →
  regs = Ddb.query ("COURSE#" +:+ course_id) "REG#" s →
  Forall (λ a, actionOk s a ∧ isUpdate a) (allotItems course_id regs st).
Proof.
  intros Hwf Hacc Hcourse ->. unfold allotItems. apply Forall_app. split.
  - apply Forall_fmap, Forall_forall. intros reg Hreg. simpl.
    split; [|done]. split; [|done]. rewrite allotKey_query; eauto.
  - apply Forall_singleton. simpl. split; [|done]. split; [eauto|].
    by exists course_id.
Qed.

Lemma wf_allotCourse `{Collation} today course_id s :
  wf s → wf (allotCourse today course_id s).2.
Proof.
  intros Hwf. unfold allotCourse.
  destruct (Js.falsy course_id) eqn:Hf; [done|].
  destruct (isValidCourseIdFormat course_id) eqn:Hv; [|done]. simpl.
  unfold Ddb.get. destruct (s !! courseKey course_id) as [course|] eqn:Hc; [|done].
  destruct (startDatePassed today course); [done|].
  destruct (Item.allotted course); [done|].
  assert (∀ s', wf s' →
    wf (match sortByRegistrationId
                (updatedRegistration course_id course
                   (finalStatus (Ddb.query ("COURSE#" +:+ course_id) "REG#" s) course)
                 <$> Ddb.query ("COURSE#" +:+ course_id) "REG#" s) with
        | Some sortedRegistrations =>
            (Allotted
               (bool_decide
                  (finalStatus (Ddb.query ("COURSE#" +:+ course_id) "REG#" s) course
                   = COURSE_CANCELED))
               sortedRegistrations, s')
        | None => (handleControllerError, s')
        end).2) as Hsort.
  { intros s' Hs'. by destruct (sortByRegistrationId _). }
  destruct (0 <? length _)%nat.
  - destruct (Ddb.transactWrite _ s) as [s'|] eqn:Hw; [|done].
    apply Hsort. apply transactWrite_Some in Hw as [_ ->].
    apply wf_foldl_updates; [done|]. by eapply allotItems_ok.
  - apply Hsort.
    apply (wf_apply s (Ddb.Update _ _)); [done|]. simpl.
    split; [eauto|]. by exists course_id.
Qed.

Lemma wf_handle `{Collation} today now req s :
  wf s → wf (handle today now req s).2.
Proof.
  destruct req; simpl;
    eauto using wf_addCourseOffering, wf_registerForCourse,
      wf_cancelRegistration, wf_allotCourse.
Qed.

(** Every table of the service is well formed. *)
Lemma reachable_wf `{Collation} s : reachable s → wf s.
Proof.
  induction 1 as [|today now req s _ IH]; [apply map_Forall_empty|].
  by apply wf_handle.
Qed.

Lemma response_eta {A B} (p : A * B) (a : A) : p.1 = a → p = (a, p.2).
Proof. intros <-. by destruct p. Qed.

Lemma reachable_serve `{Collation} today now reqs s :
  reachable s → reachable (serve today now reqs s).
Proof.
  revert s. induction reqs as [|req reqs IH]; intros s Hs; [done|].
  apply IH. by constructor.
Qed.

Lemma reachable_scenario reqs : @reachable rootCollation (scenario reqs).
Proof. apply reachable_serve. constructor. Qed.

(** ** Allotment *)

(** What a successful allotment has gone through. *)
Lemma allotCourse_Allotted `{Collation} today course_id s isCanceled rows s' :
  allotCourse today course_id s = (Allotted isCanceled rows, s') →
  acceptedCourseId course_id ∧
  ∃ course,
    s !! courseKey course_id = Some course
    ∧ startDatePassed today course = false
    ∧ Item.allotted course = false
    ∧ let registrations := Ddb.query ("COURSE#" +:+ course_id) "REG#" s in
      let st := finalStatus registrations course in
      isCanceled = bool_decide (st = COURSE_CANCELED)
      ∧ sortByRegistrationId (updatedRegistration course_id course st <$> registrations)
        = Some rows
      ∧ (if (0 <? length registrations)%nat
         then Ddb.transactWrite (allotItems course_id registrations st) s = Some s'
         else s' = Ddb.update (courseKey course_id)
                     (Ddb.SET_is_allotted_course_status true COURSE_CANCELED) s).
Proof.
  unfold allotCourse, acceptedCourseId.
  destruct (Js.falsy course_id); [done|].
  destruct (isValidCourseIdFormat course_id); [|done]. simpl.
  unfold Ddb.get. destruct (s !! courseKey course_id) as [course|]; [|done].
  destruct (startDatePassed today course) eqn:Hdate; [done|].
  destruct (Item.allotted course) eqn:Hallotted; [done|].
  intros Hr. split; [done|]. exists course. do 3 (split; [done|]). simpl.
  destruct (0 <? length _)%nat.
  - destruct (Ddb.transactWrite _ s) as [s1|]; [|done].
    destruct (sortByRegistrationId _) as [sorted|]; [|done].
    by injection Hr as <- <- <-.
  - destruct (sortByRegistrationId _) as [sorted|]; [|done].
    by injection Hr as <- <- <-.
Qed.

Lemma action_for_allotItems_course course_id regs st :
  action_for (courseKey course_id) (allotItems course_id regs st)
  = Some (Ddb.Update (courseKey course_id)
            (Ddb.SET_is_allotted_course_status true st)).
Proof.
  unfold allotItems. induction regs as [|reg regs IH]; simpl.
  - by rewrite decide_True.
  - rewrite decide_False; [done|]. unfold allotKey.
    intros E. by eapply courseKey_regKey.
Qed.

Lemma action_for_allotItems_reg course_id regs st k :
  k ≠ courseKey course_id →
  action_for k (allotItems course_id regs st)
  = if decide (k ∈ allotKey course_id <$> regs)
    then Some (Ddb.Update k (Ddb.SET_status st)) else None.
Proof.
  intros Hk. unfold allotItems. induction regs as [|reg regs IH].
  - simpl. by rewrite decide_False by (intros E; by apply Hk).
  - rewrite !fmap_cons. cbn [app action_for Ddb.key_of].
    destruct (decide (allotKey course_id reg = k)) as [<-|Hreg].
    + rewrite decide_True; [done|]. left.
    + rewrite IH. destruct (decide (k ∈ allotKey course_id <$> regs)) as [Hin|Hin].
      * rewrite decide_True; [done|]. by right.
      * rewrite decide_False; [done|]. rewrite not_elem_of_cons. naive_solver.
Qed.

(** The rows of the course after the write of an allotment. *)
Lemma allot_write_reg s s' course_id st x :
  wf s →
  Ddb.transactWrite
    (allotItems course_id (Ddb.query ("COURSE#" +:+ course_id) "REG#" s) st) s
  = Some s' →
  s' !! regKey course_id x = Item.set_status st <$> s !! regKey course_id x.
Proof.
  intros Hwf Hw. rewrite (transactWrite_lookup _ _ _ _ Hw).
  rewrite action_for_allotItems_reg by (intros E; by eapply courseKey_regKey).
  destruct (s !! regKey course_id x) as [reg|] eqn:Hreg.
  - rewrite decide_True; [done|].
    apply list_elem_of_fmap. exists reg.
    assert (Item.registration_id reg = Some x) as Hid by by apply (Hwf _ _ Hreg).
    split; [unfold allotKey; by rewrite Hid|].
    apply elem_of_query_reg; eauto.
  - rewrite decide_False; [done|].
    intros (reg & Hk & Hin)%list_elem_of_fmap.
    apply (allotKey_query _ _ _ Hwf) in Hin. congruence.
Qed.

Lemma allot_write_course s s' course_id regs st course :
  s !! courseKey course_id = Some course →
  Ddb.transactWrite (allotItems course_id regs st) s = Some s' →
  s' !! courseKey course_id = Some (Item.set_allotted true st course).
Proof.
  intros Hc Hw. rewrite (transactWrite_lookup _ _ _ _ Hw).
  by rewrite action_for_allotItems_course, Hc.
Qed.

Lemma finalStatus_min regs course m :
  Item.min_employees course = Some m →
  finalStatus regs course
  = if m <=? Z.of_nat (length regs) then CONFIRMED else COURSE_CANCELED.
Proof. unfold finalStatus. by intros ->. Qed.

(** C2, as amended.  A successful allotment of a course that has at least
    one registration decides CONFIRMED when the number of rows filed
    under the course reaches [min_employees] and COURSE_CANCELED
    otherwise, and one transaction gives that status to every row of the
    course and to its [course_status], with [is_allotted] set.  With no
    registration the single update marks the course allotted and
    COURSE_CANCELED, whatever the threshold. *)
Theorem allot_final_status `{Collation} s today course_id isCanceled rows s' :
  reachable s →
  allotCourse today course_id s = (Allotted isCanceled rows, s') →
  ∃ course m,
    s !! courseKey course_id = Some course
    ∧ Item.min_employees course = Some m
    ∧ let registrations := Ddb.query ("COURSE#" +:+ course_id) "REG#" s in
      let n := Z.of_nat (length registrations) in
      let st := if m <=? n then CONFIRMED else COURSE_CANCELED in
      (0 < n →
         Ddb.transactWrite (allotItems course_id registrations st) s = Some s'
         ∧ (∀ x, s' !! regKey course_id x
                 = Item.set_status st <$> s !! regKey course_id x)
         ∧ s' !! courseKey course_id = Some (Item.set_allotted true st course))
      ∧ (n = 0 →
         s' = <[courseKey course_id := Item.set_allotted true COURSE_CANCELED course]> s).
Proof.
  intros Hwf%reachable_wf (Hacc & course & Hc & _ & _ & Hout)%allotCourse_Allotted.
  destruct (Hwf _ _ Hc) as [_ [[m Hm] _]]; [done|].
  exists course, m. do 2 (split; [done|]). simpl in *.
  destruct Hout as (_ & _ & Hw). rewrite (finalStatus_min _ _ _ Hm) in Hw.
  split.
  - intros Hn. destruct (0 <? length _)%nat eqn:Hlen.
    + split; [done|]. split; [|by eapply allot_write_course].
      intros x. by apply allot_write_reg.
    + apply Nat.ltb_ge in Hlen. lia.
  - intros Hn. destruct (0 <? length _)%nat eqn:Hlen.
    + apply Nat.ltb_lt in Hlen. lia.
    + subst s'. unfold Ddb.update. by rewrite Hc.
Qed.

Lemma allot_final_status_witness :
  let s := scenario [addJava 1 2; RegisterForCourse JAVA "ANDY" "ANDY@GMAIL.COM";
                     RegisterForCourse JAVA "JHON" "JHON@GMAIL.COM"] in
  let out := @allotCourse rootCollation (june2022 10) JAVA s in
  @reachable rootCollation s
  ∧ out = (Allotted (isCanceledOf out.1) (rowsOf out.1), out.2)
  ∧ ∃ course,
      out.2 !! courseKey JAVA = Some course
      ∧ Item.is_allotted course = Some true
      ∧ Item.course_status course = Some CONFIRMED.
Proof.
  intros s out.
  assert (@reachable rootCollation s) as Hreach by apply reachable_scenario.
  assert (out = (Allotted (isCanceledOf out.1) (rowsOf out.1), out.2)) as Hout
    by (apply response_eta; vm_compute; reflexivity).
  split; [exact Hreach|]. split; [exact Hout|].
  destruct (allot_final_status s (june2022 10) JAVA _ _ _ Hreach Hout)
    as (course & m & Hc & Hm & Hpos & _).
  vm_compute in Hc. injection Hc as <-.
  vm_compute in Hm. injection Hm as <-.
  destruct Hpos as (_ & _ & Hcourse); [vm_compute; reflexivity|].
  eexists. split; [exact Hcourse|]. split; reflexivity.
Defined.

(** C2, as stated, fails on a course with threshold 0 and no
    registration: the count reaches the threshold, the response reports
    an allotment that is not canceled, and the course is stored as
    COURSE_CANCELED. *)
Lemma allot_empty_course_zero_threshold :
  let s := scenario [addJava 0 2] in
  let out := @allotCourse rootCollation (june2022 10) JAVA s in
  length (Ddb.query ("COURSE#" +:+ JAVA) "REG#" s) = 0%nat
  ∧ Item.min_employees <$> s !! courseKey JAVA = Some (Some 0)
  ∧ out.1 = Allotted false []
  ∧ Item.course_status <$> out.2 !! courseKey JAVA = Some (Some COURSE_CANCELED).
Proof. vm_compute. done. Qed.

(** ** Allotment and the start date *)

Lemma startDatePassed_spec today course startDateStr startDay :
  Item.start_date course = Some startDateStr →
  String.length startDateStr = 8%nat →
  courseStartDate startDateStr = Some startDay →
  startDatePassed today course = (startDay <? today).
Proof.
  intros Hs Hlen Hday. unfold startDatePassed. rewrite Hs, Hlen, Hday.
  by destruct startDateStr.
Qed.

Lemma is_digit_cases c :
  Num.is_digit c = true →
  List.In c ["0"; "1"; "2"; "3"; "4"; "5"; "6"; "7"; "8"; "9"]%char.
Proof.
  destruct c as [[] [] [] [] [] [] [] []]; intros Hd; try discriminate Hd;
    simpl; auto 12.
Qed.

Lemma digits_prefix_acc r s acc :
  is_Some acc → is_Some (Num.digits_prefix r s acc).
Proof.
  revert acc. induction s as [|c s IH]; intros acc Hacc; simpl; [done|].
  destruct (Num.digit_value c) as [d|]; [|done].
  destruct (d <? r); [|done]. apply IH. eauto.
Qed.

(** [parseInt] reads a number in every non-empty string of digits. *)
Lemma parseInt_digits s :
  s ≠ "" → string_forall Num.is_digit s = true → is_Some (Num.parseInt None s).
Proof.
  destruct s as [|c s]; [done|]. intros _. simpl.
  intros [Hc Hs]%andb_prop. apply is_digit_cases in Hc. simpl in Hc.
  assert (∀ v, is_Some ((λ x, 1 * x) <$> Num.digits_prefix 10 s (Some v))) as Hrest.
  { intros v. apply fmap_is_Some, digits_prefix_acc. eauto. }
  destruct Hc as [<-|Hc].
  { destruct s as [|d s']; [by eexists|].
    simpl in Hs. apply andb_prop in Hs as [Hd Hs']. apply is_digit_cases in Hd.
    simpl in Hd.
    repeat (destruct Hd as [<-|Hd]; [apply Hrest|]). done. }
  repeat (destruct Hc as [<-|Hc]; [apply Hrest|]). done.
Qed.

(** A start date that [addCourseOffering] accepts has eight characters
    and denotes a day. *)
Lemma isValidDateFormat_parses startDateStr :
  isValidDateFormat startDateStr = true →
  String.length startDateStr = 8%nat ∧ is_Some (courseStartDate startDateStr).
Proof.
  unfold isValidDateFormat.
  destruct (Js.falsy startDateStr || _) eqn:Hlen; [done|].
  apply orb_false_elim in Hlen as [_ Hlen%negb_false_iff%Nat.eqb_eq].
  destruct (string_forall Num.is_digit startDateStr) eqn:Hdigits; [|done].
  intros _. split; [done|].
  destruct startDateStr as [|c0 [|c1 [|c2 [|c3 [|c4 [|c5 [|c6 [|c7 [|]]]]]]]]];
    try discriminate Hlen.
  cbn [string_forall] in Hdigits.
  apply andb_prop in Hdigits as [Hc0 Hdigits].
  apply andb_prop in Hdigits as [Hc1 Hdigits].
  apply andb_prop in Hdigits as [Hc2 Hdigits].
  apply andb_prop in Hdigits as [Hc3 Hdigits].
  apply andb_prop in Hdigits as [Hc4 Hdigits].
  apply andb_prop in Hdigits as [Hc5 Hdigits].
  apply andb_prop in Hdigits as [Hc6 Hdigits].
  apply andb_prop in Hdigits as [Hc7 _].
  change (is_Some (Num.newDate
            (Num.parseInt None (String c4 (String c5 (String c6 (String c7 "")))))
            ((λ m, m - 1) <$> Num.parseInt None (String c2 (String c3 "")))
            (Num.parseInt None (String c0 (String c1 ""))))).
  destruct (parseInt_digits (String c0 (String c1 ""))) as [day ->];
    [done|cbn [string_forall]; by rewrite Hc0, Hc1|].
  destruct (parseInt_digits (String c2 (String c3 ""))) as [month ->];
    [done|cbn [string_forall]; by rewrite Hc2, Hc3|].
  destruct (parseInt_digits (String c4 (String c5 (String c6 (String c7 "")))))
    as [year ->]; [done|cbn [string_forall]; by rewrite Hc4, Hc5, Hc6, Hc7|].
  by eexists.
Qed.

(** The check of the start date, on any table. *)
Lemma allotCourse_start_date `{Collation} s today course_id course
    startDateStr startDay :
  acceptedCourseId course_id →
  s !! courseKey course_id = Some course →
  Item.start_date course = Some startDateStr →
  String.length startDateStr = 8%nat →
  courseStartDate startDateStr = Some startDay →
  (startDay < today →
     allotCourse today course_id s = (Failure 400 COURSE_ALLOT_DATE_ERROR, s))
  ∧ (today <= startDay → Item.allotted course = false →
       isConflict (allotCourse today course_id s).1 = false).
Proof.
  intros [Hf Hv] Hc Hs Hlen Hday.
  pose proof (startDatePassed_spec today _ _ _ Hs Hlen Hday) as Hpassed.
  unfold allotCourse, Ddb.get. rewrite Hf, Hv, Hc, Hpassed. simpl. split.
  - intros Hlt. by rewrite (proj2 (Z.ltb_lt _ _) Hlt).
  - intros Hle Hallotted. rewrite (proj2 (Z.ltb_ge _ _) Hle), Hallotted.
    destruct (0 <? length _)%nat.
    + destruct (Ddb.transactWrite _ s); [|done].
      by destruct (sortByRegistrationId _).
    + by destruct (sortByRegistrationId _).
Qed.

(** C6, as amended.  Every course of the service has a start date that
    denotes a day.  For a course under an id that the controller accepts,
    an allotment asked on a later day fails with COURSE_ALLOT_DATE_ERROR
    and writes nothing; asked on the start day or before, for a course
    not yet allotted, it is not refused. *)
Theorem allot_after_start_date `{Collation} s today course_id course :
  reachable s →
  acceptedCourseId course_id →
  s !! courseKey course_id = Some course →
  ∃ startDateStr startDay,
    Item.start_date course = Some startDateStr
    ∧ courseStartDate startDateStr = Some startDay
    ∧ (startDay < today →
         allotCourse today course_id s = (Failure 400 COURSE_ALLOT_DATE_ERROR, s))
    ∧ (today <= startDay → Item.allotted course = false →
         isConflict (allotCourse today course_id s).1 = false).
Proof.
  intros Hwf%reachable_wf Hacc Hc.
  destruct (Hwf _ _ Hc) as [_ Hmeta].
  destruct Hmeta as (_ & (startDateStr & Hs & Hvalid) & _); [done|].
  destruct (isValidDateFormat_parses _ Hvalid) as [Hlen [startDay Hday]].
  exists startDateStr, startDay. do 2 (split; [done|]).
  by apply (allotCourse_start_date s today course_id course startDateStr).
Qed.

Lemma allot_after_start_date_witness :
  let s := scenario [addJava 1 2; RegisterForCourse JAVA "ANDY" "ANDY@GMAIL.COM"] in
  @reachable rootCollation s
  ∧ acceptedCourseId JAVA
  ∧ @allotCourse rootCollation (june2022 16) JAVA s
    = (Failure 400 COURSE_ALLOT_DATE_ERROR, s)
  ∧ isConflict (@allotCourse rootCollation (june2022 15) JAVA s).1 = false.
Proof.
  intros s.
  assert (@reachable rootCollation s) as Hreach by apply reachable_scenario.
  assert (acceptedCourseId JAVA) as Hacc by (split; reflexivity).
  split; [exact Hreach|]. split; [exact Hacc|].
  assert (s !! courseKey JAVA
          = Some (Item.add_current_count 1
                    (newCourse JAVA "JAVA" "JAMES" "15062022" 1 2))) as Hc
    by (vm_compute; reflexivity).
  split.
  - destruct (allot_after_start_date s (june2022 16) JAVA _ Hreach Hacc Hc)
      as (str & day & Hs & Hday & Hafter & _).
    injection Hs as <-. vm_compute in Hday. injection Hday as <-.
    by apply Hafter.
  - destruct (allot_after_start_date s (june2022 15) JAVA _ Hreach Hacc Hc)
      as (str & day & Hs & Hday & _ & Hbefore).
    injection Hs as <-. vm_compute in Hday. injection Hday as <-.
    by apply Hbefore.
Defined.

(** C6, as stated, fails on the start date itself: the course of the
    example starts on 15 June 2022 and is not allotted; asked on that
    day, the allotment is carried out. *)
Lemma allot_on_start_date :
  let s := scenario [addJava 1 2; RegisterForCourse JAVA "ANDY" "ANDY@GMAIL.COM"] in
  let out := @allotCourse rootCollation (june2022 15) JAVA s in
  Item.start_date <$> s !! courseKey JAVA = Some (Some "15062022")
  ∧ courseStartDate "15062022" = Some (june2022 15)
  ∧ Item.is_allotted <$> s !! courseKey JAVA = Some (Some false)
  ∧ isConflict out.1 = false
  ∧ Item.is_allotted <$> out.2 !! courseKey JAVA = Some (Some true).
Proof. vm_compute. done. Qed.

(** ** The allotment is final *)

Lemma allotted_true it : Item.allotted it = true ↔ Item.is_allotted it = Some true.
Proof. unfold Item.allotted. destruct (Item.is_allotted it) as [[]|]; naive_solver. Qed.

Lemma eval_keeps_allotted u it :
  match u with Ddb.SET_is_allotted_course_status a _ => a = true | _ => True end →
  Item.allotted it = true → Item.allotted (Ddb.eval u it) = true.
Proof. destruct u as [n|v|a v]; simpl; [done..|]. by intros ->. Qed.

Lemma apply_keeps_allotted s a pk course :
  keepsAllotted a →
  s !! (pk, "METADATA") = Some course → Item.allotted course = true →
  ∃ course', Ddb.apply s a !! (pk, "METADATA") = Some course'
             ∧ Item.allotted course' = true.
Proof.
  intros Ha Hc Hallotted.
  destruct (decide (Ddb.key_of a = (pk, "METADATA"))) as [Hk|Hk].
  - rewrite <- Hk, apply_lookup_eq, Hk, Hc.
    destruct a as [k it|k u|k]; simpl in *; [by subst k..| |by subst k].
    eexists. split; [done|]. apply eval_keeps_allotted; [|done]. by destruct u.
  - rewrite apply_lookup_ne by done. eauto.
Qed.

Lemma foldl_keeps_allotted s items pk course :
  Forall keepsAllotted items →
  s !! (pk, "METADATA") = Some course → Item.allotted course = true →
  ∃ course', foldl Ddb.apply s items !! (pk, "METADATA") = Some course'
             ∧ Item.allotted course' = true.
Proof.
  revert s course. induction items as [|a items IH]; intros s course Hall Hc Ha.
  - eauto.
  - apply Forall_cons in Hall as [Hka Hall]. simpl.
    destruct (apply_keeps_allotted s a pk course Hka Hc Ha) as (c1 & Hc1 & Ha1).
    eauto.
Qed.

Lemma transactWrite_keeps_allotted s s' items pk course :
  Forall keepsAllotted items → Ddb.transactWrite items s = Some s' →
  s !! (pk, "METADATA") = Some course → Item.allotted course = true →
  ∃ course', s' !! (pk, "METADATA") = Some course' ∧ Item.allotted course' = true.
Proof. intros Hall [_ ->]%transactWrite_Some. by apply foldl_keeps_allotted. Qed.

Lemma keepsAllotted_registerItems course_id rid name email now :
  Forall keepsAllotted (registerItems course_id rid name email now).
Proof. repeat constructor; by intros [=]. Qed.

Lemma keepsAllotted_cancelItems course_id rid email :
  Forall keepsAllotted (cancelItems course_id rid email).
Proof. repeat constructor; by intros [=]. Qed.

Lemma keepsAllotted_allotItems course_id regs st :
  Forall keepsAllotted (allotItems course_id regs st).
Proof.
  unfold allotItems. apply Forall_app. split.
  - by apply Forall_fmap, Forall_true.
  - by apply Forall_singleton.
Qed.

(** The table that an allotment leaves: the one it found, or the result
    of its one write. *)
Lemma allotCourse_table `{Collation} today course_id s :
  (allotCourse today course_id s).2 = s
  ∨ (acceptedCourseId course_id
     ∧ ∃ course,
         s !! courseKey course_id = Some course
         ∧ ((∃ st, Ddb.transactWrite
                     (allotItems course_id
                        (Ddb.query ("COURSE#" +:+ course_id) "REG#" s) st) s
                   = Some (allotCourse today course_id s).2)
            ∨ (allotCourse today course_id s).2
              = Ddb.update (courseKey course_id)
                  (Ddb.SET_is_allotted_course_status true COURSE_CANCELED) s)).
Proof.
  unfold allotCourse, acceptedCourseId.
  destruct (Js.falsy course_id); [by left|].
  destruct (isValidCourseIdFormat course_id); [|by left]. simpl.
  unfold Ddb.get. destruct (s !! courseKey course_id) as [course|]; [|by left].
  destruct (startDatePassed today course); [by left|].
  destruct (Item.allotted course); [by left|].
  destruct (0 <? length _)%nat.
  - destruct (Ddb.transactWrite _ s) as [s'|] eqn:Hw; [|by left].
    right. split; [done|]. exists course. split; [done|]. left.
    eexists. rewrite Hw. by destruct (sortByRegistrationId _).
  - right. split; [done|]. exists course. split; [done|]. right.
    by destruct (sortByRegistrationId _).
Qed.

(** No request takes the allotment of a course back. *)
Lemma handle_keeps_allotted `{Collation} today now req s pk course :
  s !! (pk, "METADATA") = Some course → Item.allotted course = true →
  ∃ course', (handle today now req s).2 !! (pk, "METADATA") = Some course'
             ∧ Item.allotted course' = true.
Proof.
  intros Hc Ha.
  assert (∃ course', s !! (pk, "METADATA") = Some course'
                     ∧ Item.allotted course' = true) as Hsame by eauto.
  destruct req as [cn instr sd mn mx|cid name email|rid|cid]; simpl.
  - unfold addCourseOffering. repeat case_match; simpl; try done.
    match goal with H : Ddb.putCommand _ _ _ = Some _ |- _ =>
      apply putCommand_Some in H as -> end.
    unfold Ddb.get in *. rewrite lookup_insert_ne; [done|].
    intros E. rewrite E in *. congruence.
  - unfold registerForCourse. repeat case_match; simpl; try done.
    eapply transactWrite_keeps_allotted;
      eauto using keepsAllotted_registerItems.
  - unfold cancelRegistration. repeat case_match; simpl; try done.
    eapply transactWrite_keeps_allotted;
      eauto using keepsAllotted_cancelItems.
  - destruct (allotCourse_table today cid s)
      as [->|(_ & c & _ & [[st Hw]| ->])].
    + done.
    + eapply transactWrite_keeps_allotted; eauto using keepsAllotted_allotItems.
    + by apply (apply_keeps_allotted s (Ddb.Update _ _) pk course).
Qed.

Lemma serve_keeps_allotted `{Collation} today now reqs s pk course :
  s !! (pk, "METADATA") = Some course → Item.allotted course = true →
  ∃ course', serve today now reqs s !! (pk, "METADATA") = Some course'
             ∧ Item.allotted course' = true.
Proof.
  revert s course. induction reqs as [|req reqs IH]; intros s course Hc Ha.
  - eauto.
  - destruct (handle_keeps_allotted today now req s pk course Hc Ha)
      as (c1 & Hc1 & Ha1). simpl. eauto.
Qed.





(** ** The list that an allotment returns *)

Section SortByRegistrationId.
Context `{Collation}.

Lemma insertSorted_Permutation a l r :
  insertSorted a l = Some r → r ≡ₚ a :: l.
Proof.
  revert r. induction l as [|b l IH]; intros r; simpl.
  - by intros [= <-].
  - destruct (compareRegistrations a b) as [c|]; [|done]. simpl.
    destruct (c <=? 0); [by intros [= <-]|].
    destruct (insertSorted a l) as [r'|]; [|done]. simpl.
    intros [= <-]. rewrite (IH r' eq_refl). apply perm_swap.
Qed.

Lemma sortByRegistrationId_Permutation items sorted :
  sortByRegistrationId items = Some sorted → sorted ≡ₚ items.
Proof.
  revert sorted. induction items as [|a items IH]; intros sorted; simpl.
  - by intros [= <-].
  - destruct (sortByRegistrationId items) as [r|]; [|done]. simpl.
    intros Hins%insertSorted_Permutation. by rewrite Hins, (IH r eq_refl).
Qed.

Lemma insertSorted_HdRel b a l r :
  allotment_le b a → HdRel allotment_le b l →
  insertSorted a l = Some r → HdRel allotment_le b r.
Proof.
  intros Hba Hbl. destruct l as [|b' l]; simpl.
  - intros [= <-]. by constructor.
  - destruct (compareRegistrations a b') as [c|]; [|done]. simpl.
    destruct (c <=? 0); [intros [= <-]; by constructor|].
    destruct (insertSorted a l) as [r'|]; [|done]. simpl.
    intros [= <-]. constructor. by inversion Hbl.
Qed.

Context `{!ConsistentCollation}.

Lemma allotment_le_total a b :
  is_Some (Allotment.registration_id a) → is_Some (Allotment.registration_id b) →
  allotment_le a b ∨ allotment_le b a.
Proof.
  intros [x Hx] [y Hy]. unfold allotment_le. rewrite Hx, Hy.
  apply collation_total.
Qed.

Lemma insertSorted_Sorted a l r :
  is_Some (Allotment.registration_id a) →
  Forall (λ b, is_Some (Allotment.registration_id b)) l →
  Sorted allotment_le l →
  insertSorted a l = Some r → Sorted allotment_le r.
Proof.
  intros Ha. revert r. induction l as [|b l IH]; intros r Hall Hsorted; simpl.
  - intros [= <-]. by repeat constructor.
  - apply Forall_cons in Hall as [Hb Hall].
    apply Sorted_inv in Hsorted as [Hsorted Hhd].
    destruct (compareRegistrations a b) as [c|] eqn:Hc; [|done]. simpl.
    destruct (c <=? 0) eqn:Hle.
    + intros [= <-]. constructor; [by constructor|]. constructor.
      destruct Ha as [x Hx], Hb as [y Hy].
      unfold compareRegistrations in Hc. rewrite Hx, Hy in Hc.
      injection Hc as <-. unfold allotment_le, collation_le.
      rewrite Hx, Hy. by apply Z.leb_le.
    + destruct (insertSorted a l) as [r'|] eqn:Hins; [|done]. simpl.
      intros [= <-]. constructor; [by apply IH|].
      eapply insertSorted_HdRel; [|done..].
      destruct (allotment_le_total a b Ha Hb) as [Hab|]; [|done].
      destruct Ha as [x Hx], Hb as [y Hy].
      unfold compareRegistrations in Hc. rewrite Hx, Hy in Hc.
      injection Hc as <-. unfold allotment_le, collation_le in Hab.
      rewrite Hx, Hy in Hab. apply Z.leb_gt in Hle. lia.
Qed.

Lemma sortByRegistrationId_Sorted items sorted :
  Forall (λ a, is_Some (Allotment.registration_id a)) items →
  sortByRegistrationId items = Some sorted → Sorted allotment_le sorted.
Proof.
  revert sorted. induction items as [|a items IH]; intros sorted Hall; simpl.
  - intros [= <-]. constructor.
  - apply Forall_cons in Hall as [Ha Hall].
    destruct (sortByRegistrationId items) as [r|] eqn:Hr; [|done]. simpl.
    apply insertSorted_Sorted; [done| |by apply IH].
    by rewrite (sortByRegistrationId_Permutation _ _ Hr).
Qed.

(** The list that a successful allotment returns is sorted by
    registration id in the ascending order of the collation, it is the
    list of the registrations filed under the course, one entry for each,
    and every entry carries the status that the allotment decided. *)
Lemma allotCourse_returns s today course_id isCanceled rows s' :
  reachable s →
  allotCourse today course_id s = (Allotted isCanceled rows, s') →
  ∃ course m,
    s !! courseKey course_id = Some course
    ∧ Item.min_employees course = Some m
    ∧ let registrations := Ddb.query ("COURSE#" +:+ course_id) "REG#" s in
      let st := if m <=? Z.of_nat (length registrations)
                then CONFIRMED else COURSE_CANCELED in
      Sorted allotment_le rows
      ∧ rows ≡ₚ updatedRegistration course_id course st <$> registrations
      ∧ (∀ x, (∃ row, row ∈ rows ∧ Allotment.registration_id row = Some x)
              ↔ is_Some (s !! regKey course_id x))
      ∧ Forall (λ row, Allotment.status row = st) rows.
Proof.
  intros Hwf%reachable_wf (Hacc & course & Hc & _ & _ & Hout)%allotCourse_Allotted.
  destruct (Hwf _ _ Hc) as [_ [[m Hm] _]]; [done|].
  exists course, m. do 2 (split; [done|]). simpl in *.
  destruct Hout as (_ & Hsort & _). rewrite (finalStatus_min _ _ _ Hm) in Hsort.
  pose proof (sortByRegistrationId_Permutation _ _ Hsort) as Hperm.
  split; [|split; [done|split]].
  - eapply sortByRegistrationId_Sorted; [|done].
    apply Forall_fmap, Forall_forall. intros reg Hreg. simpl.
    apply (elem_of_query_reg _ _ _ Hwf) in Hreg as (x & _ & ->). eauto.
  - intros x. split.
    + intros (row & Hrow & Hid). rewrite Hperm in Hrow.
      apply list_elem_of_fmap in Hrow as (reg & -> & Hreg). simpl in Hid.
      apply (elem_of_query_reg _ _ _ Hwf) in Hreg as (y & Hlook & Hy).
      assert (y = x) as -> by congruence. eauto.
    + intros [reg Hlook].
      assert (Item.registration_id reg = Some x) as Hid by by apply (Hwf _ _ Hlook).
      exists (updatedRegistration course_id course
                (if m <=? Z.of_nat (length (Ddb.query ("COURSE#" +:+ course_id) "REG#" s))
                 then CONFIRMED else COURSE_CANCELED) reg).
      split; [|exact Hid].
      rewrite Hperm. apply list_elem_of_fmap. eexists. split; [reflexivity|].
      apply elem_of_query_reg; eauto.
  - rewrite Hperm. by apply Forall_fmap, Forall_true.
Qed.

End SortByRegistrationId.

(** The root collation compares the sort keys as sequences of weights. *)
Lemma root_le a b :
  @collation_le rootCollation a b ↔ String.le (Root.sortKey a) (Root.sortKey b).
Proof.
  unfold collation_le, localeCompare, rootCollation, Root.compare.
  unfold String.le, String.leb.
  destruct (String.compare _ _); simpl; split; (done || lia).
Qed.

Lemma root_consistent : @ConsistentCollation rootCollation.
Proof.
  split.
  - intros a b. rewrite !root_le. apply total, _.
  - intros a b c. rewrite !root_le. apply transitivity.
Qed.

Lemma ascii_compare_zero c : c ≠ zero → Ascii.compare zero c = Lt.
Proof. destruct c as [[] [] [] [] [] [] [] []]; (done || by intros []). Qed.

Lemma string_compare_refl s : String.compare s s = Eq.
Proof.
  induction s as [|c s IH]; [done|]. simpl.
  unfold Ascii.compare. by rewrite N.compare_refl.
Qed.

(** Two sort keys are compared level by level. *)
Lemma compare_keys p1 p2 t1 t2 :
  zero_free p1 = true → zero_free p2 = true →
  String.compare (p1 +:+ String zero t1) (p2 +:+ String zero t2)
  = match String.compare p1 p2 with
    | Eq => String.compare t1 t2
    | r => r
    end.
Proof.
  revert p2. induction p1 as [|c p1 IH]; intros [|d p2]; simpl.
  - intros _ _. done.
  - intros _ [Hd _]%andb_prop. apply negb_true_iff, Ascii.eqb_neq in Hd.
    change (String.compare (String zero t1) (String d (p2 +:+ String zero t2)))
      with (match Ascii.compare zero d with
            | Eq => String.compare t1 (p2 +:+ String zero t2) | r => r end).
    by rewrite ascii_compare_zero.
  - intros [Hc _]%andb_prop _. apply negb_true_iff, Ascii.eqb_neq in Hc.
    change (String.compare (String c (p1 +:+ String zero t1)) (String zero t2))
      with (match Ascii.compare c zero with
            | Eq => String.compare (p1 +:+ String zero t1) t2 | r => r end).
    rewrite Ascii.compare_antisym, ascii_compare_zero by done. done.
  - intros [_ H1]%andb_prop [_ H2]%andb_prop.
    change (String.compare (String c (p1 +:+ String zero t1))
              (String d (p2 +:+ String zero t2)))
      with (match Ascii.compare c d with
            | Eq => String.compare (p1 +:+ String zero t1) (p2 +:+ String zero t2)
            | r => r end).
    rewrite IH by done. by destruct (Ascii.compare c d).
Qed.

Lemma primary_nonzero c : Ascii.eqb (ascii_of_nat (Root.primary c)) zero = false.
Proof. destruct c as [[] [] [] [] [] [] [] []]; reflexivity. Qed.

Lemma weights_primary_zero_free s : zero_free (Root.weights Root.primary s) = true.
Proof.
  induction s as [|c s IH]; [done|]. simpl.
  destruct (Root.ignorable c); [done|]. simpl. by rewrite primary_nonzero.
Qed.

Lemma elem_of_all_ascii c : c ∈ all_ascii.
Proof.
  unfold all_ascii. apply list_elem_of_fmap. exists (nat_of_ascii c).
  split; [by rewrite ascii_nat_embedding|].
  apply elem_of_seq. pose proof (nat_ascii_bounded c). lia.
Qed.

Lemma plain_not_ignorable c : plain c = true → Root.ignorable c = false.
Proof.
  intros Hc. destruct c as [[] [] [] [] [] [] [] []]; (done || by vm_compute in Hc).
Qed.

(** On the plain characters the primary weights go up with the character
    codes. *)
Lemma primary_monotone c d :
  plain c = true → plain d = true →
  Ascii.compare (ascii_of_nat (Root.primary c)) (ascii_of_nat (Root.primary d))
  = Ascii.compare c d.
Proof.
  assert (forallb (λ c, forallb (λ d,
            implb (plain c && plain d)
              (bool_decide (Ascii.compare (ascii_of_nat (Root.primary c))
                              (ascii_of_nat (Root.primary d))
                            = Ascii.compare c d))) all_ascii) all_ascii = true) as Hall
    by (vm_compute; reflexivity).
  intros Hc Hd. rewrite forallb_forall in Hall.
  specialize (Hall c (proj1 (list_elem_of_In _ _) (elem_of_all_ascii c))).
  rewrite forallb_forall in Hall.
  specialize (Hall d (proj1 (list_elem_of_In _ _) (elem_of_all_ascii d))).
  rewrite Hc, Hd in Hall. simpl in Hall. by apply bool_decide_eq_true in Hall.
Qed.

Lemma plain_primary_compare a b :
  plainId a = true → plainId b = true →
  String.compare (Root.weights Root.primary a) (Root.weights Root.primary b)
  = String.compare a b.
Proof.
  revert b. induction a as [|c a IH]; intros [|d b]; unfold plainId; simpl;
    try done.
  - intros _ [Hd _]%andb_prop. by rewrite (plain_not_ignorable d).
  - intros [Hc _]%andb_prop _. by rewrite (plain_not_ignorable c).
  - intros [Hc Ha]%andb_prop [Hd Hb]%andb_prop.
    rewrite (plain_not_ignorable c), (plain_not_ignorable d) by done.
    change (String.compare (String ?x ?s) (String ?y ?t))
      with (match Ascii.compare x y with Eq => String.compare s t | r => r end).
    by rewrite primary_monotone, IH.
Qed.

(** On the ids made of upper-case letters, digits, hyphens and spaces the
    collation is the lexicographic order of the character codes. *)
Lemma root_le_plain a b :
  plainId a = true → plainId b = true →
  @collation_le rootCollation a b ↔ String.le a b.
Proof.
  intros Ha Hb. unfold collation_le, localeCompare, rootCollation, Root.compare.
  unfold Root.sortKey. rewrite compare_keys by apply weights_primary_zero_free.
  rewrite plain_primary_compare by done.
  unfold String.le, String.leb.
  destruct (String.compare a b) eqn:E.
  - apply String.compare_eq_iff in E as ->. rewrite string_compare_refl.
    split; (done || lia).
  - split; (done || lia).
  - split; (done || lia).
Qed.

Lemma Sorted_weaken {A} (R R' : A → A → Prop) l :
  (∀ a b, a ∈ l → b ∈ l → R a b → R' a b) → Sorted R l → Sorted R' l.
Proof.
  induction l as [|a l IH]; intros Himp Hsorted; [constructor|].
  apply Sorted_inv in Hsorted as [Hsorted Hhd]. constructor.
  - apply IH; [|done]. intros b c Hb Hc. apply Himp; by right.
  - destruct Hhd as [|b l Hab]; constructor.
    apply Himp; [by left|by right; left|done].
Qed.

(** C9, as amended.  The list that a successful allotment returns is the
    list of the registrations filed under the course, one entry for each,
    every entry with the status that the allotment decided, in the
    ascending order that the collation of [localeCompare] gives to the
    registration ids.  When the ids are made of upper-case letters,
    digits, hyphens and spaces only, that order is the ascending
    lexicographic order. *)
Theorem allot_returns_sorted s today course_id isCanceled rows s' :
  @reachable rootCollation s →
  @allotCourse rootCollation today course_id s = (Allotted isCanceled rows, s') →
  asciiIds rows = true →
  ∃ course m,
    s !! courseKey course_id = Some course
    ∧ Item.min_employees course = Some m
    ∧ let registrations := Ddb.query ("COURSE#" +:+ course_id) "REG#" s in
      let st := if m <=? Z.of_nat (length registrations)
                then CONFIRMED else COURSE_CANCELED in
      Sorted (@allotment_le rootCollation) rows
      ∧ (plainIds rows = true → Sorted allotment_lex rows)
      ∧ rows ≡ₚ updatedRegistration course_id course st <$> registrations
      ∧ (∀ x, (∃ row, row ∈ rows ∧ Allotment.registration_id row = Some x)
              ↔ is_Some (s !! regKey course_id x))
      ∧ Forall (λ row, Allotment.status row = st) rows.
Proof.
  intros Hs Hallot _.
  destruct (@allotCourse_returns rootCollation root_consistent
              s today course_id isCanceled rows s' Hs Hallot)
    as (course & m & Hc & Hm & Hsorted & Hperm & Hin & Hst).
  exists course, m. do 2 (split; [done|]). simpl.
  split; [done|]. split; [|done].
  intros Hplain. eapply Sorted_weaken; [|exact Hsorted].
  intros a b Ha Hb. unfold allotment_le, allotment_lex.
  unfold plainIds in Hplain. rewrite forallb_forall in Hplain.
  pose proof (Hplain a (proj1 (list_elem_of_In _ _) Ha)) as Hpa.
  pose proof (Hplain b (proj1 (list_elem_of_In _ _) Hb)) as Hpb.
  destruct (Allotment.registration_id a) as [x|]; [|done].
  destruct (Allotment.registration_id b) as [y|]; [|done].
  simpl in Hpa, Hpb. by apply root_le_plain.
Qed.

Lemma allot_returns_sorted_witness :
  let s := scenario [addJava 1 3; RegisterForCourse JAVA "JHON" "JHON@GMAIL.COM";
                     RegisterForCourse JAVA "AB" "AB@GMAIL.COM";
                     RegisterForCourse JAVA "A 1" "A1@GMAIL.COM"] in
  let out := @allotCourse rootCollation (june2022 10) JAVA s in
  let s2 := scenario [addJava 1 2; RegisterForCourse JAVA "AB" "AB@GMAIL.COM";
                      RegisterForCourse JAVA "A_" "A_@GMAIL.COM"] in
  let out2 := @allotCourse rootCollation (june2022 10) JAVA s2 in
  (Allotment.registration_id <$> rowsOf out.1
   = [Some "A 1-OFFERING-JAVA-JAMES"; Some "AB-OFFERING-JAVA-JAMES";
      Some "JHON-OFFERING-JAVA-JAMES"]
   ∧ Sorted (@allotment_le rootCollation) (rowsOf out.1)
   ∧ Sorted allotment_lex (rowsOf out.1)
   ∧ Forall (λ row, Allotment.status row = CONFIRMED) (rowsOf out.1))
  ∧ (Item.registration_id <$> Ddb.query ("COURSE#" +:+ JAVA) "REG#" s2
     = [Some "AB-OFFERING-JAVA-JAMES"; Some "A_-OFFERING-JAVA-JAMES"]
     ∧ Allotment.registration_id <$> rowsOf out2.1
       = [Some "A_-OFFERING-JAVA-JAMES"; Some "AB-OFFERING-JAVA-JAMES"]
     ∧ Sorted (@allotment_le rootCollation) (rowsOf out2.1)).
Proof.
  intros s out s2 out2. split.
  - assert (@reachable rootCollation s) as Hreach by apply reachable_scenario.
    assert (out = (Allotted (isCanceledOf out.1) (rowsOf out.1), out.2)) as Hout
      by (apply response_eta; vm_compute; reflexivity).
    assert (asciiIds (rowsOf out.1) = true) as Hascii by (vm_compute; reflexivity).
    assert (plainIds (rowsOf out.1) = true) as Hplain by (vm_compute; reflexivity).
    split; [vm_compute; reflexivity|].
    destruct (allot_returns_sorted s (june2022 10) JAVA _ _ _ Hreach Hout Hascii)
      as (course & m & Hc & Hm & Hsorted & Hlex & _ & _ & Hstatus).
    split; [exact Hsorted|]. split; [exact (Hlex Hplain)|].
    vm_compute in Hc. injection Hc as <-.
    vm_compute in Hm. injection Hm as <-.
    vm_compute in Hstatus. vm_compute. exact Hstatus.
  - assert (@reachable rootCollation s2) as Hreach by apply reachable_scenario.
    assert (out2 = (Allotted (isCanceledOf out2.1) (rowsOf out2.1), out2.2)) as Hout
      by (apply response_eta; vm_compute; reflexivity).
    assert (asciiIds (rowsOf out2.1) = true) as Hascii by (vm_compute; reflexivity).
    split; [vm_compute; reflexivity|]. split; [vm_compute; reflexivity|].
    destruct (allot_returns_sorted s2 (june2022 10) JAVA _ _ _ Hreach Hout Hascii)
      as (course & m & _ & _ & Hsorted & _).
    exact Hsorted.
Defined.

(** C9 fails on ids with an underscore.  The store hands the rows over
    by ascending sort key, AB before A_; the sort by [localeCompare] puts
    A_ first, for the collation ranks the underscore before the letters:
    the list returned is not in lexicographic order, where B (code 66)
    comes before the underscore (code 95). *)
Theorem allot_sorts_by_collation :
  let s := scenario [addJava 1 2; RegisterForCourse JAVA "AB" "AB@GMAIL.COM";
                     RegisterForCourse JAVA "A_" "A_@GMAIL.COM"] in
  let out := @allotCourse rootCollation (june2022 10) JAVA s in
  Item.registration_id <$> Ddb.query ("COURSE#" +:+ JAVA) "REG#" s
  = [Some "AB-OFFERING-JAVA-JAMES"; Some "A_-OFFERING-JAVA-JAMES"]
  ∧ Allotment.registration_id <$> rowsOf out.1
    = [Some "A_-OFFERING-JAVA-JAMES"; Some "AB-OFFERING-JAVA-JAMES"]
  ∧ String.compare "AB-OFFERING-JAVA-JAMES" "A_-OFFERING-JAVA-JAMES" = Lt
  ∧ asciiIds (rowsOf out.1) = true
  ∧ ¬ Sorted allotment_lex (rowsOf out.1).
Proof.
  intros s out.
  assert (rowsOf out.1
          = [ {| Allotment.registration_id := Some "A_-OFFERING-JAVA-JAMES";
                 Allotment.email := Some "A_@GMAIL.COM";
                 Allotment.course_name := Some "JAVA";
                 Allotment.course_id := JAVA;
                 Allotment.status := CONFIRMED |};
              {| Allotment.registration_id := Some "AB-OFFERING-JAVA-JAMES";
                 Allotment.email := Some "AB@GMAIL.COM";
                 Allotment.course_name := Some "JAVA";
                 Allotment.course_id := JAVA;
                 Allotment.status := CONFIRMED |} ]) as Hrows
    by (vm_compute; reflexivity).
  split; [vm_compute; reflexivity|]. rewrite Hrows.
  split; [reflexivity|]. split; [reflexivity|]. split; [reflexivity|].
  intros Hsorted. apply Sorted_inv in Hsorted as [_ Hhd].
  inversion Hhd as [|b l Hle]. by vm_compute in Hle.
Qed.

(** ** Registration *)

Lemma registerItems_commit course_id rid name email now s :
  Ddb.transactWrite (registerItems course_id rid name email now) s
  = Some (foldl Ddb.apply s (registerItems course_id rid name email now)).
Proof.
  unfold Ddb.transactWrite. rewrite bool_decide_eq_true_2; [done|].
  split; [done|]. split; [unfold Ddb.MAX_TRANSACT_ITEMS; simpl; lia|].
  simpl. rewrite !NoDup_cons, !not_elem_of_cons.
  repeat split; try apply not_elem_of_nil; try apply NoDup_nil_2.
  - apply regKey_employeeKey.
  - apply not_eq_sym, courseKey_regKey.
  - apply not_eq_sym, courseKey_employeeKey.
Qed.

(** The three rows that the transaction of a registration leaves. *)
Lemma registerItems_lookup course_id rid name email now s :
  let s' := foldl Ddb.apply s (registerItems course_id rid name email now) in
  s' !! regKey course_id rid
    = Some (registrationByCourse rid name email course_id now)
  ∧ s' !! employeeKey email course_id
    = Some (registrationByEmployee rid name course_id)
  ∧ s' !! courseKey course_id
    = Some (Item.add_current_count 1 (default Item.empty (s !! courseKey course_id)))
  ∧ (∀ k, k ≠ regKey course_id rid → k ≠ employeeKey email course_id →
          k ≠ courseKey course_id → s' !! k = s !! k).
Proof.
  simpl. unfold Ddb.put, Ddb.update.
  pose proof (regKey_employeeKey course_id rid email course_id).
  pose proof (courseKey_regKey course_id course_id rid).
  pose proof (courseKey_employeeKey course_id email course_id).
  split; [|split; [|split]].
  - set (v := Ddb.eval _ _).
    do 2 (rewrite lookup_insert_ne by (done || by apply not_eq_sym)).
    by rewrite lookup_insert_eq.
  - set (v := Ddb.eval _ _).
    rewrite lookup_insert_ne by done. by rewrite lookup_insert_eq.
  - rewrite lookup_insert_eq.
    by do 2 (rewrite lookup_insert_ne by (done || by apply not_eq_sym)).
  - intros k ? ? ?. set (v := Ddb.eval _ _).
    by do 3 (rewrite lookup_insert_ne by (done || by apply not_eq_sym)).
Qed.

(** What a successful registration has gone through. *)
Lemma registerForCourse_Registered now course_id employee_name email s rid st s' :
  registerForCourse now course_id employee_name email s = (Registered rid st, s') →
  registrationInputOk course_id employee_name email = true
  ∧ st = ACCEPTED
  ∧ rid = generateRegistrationId (sanitizeInput employee_name) course_id
  ∧ ∃ course,
      s !! courseKey course_id = Some course
      ∧ Item.course_status course ≠ Some COURSE_CANCELED
      ∧ Item.allotted course = false
      ∧ s !! employeeKey (sanitizeInput email) course_id = None
      ∧ Num.ge (Item.current_count course) (Item.max_employees course) = false
      ∧ s' = foldl Ddb.apply s
               (registerItems course_id rid (sanitizeInput employee_name)
                  (sanitizeInput email) now).
Proof.
  unfold registerForCourse, registrationInputOk, Ddb.get.
  destruct (_ || _ || Js.falsy course_id); [done|].
  destruct (_ || isEmptyAfterTrim email); [done|].
  destruct (isValidEmail _); [|done].
  destruct (isValidCourseIdFormat _); [|done]. simpl.
  destruct (s !! courseKey course_id) as [course|]; [|done].
  case_bool_decide as Hcanceled; [done|].
  destruct (Item.allotted course) eqn:Hallotted; [done|].
  destruct (s !! employeeKey _ _) eqn:Hemp; [done|].
  destruct (Num.ge _ _) eqn:Hfull; [done|].
  rewrite registerItems_commit. intros [= <- <- <-].
  do 3 (split; [done|]). exists course. by repeat split.
Qed.

(** A registration that passes every check is committed. *)
Lemma registerForCourse_commit now course_id employee_name email s course :
  registrationInputOk course_id employee_name email = true →
  s !! courseKey course_id = Some course →
  Item.course_status course ≠ Some COURSE_CANCELED →
  Item.allotted course = false →
  s !! employeeKey (sanitizeInput email) course_id = None →
  Num.ge (Item.current_count course) (Item.max_employees course) = false →
  registerForCourse now course_id employee_name email s
  = (Registered (generateRegistrationId (sanitizeInput employee_name) course_id)
       ACCEPTED,
     foldl Ddb.apply s
       (registerItems course_id
          (generateRegistrationId (sanitizeInput employee_name) course_id)
          (sanitizeInput employee_name) (sanitizeInput email) now)).
Proof.
  unfold registerForCourse, registrationInputOk, Ddb.get.
  intros Hok Hc Hcanceled Hallotted Hemp Hfull.
  apply andb_prop in Hok as [Hok Hv]. apply andb_prop in Hok as [Hok He].
  apply andb_prop in Hok as [Hf Ht].
  apply negb_true_iff in Hf as ->. apply negb_true_iff in Ht as ->.
  rewrite He, Hv, Hc. simpl.
  rewrite bool_decide_eq_false_2 by done.
  by rewrite Hallotted, Hemp, Hfull, registerItems_commit.
Qed.

Lemma employeeKey_upper email email' course_id :
  Js.toUpperCase email' = Js.toUpperCase email →
  employeeKey email' course_id = employeeKey email course_id.
Proof. unfold employeeKey. by intros ->. Qed.

(** C10, as amended.  After a successful registration, a second request
    for the same course with the same email in any letter case fails as
    a duplicate and writes nothing, whatever the name; a second request
    with the same name and an email that differs and is not registered
    for the course passes the duplicate check and, the course having a
    free seat, is committed under the same registration id: the row of
    the first registration filed under the course is replaced by the
    second, both rows filed under the employees remain, and the count is
    incremented again. *)
Theorem duplicate_guard_keys_on_email s now course_id employee_name email rid s1 :
  registerForCourse now course_id employee_name email s
  = (Registered rid ACCEPTED, s1) →
  (∀ now' employee_name' email',
     registrationInputOk course_id employee_name' email' = true →
     Js.toUpperCase (sanitizeInput email') = Js.toUpperCase (sanitizeInput email) →
     registerForCourse now' course_id employee_name' email' s1
     = (Failure 400 Already_registered, s1))
  ∧ (∀ now' employee_name' email' course1,
       registrationInputOk course_id employee_name' email' = true →
       Js.toUpperCase (sanitizeInput employee_name')
       = Js.toUpperCase (sanitizeInput employee_name) →
       Js.toUpperCase (sanitizeInput email') ≠ Js.toUpperCase (sanitizeInput email) →
       s !! employeeKey (sanitizeInput email') course_id = None →
       s1 !! courseKey course_id = Some course1 →
       Num.ge (Item.current_count course1) (Item.max_employees course1) = false →
       ∃ s2,
         registerForCourse now' course_id employee_name' email' s1
         = (Registered rid ACCEPTED, s2)
         ∧ s1 !! regKey course_id rid
           = Some (registrationByCourse rid (sanitizeInput employee_name)
                     (sanitizeInput email) course_id now)
         ∧ s2 !! regKey course_id rid
           = Some (registrationByCourse rid (sanitizeInput employee_name')
                     (sanitizeInput email') course_id now')
         ∧ is_Some (s2 !! employeeKey (sanitizeInput email) course_id)
         ∧ is_Some (s2 !! employeeKey (sanitizeInput email') course_id)
         ∧ s2 !! courseKey course_id = Some (Item.add_current_count 1 course1)).
Proof.
  intros (Hok & _ & -> & course & Hc & Hcanceled & Hallotted & Hemp & Hfull & ->)
    %registerForCourse_Registered.
  set (rid := generateRegistrationId (sanitizeInput employee_name) course_id).
  destruct (registerItems_lookup course_id rid (sanitizeInput employee_name)
              (sanitizeInput email) now s) as (Hreg1 & Hemp1 & Hcourse1 & Hframe1).
  set (s1 := foldl Ddb.apply s _) in *. rewrite Hc in Hcourse1. simpl in Hcourse1.
  split.
  - intros now' name' email' Hok' Hsame.
    unfold registerForCourse, registrationInputOk, Ddb.get in *.
    apply andb_prop in Hok' as [Hok' Hv]. apply andb_prop in Hok' as [Hok' He].
    apply andb_prop in Hok' as [Hf Ht].
    apply negb_true_iff in Hf as ->. apply negb_true_iff in Ht as ->.
    rewrite He, Hv, Hcourse1. simpl.
    rewrite bool_decide_eq_false_2 by done.
    change (Item.allotted (Item.add_current_count 1 course))
      with (Item.allotted course).
    by rewrite Hallotted, (employeeKey_upper _ _ _ Hsame), Hemp1.
  - intros now' name' email' course1 Hok' Hname Hemail Hfree Hc1 Hseat.
    assert (course1 = Item.add_current_count 1 course) as -> by congruence.
    assert (employeeKey (sanitizeInput email') course_id
            ≠ employeeKey (sanitizeInput email) course_id) as Hkeys.
    { unfold employeeKey. intros [= E]. by apply String.app_inj in E. }
    assert (s1 !! employeeKey (sanitizeInput email') course_id = None) as Hfree1.
    { rewrite Hframe1; [done| |done|].
      - intros E. symmetry in E. by eapply regKey_employeeKey.
      - intros E. symmetry in E. by eapply courseKey_employeeKey. }
    assert (generateRegistrationId (sanitizeInput name') course_id = rid) as Hrid.
    { unfold rid, generateRegistrationId. by rewrite Hname. }
    rewrite (registerForCourse_commit now' course_id name' email' s1 _
               Hok' Hc1 Hcanceled Hallotted Hfree1 Hseat), Hrid.
    destruct (registerItems_lookup course_id rid (sanitizeInput name')
                (sanitizeInput email') now' s1) as (Hreg2 & Hemp2 & Hcourse2 & Hframe2).
    eexists. split; [done|]. split; [done|]. split; [done|].
    split; [|split; [by rewrite Hemp2|by rewrite Hcourse2, Hc1]].
    rewrite Hframe2, Hemp1; [by eexists| |by apply not_eq_sym|].
    + intros E. symmetry in E. by eapply regKey_employeeKey.
    + intros E. symmetry in E. by eapply courseKey_employeeKey.
Qed.

Lemma duplicate_guard_keys_on_email_witness :
  let s := scenario [addJava 1 2] in
  let now := "2022-06-02T09:00:00.000Z" in
  let first := registerForCourse now JAVA "ANDY" "ANDY@GMAIL.COM" s in
  first = (Registered "ANDY-OFFERING-JAVA-JAMES" ACCEPTED, first.2)
  ∧ registerForCourse now JAVA "BOB" "andy@gmail.com" first.2
    = (Failure 400 Already_registered, first.2)
  ∧ (registerForCourse now JAVA "Andy" "ANDY2@GMAIL.COM" first.2).1
    = Registered "ANDY-OFFERING-JAVA-JAMES" ACCEPTED.
Proof.
  intros s now first.
  assert (first = (Registered "ANDY-OFFERING-JAVA-JAMES" ACCEPTED, first.2)) as Hfirst
    by (apply response_eta; vm_compute; reflexivity).
  split; [exact Hfirst|].
  destruct (duplicate_guard_keys_on_email s now JAVA "ANDY" "ANDY@GMAIL.COM"
              _ _ Hfirst) as [Hdup Hother].
  split.
  - apply Hdup; reflexivity.
  - destruct (first.2 !! courseKey JAVA) as [course1|] eqn:Hc1;
      [|by vm_compute in Hc1].
    destruct (Hother now "Andy" "ANDY2@GMAIL.COM" course1) as (s2 & -> & _);
      try reflexivity.
    + by intros [=].
    + vm_compute in Hc1. by injection Hc1 as <-.
Defined.

(** C10, as stated, fails on a course with one seat: the second request,
    same name and another email, passes the duplicate check and is turned
    down as the course is full; the row of the first registration is not
    replaced. *)
Lemma same_name_on_full_course :
  let s1 := scenario [addJava 1 1; RegisterForCourse JAVA "ANDY" "ANDY@GMAIL.COM"] in
  let out := registerForCourse "2022-06-02T09:00:00.000Z" JAVA "ANDY"
               "ANDY2@GMAIL.COM" s1 in
  Item.email <$> s1 !! regKey JAVA "ANDY-OFFERING-JAVA-JAMES"
    = Some (Some "ANDY@GMAIL.COM")
  ∧ s1 !! employeeKey "ANDY2@GMAIL.COM" JAVA = None
  ∧ out.1 = Failure 400 COURSE_FULL
  ∧ Item.email <$> out.2 !! regKey JAVA "ANDY-OFFERING-JAVA-JAMES"
    = Some (Some "ANDY@GMAIL.COM")
  ∧ out.2 !! employeeKey "ANDY2@GMAIL.COM" JAVA = None.
Proof. vm_compute. done. Qed.

(** ** The two copies of a registration *)

(** A successful registration files both copies, with status ACCEPTED. *)
Lemma register_files_both_copies now course_id employee_name email s rid st s' :
  registerForCourse now course_id employee_name email s = (Registered rid st, s') →
  (∃ row, s' !! regKey course_id rid = Some row
          ∧ Item.status row = Some ACCEPTED)
  ∧ (∃ row, s' !! employeeKey (sanitizeInput email) course_id = Some row
            ∧ Item.status row = Some ACCEPTED
            ∧ Item.registration_id row = Some rid).
Proof.
  intros (_ & _ & -> & course & _ & _ & _ & _ & _ & ->)%registerForCourse_Registered.
  edestruct registerItems_lookup as (Hreg & Hemp & _).
  split; eexists; (split; [eassumption|done]).
Qed.

Lemma cancelItems_commit course_id rid email s :
  Ddb.transactWrite (cancelItems course_id rid email) s
  = Some (foldl Ddb.apply s (cancelItems course_id rid email)).
Proof.
  unfold Ddb.transactWrite. rewrite bool_decide_eq_true_2; [done|].
  split; [done|]. split; [unfold Ddb.MAX_TRANSACT_ITEMS; simpl; lia|].
  simpl. rewrite !NoDup_cons, !not_elem_of_cons.
  repeat split; try apply not_elem_of_nil; try apply NoDup_nil_2.
  - apply regKey_employeeKey.
  - apply not_eq_sym, courseKey_regKey.
  - apply not_eq_sym, courseKey_employeeKey.
Qed.

Lemma cancelItems_lookup course_id rid email s :
  let s' := foldl Ddb.apply s (cancelItems course_id rid email) in
  s' !! regKey course_id rid = None
  ∧ s' !! employeeKey email course_id = None
  ∧ s' !! courseKey course_id
    = Some (Item.add_current_count (-1)
              (default Item.empty (s !! courseKey course_id)))
  ∧ (∀ k, k ≠ regKey course_id rid → k ≠ employeeKey email course_id →
          k ≠ courseKey course_id → s' !! k = s !! k).
Proof.
  simpl. unfold Ddb.update.
  pose proof (regKey_employeeKey course_id rid email course_id).
  pose proof (courseKey_regKey course_id course_id rid).
  pose proof (courseKey_employeeKey course_id email course_id).
  split; [|split; [|split]].
  - set (v := Ddb.eval _ _). rewrite lookup_insert_ne by done.
    rewrite lookup_delete_ne by (by apply not_eq_sym). by rewrite lookup_delete_eq.
  - set (v := Ddb.eval _ _). rewrite lookup_insert_ne by done.
    by rewrite lookup_delete_eq.
  - rewrite lookup_insert_eq.
    by do 2 (rewrite lookup_delete_ne by (done || by apply not_eq_sym)).
  - intros k ? ? ?. set (v := Ddb.eval _ _).
    rewrite lookup_insert_ne by (by apply not_eq_sym).
    by do 2 (rewrite lookup_delete_ne by (done || by apply not_eq_sym)).
Qed.

(** What an accepted cancellation has gone through. *)
Lemma cancelRegistration_accepted rid s rid' course_id s' :
  cancelRegistration rid s = (Cancellation rid' course_id CANCEL_ACCEPTED, s') →
  rid' = rid
  ∧ course_id = extractCourseIdFromRegistration rid
  ∧ isValidRegistrationIdFormat rid = true
  ∧ ∃ registration course email,
      s !! regKey course_id rid = Some registration
      ∧ Item.email registration = Some email
      ∧ s !! courseKey course_id = Some course
      ∧ Item.allotted course = false
      ∧ s' = foldl Ddb.apply s (cancelItems course_id rid email).
Proof.
  unfold cancelRegistration, Ddb.get.
  destruct (Js.falsy rid); [done|].
  destruct (isValidRegistrationIdFormat rid); [|done]. simpl.
  destruct (s !! regKey _ rid) as [registration|] eqn:Hreg; [|done].
  destruct (s !! courseKey _) as [course|] eqn:Hc; [|done].
  destruct (Item.allotted course) eqn:Hallotted; [done|].
  destruct (Item.email registration) as [email|] eqn:Hemail; [|done].
  rewrite cancelItems_commit. intros [= <- <- <-].
  do 3 (split; [done|]). exists registration, course, email. by repeat split.
Qed.

(** An accepted cancellation removes both copies: the row filed under the
    course, and the row filed under the email that it records. *)
Lemma cancel_removes_both_copies rid s rid' course_id s' :
  cancelRegistration rid s = (Cancellation rid' course_id CANCEL_ACCEPTED, s') →
  ∃ registration email,
    s !! regKey course_id rid = Some registration
    ∧ Item.email registration = Some email
    ∧ s' !! regKey course_id rid = None
    ∧ s' !! employeeKey email course_id = None.
Proof.
  intros (_ & _ & _ & registration & course & email & Hreg & Hemail & _ & _ & ->)
    %cancelRegistration_accepted.
  edestruct cancelItems_lookup as (Hreg' & Hemp' & _).
  exists registration, email. by repeat split.
Qed.

(** ** Cancellation after allotment *)

(** The table that a cancellation leaves: the one it found, unless the
    cancellation is accepted. *)
Lemma cancelRegistration_table rid s :
  (cancelRegistration rid s).2 = s
  ∨ ∃ course_id, (cancelRegistration rid s).1
                 = Cancellation rid course_id CANCEL_ACCEPTED.
Proof.
  unfold cancelRegistration.
  repeat case_match; simpl; eauto.
Qed.

(** No cancellation, of whatever id, changes a row of an allotted course:
    neither a row of its partition nor a row that an employee has for
    it. *)
Lemma cancel_frames_allotted_course rid s course_id course k :
  s !! courseKey course_id = Some course → Item.allotted course = true →
  k.1 = "COURSE#" +:+ course_id ∨ k.2 = "COURSE#" +:+ course_id →
  (cancelRegistration rid s).2 !! k = s !! k.
Proof.
  intros Hc Hallotted Hk.
  destruct (cancelRegistration_table rid s) as [->|[c' Hacc]]; [done|].
  destruct (cancelRegistration rid s) as [r s'] eqn:Hcancel. simpl in *. subst r.
  apply cancelRegistration_accepted
    in Hcancel as (_ & -> & _ & reg & course' & email & _ & _ & Hc' & Hna & ->).
  set (c' := extractCourseIdFromRegistration rid) in *.
  assert (c' ≠ course_id) as Hne by (intros ->; congruence).
  assert ("COURSE#" +:+ c' ≠ "COURSE#" +:+ course_id) as Hpk.
  { intros E. by apply String.app_inj in E. }
  edestruct cancelItems_lookup as (_ & _ & _ & Hframe). rewrite Hframe; [done|..].
  - unfold regKey. intros ->. simpl in Hk. destruct Hk as [E|[=]]. by apply Hpk.
  - unfold employeeKey. intros ->. simpl in Hk. destruct Hk as [[=]|E]. by apply Hpk.
  - unfold courseKey. intros ->. simpl in Hk. destruct Hk as [E|[=]]. by apply Hpk.
Qed.

(** X27.  For a course whose [is_allotted] is true: the cancellation of
    a registration id that passes the validation, names the course (the
    id without its first part is the course id) and has its row under it
    answers CANCEL_REJECTED and leaves the table as it was; and whatever
    id is cancelled, every row of the course stays as it is: its METADATA
    row with [current_count], the rows of its registrations, and the rows
    that the employees have for it. *)
Theorem cancel_after_allot s course_id course :
  s !! courseKey course_id = Some course →
  Item.is_allotted course = Some true →
  (∀ rid registration,
     isValidRegistrationIdFormat rid = true →
     extractCourseIdFromRegistration rid = course_id →
     s !! regKey course_id rid = Some registration →
     cancelRegistration rid s = (Cancellation rid course_id CANCEL_REJECTED, s))
  ∧ (∀ rid k,
       k.1 = "COURSE#" +:+ course_id ∨ k.2 = "COURSE#" +:+ course_id →
       (cancelRegistration rid s).2 !! k = s !! k).
Proof.
  intros Hc Hallotted%allotted_true. split.
  - intros rid registration Hv <- Hreg. unfold cancelRegistration, Ddb.get.
    assert (Js.falsy rid = false) as ->.
    { unfold isValidRegistrationIdFormat in Hv. by destruct (Js.falsy _). }
    by rewrite Hv, Hreg, Hc, Hallotted.
  - intros rid k Hk. by eapply cancel_frames_allotted_course.
Qed.

Lemma cancel_after_allot_witness :
  let s := scenario [addJava 1 2; RegisterForCourse JAVA "ANDY" "ANDY@GMAIL.COM";
                     AllotCourse JAVA] in
  Item.is_allotted <$> s !! courseKey JAVA = Some (Some true)
  ∧ cancelRegistration "ANDY-OFFERING-JAVA-JAMES" s
    = (Cancellation "ANDY-OFFERING-JAVA-JAMES" JAVA CANCEL_REJECTED, s).
Proof.
  intros s. split; [vm_compute; reflexivity|].
  destruct (s !! courseKey JAVA) as [course|] eqn:Hc; [|by vm_compute in Hc].
  destruct (s !! regKey JAVA "ANDY-OFFERING-JAVA-JAMES") as [registration|] eqn:Hreg;
    [|by vm_compute in Hreg].
  assert (Item.is_allotted course = Some true) as Hallotted.
  { vm_compute in Hc. by injection Hc as <-. }
  destruct (cancel_after_allot s JAVA course Hc Hallotted) as [Hrejected _].
  by apply (Hrejected "ANDY-OFFERING-JAVA-JAMES" registration).
Defined.

(** C7 fails for the registrations made under a name with a hyphen.  The
    course OFFERING-JAVA-JAMES is allotted with the registrations of
    Mary-Ann and of A-OFFERING confirmed.  The cancellation of the id of
    Mary-Ann is answered 400 INPUT_DATA_ERROR, not CANCEL_REJECTED.  The
    cancellation of the id of A-OFFERING is accepted: the id names the
    registration that A has for the course OFFERING-OFFERING-JAVA-JAMES,
    whose two rows are deleted and whose count goes down. *)
Theorem cancel_after_allot_of_hyphenated_name :
  let other := "OFFERING-OFFERING-JAVA-JAMES" in
  let rid := "A-OFFERING-OFFERING-JAVA-JAMES" in
  let mary := "MARY-ANN-OFFERING-JAVA-JAMES" in
  let s := scenario [addJava 1 3;
                     AddCourseOffering "OFFERING-JAVA" "JAMES" "15062022" (Some 1) (Some 2);
                     RegisterForCourse other "A" "A@GMAIL.COM";
                     RegisterForCourse JAVA "A-OFFERING" "B@GMAIL.COM";
                     RegisterForCourse JAVA "Mary-Ann" "MARY@GMAIL.COM";
                     AllotCourse JAVA] in
  Item.is_allotted <$> s !! courseKey JAVA = Some (Some true)
  ∧ Item.status <$> s !! regKey JAVA mary = Some (Some CONFIRMED)
  ∧ Item.status <$> s !! regKey JAVA rid = Some (Some CONFIRMED)
  ∧ Item.email <$> s !! regKey JAVA rid = Some (Some "B@GMAIL.COM")
  ∧ (cancelRegistration mary s).1 = Failure 400 INPUT_DATA_ERROR
  ∧ (cancelRegistration rid s).1 = Cancellation rid other CANCEL_ACCEPTED
  ∧ Item.email <$> s !! regKey other rid = Some (Some "A@GMAIL.COM")
  ∧ (cancelRegistration rid s).2 !! regKey other rid = None
  ∧ (cancelRegistration rid s).2 !! employeeKey "A@GMAIL.COM" other = None
  ∧ Item.current_count <$> s !! courseKey other = Some (Some 1)
  ∧ Item.current_count <$> (cancelRegistration rid s).2 !! courseKey other
    = Some (Some 0).
Proof. vm_compute. done. Qed.

Lemma employeeKey_notin_allotItems email c course_id regs st :
  employeeKey email c ∉ Ddb.key_of <$> allotItems course_id regs st.
Proof.
  unfold allotItems. rewrite fmap_app, elem_of_app, <- list_fmap_compose.
  intros [(reg & E & _)%list_elem_of_fmap|[E|[]%elem_of_nil]%elem_of_cons].
  - simpl in E. unfold allotKey in E. symmetry in E. by eapply regKey_employeeKey.
  - simpl in E. symmetry in E. by eapply courseKey_employeeKey.
Qed.

(** An allotment never touches a row filed under an employee. *)
Lemma allot_frames_employee_rows `{Collation} today course_id s email c :
  (allotCourse today course_id s).2 !! employeeKey email c
  = s !! employeeKey email c.
Proof.
  destruct (allotCourse_table today course_id s)
    as [->|(_ & course & _ & [[st Hw]| ->])].
  - done.
  - apply transactWrite_Some in Hw as [_ ->].
    apply foldl_apply_notin, employeeKey_notin_allotItems.
  - unfold Ddb.update. rewrite lookup_insert_ne; [done|].
    apply courseKey_employeeKey.
Qed.

(** C1 fails on the allotment: the course of the example has threshold 1
    and one registration; the allotment confirms the row filed under the
    course and leaves ACCEPTED in the row filed under the employee. *)
Theorem allot_leaves_employee_copy :
  let s := scenario [addJava 1 2; RegisterForCourse JAVA "ANDY" "ANDY@GMAIL.COM"] in
  let out := @allotCourse rootCollation (june2022 10) JAVA s in
  Item.status <$> s !! regKey JAVA "ANDY-OFFERING-JAVA-JAMES" = Some (Some ACCEPTED)
  ∧ Item.status <$> s !! employeeKey "ANDY@GMAIL.COM" JAVA = Some (Some ACCEPTED)
  ∧ Allotment.status <$> rowsOf out.1 = [CONFIRMED]
  ∧ Item.status <$> out.2 !! regKey JAVA "ANDY-OFFERING-JAVA-JAMES"
    = Some (Some CONFIRMED)
  ∧ Item.status <$> out.2 !! employeeKey "ANDY@GMAIL.COM" JAVA
    = Some (Some ACCEPTED).
Proof. vm_compute. done. Qed.

(** ** The count of a course and its rows *)

(** The rows that a query selects, whatever their order. *)
Lemma query_length pk skPrefix s :
  length (Ddb.query pk skPrefix s)
  = length (filter (Ddb.matches pk skPrefix) (map_to_list s)).
Proof.
  unfold Ddb.query. rewrite length_fmap.
  apply Permutation_length, merge_sort_Permutation.
Qed.

Lemma matches_key pk skPrefix k (v v' : Item.t) :
  Ddb.matches pk skPrefix (k, v) ↔ Ddb.matches pk skPrefix (k, v').
Proof. done. Qed.

Lemma query_length_delete pk skPrefix s k v :
  s !! k = Some v →
  length (Ddb.query pk skPrefix s)
  = (length (Ddb.query pk skPrefix (delete k s))
     + if decide (Ddb.matches pk skPrefix (k, v)) then 1 else 0)%nat.
Proof.
  intros Hk. rewrite !query_length.
  rewrite <- (map_to_list_delete s k v Hk), filter_cons.
  case_decide; simpl; lia.
Qed.

Lemma query_length_insert pk skPrefix s k v :
  length (Ddb.query pk skPrefix (<[k := v]> s))
  = (length (Ddb.query pk skPrefix (delete k s))
     + if decide (Ddb.matches pk skPrefix (k, v)) then 1 else 0)%nat.
Proof.
  rewrite <- (insert_delete_eq s k v), !query_length.
  rewrite map_to_list_insert by apply lookup_delete_eq. rewrite filter_cons.
  case_decide; simpl; lia.
Qed.

(** Writing under a key that holds an item keeps the number of rows. *)
Lemma query_length_insert_Some pk skPrefix s k v :
  is_Some (s !! k) →
  length (Ddb.query pk skPrefix (<[k := v]> s)) = length (Ddb.query pk skPrefix s).
Proof.
  intros [old Hk].
  rewrite query_length_insert, (query_length_delete _ _ s k old Hk).
  done.
Qed.

Lemma query_length_insert_other pk skPrefix s k v :
  ¬ Ddb.matches pk skPrefix (k, v) →
  length (Ddb.query pk skPrefix (<[k := v]> s)) = length (Ddb.query pk skPrefix s).
Proof.
  intros Hk. destruct (s !! k) as [old|] eqn:Hold.
  - apply query_length_insert_Some. eauto.
  - rewrite query_length_insert, decide_False, delete_id by done. lia.
Qed.

Lemma query_length_insert_fresh pk skPrefix s k v :
  Ddb.matches pk skPrefix (k, v) → s !! k = None →
  length (Ddb.query pk skPrefix (<[k := v]> s))
  = S (length (Ddb.query pk skPrefix s)).
Proof.
  intros Hk Hfresh. rewrite query_length_insert, decide_True, delete_id by done. lia.
Qed.

Lemma query_length_delete_other pk skPrefix s k :
  (∀ v, ¬ Ddb.matches pk skPrefix (k, v)) →
  length (Ddb.query pk skPrefix (delete k s)) = length (Ddb.query pk skPrefix s).
Proof.
  intros Hk. destruct (s !! k) as [old|] eqn:Hold.
  - rewrite (query_length_delete _ _ s k old Hold), decide_False by apply Hk. lia.
  - by rewrite delete_id.
Qed.

Lemma matches_regKey c k v :
  Ddb.matches ("COURSE#" +:+ c) "REG#" (k, v) ↔ ∃ x, k = regKey c x.
Proof.
  unfold Ddb.matches. simpl. rewrite prefix_app. split.
  - intros [Hpk [x Hsk]]. exists x. destruct k. simpl in *. by subst.
  - intros [x ->]. simpl. eauto.
Qed.

Lemma rowCount_insert_other c k v s :
  (∀ x, k ≠ regKey c x) → rowCount c (<[k := v]> s) = rowCount c s.
Proof.
  intros Hk. apply query_length_insert_other.
  rewrite matches_regKey. intros [x ->]. by eapply Hk.
Qed.

Lemma rowCount_insert_fresh c x v s :
  s !! regKey c x = None → rowCount c (<[regKey c x := v]> s) = S (rowCount c s).
Proof.
  intros Hfresh. apply query_length_insert_fresh; [|done].
  apply matches_regKey. eauto.
Qed.

Lemma rowCount_insert_Some c k v s :
  is_Some (s !! k) → rowCount c (<[k := v]> s) = rowCount c s.
Proof. apply query_length_insert_Some. Qed.

Lemma rowCount_delete_other c k s :
  (∀ x, k ≠ regKey c x) → rowCount c (delete k s) = rowCount c s.
Proof.
  intros Hk. apply query_length_delete_other. intros v.
  rewrite matches_regKey. intros [x ->]. by eapply Hk.
Qed.

Lemma rowCount_delete_row c x s :
  is_Some (s !! regKey c x) →
  S (rowCount c (delete (regKey c x) s)) = rowCount c s.
Proof.
  intros [v Hv]. unfold rowCount.
  rewrite (query_length_delete _ _ s _ v Hv), decide_True; [lia|].
  apply matches_regKey. eauto.
Qed.

Lemma rowCount_zero c s : (∀ x, s !! regKey c x = None) → rowCount c s = 0%nat.
Proof.
  intros Hnone. unfold rowCount.
  destruct (Ddb.query _ _ s) as [|it l] eqn:E; [done|].
  assert (it ∈ Ddb.query ("COURSE#" +:+ c) "REG#" s) as Hin by (rewrite E; left).
  apply elem_of_query in Hin as (sk & [x ->]%prefix_app & Hlook).
  specialize (Hnone x). unfold regKey in Hnone. congruence.
Qed.

Lemma regKey_course c x c' y : c ≠ c' → regKey c x ≠ regKey c' y.
Proof. intros Hne [E _]%regKey_inj. done. Qed.

(** The table that the creation of a course leaves. *)
Lemma addCourseOffering_table today cn instr sd mn mx s :
  (addCourseOffering today cn instr sd mn mx s).2 = s
  ∨ ∃ course_id course,
      s !! courseKey course_id = None
      ∧ Item.current_count course = Some 0
      ∧ (addCourseOffering today cn instr sd mn mx s).2
        = <[courseKey course_id := course]> s.
Proof.
  unfold addCourseOffering, Ddb.get.
  repeat case_match; simpl; eauto.
  match goal with H : Ddb.putCommand _ _ _ = Some _ |- _ =>
    apply putCommand_Some in H as -> end.
  right. do 2 eexists. split; [done|]. split; [|done]. done.
Qed.

Lemma addCourseOffering_counts today cn instr sd mn mx s :
  countsMatch s → rowsHaveCourse s →
  countsMatch (addCourseOffering today cn instr sd mn mx s).2
  ∧ rowsHaveCourse (addCourseOffering today cn instr sd mn mx s).2.
Proof.
  intros Hcount Hrows.
  destruct (addCourseOffering_table today cn instr sd mn mx s)
    as [->|(c0 & course0 & Hnone & Hzero & ->)]; [done|].
  split.
  - intros c course. rewrite rowCount_insert_other
      by (intros x E; by eapply courseKey_regKey).
    destruct (decide (c = c0)) as [->|Hne].
    + rewrite lookup_insert_eq. intros [= <-]. rewrite Hzero, rowCount_zero; [done|].
      intros x. destruct (s !! regKey c0 x) eqn:Hrow; [|done].
      destruct (Hrows c0 x) as [? ?]; [eauto|congruence].
    + rewrite lookup_insert_ne by (intros E%courseKey_inj; done). apply Hcount.
  - intros c x. rewrite lookup_insert_ne by apply courseKey_regKey.
    intros Hrow%Hrows. destruct (decide (c = c0)) as [->|Hne].
    + rewrite lookup_insert_eq. eauto.
    + by rewrite lookup_insert_ne by (intros E%courseKey_inj; done).
Qed.

Lemma registerForCourse_table now course_id employee_name email s :
  (registerForCourse now course_id employee_name email s).2 = s
  ∨ ∃ rid st, (registerForCourse now course_id employee_name email s).1
              = Registered rid st.
Proof. unfold registerForCourse. repeat case_match; simpl; eauto. Qed.

Lemma registerForCourse_counts now course_id employee_name email s :
  reusesNoId (RegisterForCourse course_id employee_name email) s →
  countsMatch s → rowsHaveCourse s →
  countsMatch (registerForCourse now course_id employee_name email s).2
  ∧ rowsHaveCourse (registerForCourse now course_id employee_name email s).2.
Proof.
  intros Hfresh Hcount Hrows.
  destruct (registerForCourse_table now course_id employee_name email s)
    as [->|(rid & st & Hr)]; [done|].
  destruct (registerForCourse now course_id employee_name email s) as [r s'] eqn:E.
  simpl in *. subst r.
  apply registerForCourse_Registered
    in E as (_ & _ & -> & course & Hc & _ & _ & _ & _ & ->).
  simpl in Hfresh.
  set (rid := generateRegistrationId (sanitizeInput employee_name) course_id) in *.
  destruct (registerItems_lookup course_id rid (sanitizeInput employee_name)
              (sanitizeInput email) now s) as (Hreg1 & Hemp1 & Hcourse1 & Hframe1).
  rewrite Hc in Hcourse1. cbn [default from_option id] in Hcourse1.
  assert (∀ c, rowCount c (foldl Ddb.apply s
                             (registerItems course_id rid (sanitizeInput employee_name)
                                (sanitizeInput email) now))
               = if decide (c = course_id) then S (rowCount c s) else rowCount c s)
    as Hcnt.
  { intros c. cbn [registerItems foldl Ddb.apply]. unfold Ddb.update, Ddb.put.
    rewrite rowCount_insert_other by (intros x E; by eapply courseKey_regKey).
    rewrite rowCount_insert_other
      by (intros x E; symmetry in E; by eapply regKey_employeeKey).
    case_decide as Hcid.
    - subst c. by apply rowCount_insert_fresh.
    - apply rowCount_insert_other. intros x. by apply regKey_course. }
  set (s1 := foldl Ddb.apply s _) in *.
  split.
  - intros c course'. rewrite Hcnt. case_decide as Hcid.
    + subst c. rewrite Hcourse1. intros [= <-].
      cbn [Item.add_current_count Item.current_count].
      rewrite (Hcount _ _ Hc). cbn [default from_option id]. f_equal. lia.
    + rewrite Hframe1; [apply Hcount|..].
      * apply courseKey_regKey.
      * apply courseKey_employeeKey.
      * by intros E%courseKey_inj.
  - intros c x Hrow.
    assert (is_Some (s !! courseKey c) → is_Some (s1 !! courseKey c)) as Hkeep.
    { destruct (decide (c = course_id)) as [->|Hne]; [rewrite Hcourse1; eauto|].
      rewrite Hframe1; [done|..].
      - apply courseKey_regKey.
      - apply courseKey_employeeKey.
      - by intros E%courseKey_inj. }
    destruct (decide (regKey c x = regKey course_id rid)) as [E|Hne].
    + apply regKey_inj in E as [-> _]. rewrite Hcourse1. eauto.
    + apply Hkeep, (Hrows c x). rewrite Hframe1 in Hrow; [done|done|..].
      * apply regKey_employeeKey.
      * apply not_eq_sym, courseKey_regKey.
Qed.

Lemma cancelRegistration_counts rid s :
  countsMatch s → rowsHaveCourse s →
  countsMatch (cancelRegistration rid s).2
  ∧ rowsHaveCourse (cancelRegistration rid s).2.
Proof.
  intros Hcount Hrows.
  destruct (cancelRegistration_table rid s) as [->|[c' Hacc]]; [done|].
  destruct (cancelRegistration rid s) as [r s'] eqn:Hcancel. simpl in *. subst r.
  apply cancelRegistration_accepted
    in Hcancel as (_ & -> & _ & reg & course & email & Hreg & _ & Hc & _ & ->).
  set (c' := extractCourseIdFromRegistration rid) in *.
  destruct (cancelItems_lookup c' rid email s) as (Hreg2 & Hemp2 & Hcourse2 & Hframe2).
  rewrite Hc in Hcourse2. cbn [default from_option id] in Hcourse2.
  assert (∀ c, (rowCount c (foldl Ddb.apply s (cancelItems c' rid email))
                + (if decide (c = c') then 1 else 0))%nat = rowCount c s) as Hcnt.
  { intros c. cbn [cancelItems foldl Ddb.apply]. unfold Ddb.update.
    rewrite rowCount_insert_other by (intros x E; by eapply courseKey_regKey).
    rewrite rowCount_delete_other
      by (intros x E; symmetry in E; by eapply regKey_employeeKey).
    case_decide as Hcid.
    - subst c. rewrite <- (rowCount_delete_row c' rid s) by eauto. lia.
    - rewrite rowCount_delete_other; [lia|]. intros x. by apply regKey_course. }
  set (s2 := foldl Ddb.apply s _) in *.
  split.
  - intros c course'. specialize (Hcnt c). case_decide as Hcid.
    + subst c. rewrite Hcourse2. intros [= <-].
      cbn [Item.add_current_count Item.current_count].
      rewrite (Hcount _ _ Hc). cbn [default from_option id]. f_equal. lia.
    + rewrite Hframe2; [|apply courseKey_regKey|apply courseKey_employeeKey
                        |by intros E%courseKey_inj].
      intros Hlook. rewrite (Hcount _ _ Hlook). do 2 f_equal. lia.
  - intros c x Hrow.
    assert (is_Some (s !! courseKey c) → is_Some (s2 !! courseKey c)) as Hkeep.
    { destruct (decide (c = c')) as [->|Hne]; [rewrite Hcourse2; eauto|].
      rewrite Hframe2; [done|apply courseKey_regKey|apply courseKey_employeeKey
                        |by intros E%courseKey_inj]. }
    apply Hkeep, (Hrows c x).
    destruct (decide (regKey c x = regKey c' rid)) as [E|Hne].
    + rewrite E, Hreg2 in Hrow. by destruct Hrow.
    + rewrite Hframe2 in Hrow; [done|done|apply regKey_employeeKey
                                |apply not_eq_sym, courseKey_regKey].
Qed.

(** Updates of items that exist change neither the keys nor the number
    of rows. *)
Lemma foldl_updates_keys s items k :
  Forall (λ a, actionOk s a ∧ isUpdate a) items →
  is_Some (foldl Ddb.apply s items !! k) ↔ is_Some (s !! k).
Proof.
  revert s. induction items as [|a items IH]; intros s Hall; [done|].
  apply Forall_cons in Hall as [[Ha Hupd] Hall].
  destruct a as [|ka u|]; try done. destruct Ha as [Hsome _].
  cbn [foldl Ddb.apply]. rewrite IH.
  - unfold Ddb.update. destruct (decide (ka = k)) as [->|Hne].
    + rewrite lookup_insert_eq. split; eauto.
    + by rewrite lookup_insert_ne.
  - eapply Forall_impl; [exact Hall|]. intros b [Hb Hupdb]. split; [|done].
    destruct b as [|kb ub|]; try done. destruct Hb as [Hsomeb Hub].
    split; [by apply update_is_Some|done].
Qed.

Lemma foldl_updates_rowCount s items c :
  Forall (λ a, actionOk s a ∧ isUpdate a) items →
  rowCount c (foldl Ddb.apply s items) = rowCount c s.
Proof.
  revert s. induction items as [|a items IH]; intros s Hall; [done|].
  apply Forall_cons in Hall as [[Ha Hupd] Hall].
  destruct a as [|ka u|]; try done. destruct Ha as [Hsome _].
  cbn [foldl Ddb.apply]. rewrite IH.
  - unfold Ddb.update. by apply rowCount_insert_Some.
  - eapply Forall_impl; [exact Hall|]. intros b [Hb Hupdb]. split; [|done].
    destruct b as [|kb ub|]; try done. destruct Hb as [Hsomeb Hub].
    split; [by apply update_is_Some|done].
Qed.

Lemma courseKey_notin_allotItems c course_id regs st :
  c ≠ course_id → courseKey c ∉ Ddb.key_of <$> allotItems course_id regs st.
Proof.
  intros Hne. unfold allotItems. rewrite fmap_app, elem_of_app, <- list_fmap_compose.
  intros [(reg & E & _)%list_elem_of_fmap|[E|[]%elem_of_nil]%elem_of_cons].
  - simpl in E. unfold allotKey in E. by eapply courseKey_regKey.
  - simpl in E. by apply courseKey_inj in E.
Qed.

Lemma allotCourse_counts `{Collation} today course_id s :
  wf s → countsMatch s → rowsHaveCourse s →
  countsMatch (allotCourse today course_id s).2
  ∧ rowsHaveCourse (allotCourse today course_id s).2.
Proof.
  intros Hwf Hcount Hrows.
  destruct (allotCourse_table today course_id s)
    as [->|(Hacc & course & Hc & Hwrite)]; [done|].
  set (s' := (allotCourse today course_id s).2) in *.
  assert (∃ items,
            Forall (λ a, actionOk s a ∧ isUpdate a) items
            ∧ s' = foldl Ddb.apply s items
            ∧ (∀ c, c ≠ course_id → s' !! courseKey c = s !! courseKey c)
            ∧ ∃ st, s' !! courseKey course_id
                    = Some (Item.set_allotted true st course))
    as (items & Hall & Hs' & Hother & st & Hcourse).
  { destruct Hwrite as [[st Hw]|Hw].
    - exists (allotItems course_id
                (Ddb.query ("COURSE#" +:+ course_id) "REG#" s) st).
      split; [by eapply allotItems_ok|].
      pose proof (allot_write_course _ _ _ _ _ _ Hc Hw) as Hcourse.
      apply transactWrite_Some in Hw as [_ Hw].
      split; [done|]. split; [|eauto].
      intros c Hne. rewrite Hw.
      by apply foldl_apply_notin, courseKey_notin_allotItems.
    - exists [Ddb.Update (courseKey course_id)
                (Ddb.SET_is_allotted_course_status true COURSE_CANCELED)].
      split; [|split; [done|split]].
      + apply Forall_singleton. split; [|done]. split; [eauto|]. by exists course_id.
      + intros c Hne. rewrite Hw. unfold Ddb.update.
        rewrite lookup_insert_ne; [done|]. by intros E%courseKey_inj.
      + exists COURSE_CANCELED. rewrite Hw. unfold Ddb.update.
        by rewrite lookup_insert_eq, Hc. }
  split.
  - intros c course'. rewrite Hs', foldl_updates_rowCount, <- Hs' by done.
    destruct (decide (c = course_id)) as [->|Hne].
    + rewrite Hcourse. intros [= <-]. apply (Hcount _ _ Hc).
    + rewrite Hother by done. apply Hcount.
  - intros c x. rewrite Hs', !foldl_updates_keys by done. apply Hrows.
Qed.

Lemma handle_counts `{Collation} today now req s :
  reusesNoId req s → wf s → countsMatch s → rowsHaveCourse s →
  countsMatch (handle today now req s).2 ∧ rowsHaveCourse (handle today now req s).2.
Proof.
  intros Hfresh Hwf Hcount Hrows. destruct req; simpl.
  - by apply addCourseOffering_counts.
  - by apply registerForCourse_counts.
  - by apply cancelRegistration_counts.
  - by apply allotCourse_counts.
Qed.

Lemma reachableFresh_reachable `{Collation} s : reachableFresh s → reachable s.
Proof. induction 1; by constructor. Qed.

(** X20.  In the runs that reuse no registration id, every course has the
    count of its rows after each request, and every row is filed under a
    course that exists. *)
Lemma count_matches_rows `{Collation} s :
  reachableFresh s → countsMatch s ∧ rowsHaveCourse s.
Proof.
  induction 1 as [|today now req s Hs [Hcount Hrows] Hfresh].
  - split; [by intros c course; rewrite lookup_empty|].
    intros c x. rewrite lookup_empty. by intros [? ?].
  - apply handle_counts; [done| |done..].
    by apply reachable_wf, reachableFresh_reachable.
Qed.

Lemma count_matches_rows_witness :
  let today := june2022 1 in
  let now := "2022-06-01T08:00:00.000Z" in
  let s1 := (@handle rootCollation today now (addJava 1 2) ∅).2 in
  let s2 := (@handle rootCollation today now
               (RegisterForCourse JAVA "ANDY" "ANDY@GMAIL.COM") s1).2 in
  @reachableFresh rootCollation s2
  ∧ ∃ course, s2 !! courseKey JAVA = Some course
              ∧ Item.current_count course = Some (Z.of_nat (rowCount JAVA s2)).
Proof.
  intros today now s1 s2.
  assert (@reachableFresh rootCollation s2) as Hfresh.
  { apply reachableFresh_handle; [apply reachableFresh_handle; [constructor|exact I]|].
    vm_compute. reflexivity. }
  split; [exact Hfresh|].
  destruct (@count_matches_rows rootCollation s2 Hfresh) as [Hcount _].
  destruct (s2 !! courseKey JAVA) as [course|] eqn:Hc; [|by vm_compute in Hc].
  exists course. split; [reflexivity|]. by apply Hcount.
Defined.

(** C3 fails when two employees share a name: both registrations are
    accepted, the second replaces the row that the first filed under the
    course, and the count is 2 for one row. *)
Theorem count_exceeds_rows_on_shared_name :
  let s := scenario [addJava 1 2] in
  let now := "2022-06-02T09:00:00.000Z" in
  let first := registerForCourse now JAVA "ANDY" "ANDY@GMAIL.COM" s in
  let second := registerForCourse now JAVA "ANDY" "ANDY2@GMAIL.COM" first.2 in
  first.1 = Registered "ANDY-OFFERING-JAVA-JAMES" ACCEPTED
  ∧ Item.current_count <$> first.2 !! courseKey JAVA = Some (Some 1)
  ∧ length (Ddb.query ("COURSE#" +:+ JAVA) "REG#" first.2) = 1%nat
  ∧ second.1 = Registered "ANDY-OFFERING-JAVA-JAMES" ACCEPTED
  ∧ Item.current_count <$> second.2 !! courseKey JAVA = Some (Some 2)
  ∧ length (Ddb.query ("COURSE#" +:+ JAVA) "REG#" second.2) = 1%nat.
Proof. vm_compute. done. Qed.

(** ** Registration ids and course ids *)

Lemma append_assoc (a b c : string) : (a +:+ b) +:+ c = a +:+ b +:+ c.
Proof.
  induction a as [|x a IH]; [done|].
  change (String x ((a +:+ b) +:+ c) = String x (a +:+ b +:+ c)). by rewrite IH.
Qed.

Lemma join_app l1 l2 :
  l1 ≠ [] → l2 ≠ [] →
  Js.join "-" (l1 ++ l2) = Js.join "-" l1 +:+ "-" +:+ Js.join "-" l2.
Proof.
  intros H1 H2. induction l1 as [|p l1 IH]; [done|].
  destruct l1 as [|q l1].
  - destruct l2 as [|r l2]; [done|]. reflexivity.
  - change ((p :: q :: l1) ++ l2) with (p :: q :: (l1 ++ l2)).
    rewrite !join_cons. change (q :: (l1 ++ l2)) with ((q :: l1) ++ l2).
    rewrite IH by done. by rewrite !append_assoc.
Qed.

Lemma split_hyphen_free_inv s : Js.split hyphen s = [s] → hyphen_free s = true.
Proof.
  induction s as [|c s IH]; [done|]. cbn [Js.split hyphen_free].
  pose proof (split_nonempty hyphen s) as Hne.
  destruct (Ascii.eqb c hyphen); [by destruct (Js.split hyphen s)|].
  destruct (Js.split hyphen s) as [|p ps]; [done|].
  intros [= -> ->]. by rewrite IH.
Qed.

Lemma length_append a b : String.length (a +:+ b) = (String.length a + String.length b)%nat.
Proof.
  induction a as [|c a IH]; [done|].
  change (S (String.length (a +:+ b)) = S (String.length a + String.length b)).
  by rewrite IH.
Qed.

(** X7.  The course id comes back from the registration id exactly when
    the employee name has no hyphen. *)
Lemma extract_generate_iff employeeName courseId :
  extractCourseIdFromRegistration (generateRegistrationId employeeName courseId)
  = courseId
  ↔ hyphen_free employeeName = true.
Proof.
  split; [|apply extract_generate].
  unfold extractCourseIdFromRegistration, generateRegistrationId.
  change ("-" +:+ courseId) with (String hyphen courseId).
  rewrite split_app. intros Hjoin.
  rewrite <- toUpperCase_hyphen_free. apply split_hyphen_free_inv.
  pose proof (split_nonempty hyphen (Js.toUpperCase employeeName)) as Hne.
  pose proof (join_split (Js.toUpperCase employeeName)) as Hname.
  destruct (Js.split hyphen (Js.toUpperCase employeeName)) as [|p [|q ps]];
    [done|by simpl in Hname; subst|].
  exfalso.
  change (Js.join "-" ((q :: ps) ++ Js.split hyphen courseId) = courseId) in Hjoin.
  rewrite join_app in Hjoin; [|done|apply split_nonempty].
  rewrite join_split in Hjoin.
  apply (f_equal String.length) in Hjoin.
  rewrite !length_append in Hjoin. simpl in Hjoin. lia.
Qed.

(** C5 fails on a name with a hyphen: the registration id of Mary-Ann for
    the course of the example yields another course id. *)
Theorem extract_with_hyphenated_name :
  generateRegistrationId "Mary-Ann" JAVA = "MARY-ANN-OFFERING-JAVA-JAMES"
  ∧ extractCourseIdFromRegistration (generateRegistrationId "Mary-Ann" JAVA)
    = "ANN-OFFERING-JAVA-JAMES"
  ∧ extractCourseIdFromRegistration (generateRegistrationId "Mary-Ann" JAVA) ≠ JAVA.
Proof. split; [reflexivity|]. split; [reflexivity|]. by intros [=]. Qed.

(** ** White space around the ids *)

Lemma append_nil_r (a : string) : a +:+ "" = a.
Proof.
  induction a as [|x a IH]; [done|].
  change (String x (a +:+ "") = String x a). by rewrite IH.
Qed.

Lemma rev_app_spec s1 s2 : String.rev_app s1 s2 = String.rev s1 +:+ s2.
Proof.
  revert s2. induction s1 as [|c s1 IH]; intros s2; [done|].
  unfold String.rev. cbn [String.rev_app].
  rewrite (IH (String c s2)), (IH (String c "")). by rewrite append_assoc.
Qed.

Lemma rev_cons c s : String.rev (String c s) = String.rev s +:+ String c "".
Proof. unfold String.rev at 1. cbn [String.rev_app]. apply rev_app_spec. Qed.

Lemma rev_append a b : String.rev (a +:+ b) = String.rev b +:+ String.rev a.
Proof.
  induction a as [|c a IH]; [by rewrite append_nil_r|].
  change (String.rev (String c (a +:+ b)) = String.rev b +:+ String.rev (String c a)).
  by rewrite !rev_cons, IH, append_assoc.
Qed.

Lemma rev_involutive s : String.rev (String.rev s) = s.
Proof.
  induction s as [|c s IH]; [done|].
  by rewrite rev_cons, rev_append, IH.
Qed.

Lemma trimStart_suffix s : ∃ w, s = w +:+ Js.trimStart s.
Proof.
  induction s as [|c s [w IH]]; [by exists ""|]. cbn [Js.trimStart].
  destruct (Ascii.is_space c).
  - exists (String c w). change (String c s = String c (w +:+ Js.trimStart s)).
    by rewrite <- IH.
  - by exists "".
Qed.

Lemma trimStart_clean s : Js.trimStart s = "" ∨ starts_clean (Js.trimStart s) = true.
Proof.
  induction s as [|c s IH]; [by left|]. cbn [Js.trimStart].
  destruct (Ascii.is_space c) eqn:Hc; [done|]. right. simpl. by rewrite Hc.
Qed.

Lemma trimStart_fixed s : starts_clean s = true → Js.trimStart s = s.
Proof.
  destruct s as [|c s]; [done|]. simpl. by destruct (Ascii.is_space c).
Qed.

Lemma starts_clean_app a b : starts_clean a = true → starts_clean (a +:+ b) = true.
Proof. by destruct a. Qed.

Lemma ends_clean_app a b : ends_clean b = true → ends_clean (a +:+ b) = true.
Proof. unfold ends_clean. rewrite rev_append. apply starts_clean_app. Qed.

Lemma trim_fixed s : starts_clean s = true → ends_clean s = true → Js.trim s = s.
Proof.
  intros Hs He. unfold Js.trim, Js.trimEnd.
  by rewrite (trimStart_fixed s), (trimStart_fixed (String.rev s)), rev_involutive.
Qed.

Lemma trim_clean s :
  Js.trim s = "" ∨ (starts_clean (Js.trim s) = true ∧ ends_clean (Js.trim s) = true).
Proof.
  unfold Js.trim, Js.trimEnd, ends_clean. rewrite rev_involutive.
  set (y := Js.trimStart s).
  destruct (trimStart_clean (String.rev y)) as [->|Hz]; [by left|]. right.
  split; [|done].
  destruct (trimStart_suffix (String.rev y)) as [w Hw].
  set (z := Js.trimStart (String.rev y)) in *.
  apply (f_equal String.rev) in Hw. rewrite rev_involutive, rev_append in Hw.
  destruct (trimStart_clean s) as [Hy|Hy]; fold y in Hy.
  - rewrite Hy in Hw. destruct z as [|c z]; [done|].
    rewrite rev_cons in Hw. destruct (String.rev z); done.
  - rewrite Hw in Hy. destruct z as [|c z]; [done|].
    destruct (String.rev (String c z)) eqn:Hr; [|done].
    apply (f_equal String.rev) in Hr. rewrite rev_involutive in Hr. done.
Qed.

Lemma is_space_upper c : Ascii.is_space (Js.upper_ascii c) = Ascii.is_space c.
Proof. destruct c as [[] [] [] [] [] [] [] []]; reflexivity. Qed.

Lemma toUpperCase_app a b :
  Js.toUpperCase (a +:+ b) = Js.toUpperCase a +:+ Js.toUpperCase b.
Proof.
  induction a as [|c a IH]; [done|].
  change (String (Js.upper_ascii c) (Js.toUpperCase (a +:+ b))
          = String (Js.upper_ascii c) (Js.toUpperCase a +:+ Js.toUpperCase b)).
  by rewrite IH.
Qed.

Lemma toUpperCase_rev s : String.rev (Js.toUpperCase s) = Js.toUpperCase (String.rev s).
Proof.
  induction s as [|c s IH]; [done|].
  cbn [Js.toUpperCase]. by rewrite !rev_cons, IH, toUpperCase_app.
Qed.

Lemma starts_clean_upper s : starts_clean (Js.toUpperCase s) = starts_clean s.
Proof. destruct s as [|c s]; [done|]. simpl. by rewrite is_space_upper. Qed.

Lemma ends_clean_upper s : ends_clean (Js.toUpperCase s) = ends_clean s.
Proof. unfold ends_clean. by rewrite toUpperCase_rev, starts_clean_upper. Qed.

Lemma prefix_inv p s : String.prefix p s = true → ∃ r, s = p +:+ r.
Proof.
  revert s. induction p as [|c p IH]; intros s; [by exists s|].
  destruct s as [|d s]; [done|]. simpl.
  destruct (ascii_dec c d) as [->|]; [|done].
  intros [r ->]%IH. by exists r.
Qed.

(** The registration id that [registerForCourse] makes from a name
    without hyphen, for a course id without white space around it,
    passes the validation of [cancelRegistration]. *)
Lemma generateRegistrationId_valid employee_name course_id :
  isEmptyAfterTrim employee_name = false →
  hyphen_free (sanitizeInput employee_name) = true →
  acceptedCourseId course_id →
  Js.trim course_id = course_id →
  isValidRegistrationIdFormat
    (generateRegistrationId (sanitizeInput employee_name) course_id) = true.
Proof.
  intros Hname Hfree [Hf Hvalid] Htrim.
  unfold isValidCourseIdFormat in Hvalid. rewrite Hf, Htrim in Hvalid.
  destruct (Js.startsWith _ _) eqn:Hstart; [|done]. simpl in Hvalid.
  destruct (length _ <? 3)%nat eqn:Hlen; [done|].
  apply Nat.ltb_ge in Hlen.
  apply prefix_inv in Hstart as [rest Hrest].
  set (name := Js.toUpperCase (sanitizeInput employee_name)).
  assert (name ≠ "") as Hne.
  { unfold name, isEmptyAfterTrim in *. destruct (sanitizeInput employee_name); done. }
  assert (starts_clean name = true) as Hs.
  { unfold name. rewrite starts_clean_upper. unfold name, sanitizeInput in *.
    destruct (Js.falsy employee_name); [done|].
    destruct (trim_clean employee_name) as [E|[? ?]]; [|done].
    by rewrite E in Hne. }
  assert (ends_clean course_id = true) as He.
  { destruct (trim_clean course_id) as [E|[_ E]]; rewrite Htrim in E; [|done].
    by rewrite E in Hf. }
  unfold isValidRegistrationIdFormat, generateRegistrationId. fold name.
  assert (Js.falsy (name +:+ "-" +:+ course_id) = false) as ->
    by (by destruct name).
  rewrite trim_fixed by eauto using starts_clean_app, ends_clean_app.
  change ("-" +:+ course_id) with (String hyphen course_id).
  rewrite split_app, split_hyphen_free
    by (unfold name; by rewrite toUpperCase_hyphen_free).
  cbn [app length].
  assert (Js.split hyphen course_id = "OFFERING" :: Js.split hyphen rest) as Hparts.
  { rewrite Hrest. change ("OFFERING-" +:+ rest) with ("OFFERING" +:+ String hyphen rest).
    by rewrite split_app. }
  destruct (Js.split hyphen course_id) as [|p ps] eqn:Hsplit; [done|].
  injection Hparts as -> ->.
  assert ((S (length ("OFFERING" :: Js.split hyphen rest)) <? 4)%nat = false) as ->
    by (apply Nat.ltb_ge; lia).
  simpl. simpl in Hvalid. rewrite Hvalid. by destruct name.
Qed.

Lemma sanitizeInput_upper_clean s :
  isEmptyAfterTrim s = false →
  starts_clean (Js.toUpperCase (sanitizeInput s)) = true
  ∧ ends_clean (Js.toUpperCase (sanitizeInput s)) = true.
Proof.
  unfold isEmptyAfterTrim, sanitizeInput. destruct (Js.falsy s); [done|].
  rewrite starts_clean_upper, ends_clean_upper.
  destruct (trim_clean s) as [->|?]; done.
Qed.

(** The id of a new course has no white space around it. *)
Lemma generateCourseId_trimmed course_name instructor_name :
  isEmptyAfterTrim instructor_name = false →
  Js.trim (generateCourseId (sanitizeInput course_name) (sanitizeInput instructor_name))
  = generateCourseId (sanitizeInput course_name) (sanitizeInput instructor_name).
Proof.
  intros [_ He]%sanitizeInput_upper_clean. apply trim_fixed; [done|].
  unfold generateCourseId. by do 3 apply ends_clean_app.
Qed.

(** ** The shape of the rows *)

Lemma eval_employee_name u it :
  Item.employee_name (Ddb.eval u it) = Item.employee_name it.
Proof. by destruct u. Qed.

Lemma eval_current_count u it :
  is_Some (Item.current_count it) → is_Some (Item.current_count (Ddb.eval u it)).
Proof. destruct u; simpl; eauto. Qed.

Lemma wfShape_update s k u : wfShape s → is_Some (s !! k) → wfShape (Ddb.update k u s).
Proof.
  intros Hwf [it Hit]. unfold Ddb.update. rewrite Hit. simpl.
  apply map_Forall_insert_2; [|done].
  destruct (Hwf k it Hit) as [Hmeta Hreg]. split.
  - intros [Hcount Hid]%Hmeta. eauto using eval_current_count.
  - intros x Hx. rewrite eval_employee_name. eauto.
Qed.

Lemma wfShape_foldl_updates s items :
  wfShape s → Forall (λ a, actionOk s a ∧ isUpdate a) items →
  wfShape (foldl Ddb.apply s items).
Proof.
  revert s. induction items as [|a items IH]; intros s Hwf Hall; [done|].
  apply Forall_cons in Hall as [[Ha Hupd] Hall].
  destruct a as [|k u|]; try done. destruct Ha as [Hsome _].
  cbn [foldl Ddb.apply]. apply IH; [by apply wfShape_update|].
  eapply Forall_impl; [exact Hall|]. intros b [Hb Hupdb]. split; [|done].
  destruct b as [|kb ub|]; try done. destruct Hb as [Hsomeb Hub].
  split; [by apply update_is_Some|done].
Qed.

Lemma wfShape_addCourseOffering today cn instr sd mn mx s :
  wfShape s → wfShape (addCourseOffering today cn instr sd mn mx s).2.
Proof.
  intros Hwf. unfold addCourseOffering.
  repeat case_match; simpl; try done.
  match goal with H : Ddb.putCommand _ _ _ = Some _ |- _ =>
    apply putCommand_Some in H as -> end.
  apply map_Forall_insert_2; [|done]. split; [|by intros x [=]].
  intros _. split; [by eexists|]. eexists. split; [done|].
  apply generateCourseId_trimmed.
  match goal with H : _ || isEmptyAfterTrim instr || _ = false |- _ =>
    apply orb_false_elim in H as [[_ H]%orb_false_elim _] end.
  done.
Qed.

Lemma wfShape_registerForCourse now course_id employee_name email s :
  wfShape s → wfShape (registerForCourse now course_id employee_name email s).2.
Proof.
  intros Hwf.
  destruct (registerForCourse_table now course_id employee_name email s)
    as [->|(rid & st & Hr)]; [done|].
  destruct (registerForCourse now course_id employee_name email s) as [r s'] eqn:E.
  simpl in *. subst r.
  apply registerForCourse_Registered
    in E as (Hok & _ & -> & course & Hc & _ & _ & _ & _ & ->).
  unfold registerItems. cbn [foldl Ddb.apply].
  apply wfShape_update.
  - apply map_Forall_insert_2; [|apply map_Forall_insert_2; [|done]].
    + split; [by intros [=]|by intros x [=]].
    + split; [by intros [=]|]. simpl. intros x Hx%String.app_inj. subst x.
      exists course_id, (sanitizeInput employee_name).
      do 3 (split; [done|]). intros Hfree.
      unfold registrationInputOk in Hok.
      apply andb_prop in Hok as [[[Hf He]%andb_prop _]%andb_prop Hv].
      apply negb_true_iff in Hf, He.
      apply orb_false_elim in Hf as [_ Hf].
      apply orb_false_elim in He as [He _].
      destruct (Hwf _ _ Hc) as [(_ & c & Hk & Htrim) _]; [done|].
      simpl in Hk. apply String.app_inj in Hk as <-.
      by apply generateRegistrationId_valid.
  - unfold Ddb.put.
    rewrite !lookup_insert_ne by eauto using courseKey_regKey, courseKey_employeeKey.
    eauto.
Qed.

Lemma wfShape_cancelRegistration rid s :
  wfShape s → wfShape (cancelRegistration rid s).2.
Proof.
  intros Hwf.
  destruct (cancelRegistration_table rid s) as [->|[c Hacc]]; [done|].
  destruct (cancelRegistration rid s) as [r s'] eqn:E. simpl in *. subst r.
  apply cancelRegistration_accepted
    in E as (_ & -> & _ & reg & course & email & _ & _ & Hc & _ & ->).
  unfold cancelItems. cbn [foldl Ddb.apply].
  apply wfShape_update; [by do 2 apply map_Forall_delete|].
  rewrite !lookup_delete_ne by eauto using courseKey_regKey, courseKey_employeeKey.
  eauto.
Qed.

Lemma wfShape_allotCourse `{Collation} today course_id s :
  wf s → wfShape s → wfShape (allotCourse today course_id s).2.
Proof.
  intros Hwf Hids.
  destruct (allotCourse_table today course_id s)
    as [->|(Hacc & c & Hc & [[st Hw]| ->])]; [done|..].
  - apply transactWrite_Some in Hw as [_ ->].
    apply wfShape_foldl_updates; [done|]. by eapply allotItems_ok.
  - apply wfShape_update; eauto.
Qed.

(** In every table of the service the course ids have no white space
    around them, and a registration is filed under the id made from its
    name. *)
Lemma reachable_shape `{Collation} s : reachable s → wfShape s.
Proof.
  induction 1 as [|today now req s Hs IH]; [apply map_Forall_empty|].
  destruct req; simpl;
    eauto using wfShape_addCourseOffering, wfShape_registerForCourse,
      wfShape_cancelRegistration, wfShape_allotCourse, reachable_wf.
Qed.

(** A registration of an employee whose name has no hyphen is found by
    its id: the id passes the validation and names the course. *)
Lemma registration_found_by_id `{Collation} s course_id rid registration name :
  reachable s →
  s !! regKey course_id rid = Some registration →
  Item.employee_name registration = Some name →
  hyphen_free name = true →
  isValidRegistrationIdFormat rid = true
  ∧ extractCourseIdFromRegistration rid = course_id.
Proof.
  intros Hids%reachable_shape Hreg Hname Hfree.
  destruct (Hids _ _ Hreg) as [_ Hrow].
  destruct (Hrow rid eq_refl) as (c & name' & Hk & Hname' & -> & Hvalid).
  simpl in Hk. apply String.app_inj in Hk as <-.
  assert (name' = name) as -> by congruence.
  split; [by apply Hvalid|by apply extract_generate].
Qed.

(** The registrations of an allotted course cannot be cancelled: for a
    name without hyphen the cancellation answers CANCEL_REJECTED and the
    table stays as it is. *)
Lemma cancel_of_allotted_registration `{Collation} s course_id rid registration name course :
  reachable s →
  s !! regKey course_id rid = Some registration →
  Item.employee_name registration = Some name →
  hyphen_free name = true →
  s !! courseKey course_id = Some course →
  Item.is_allotted course = Some true →
  cancelRegistration rid s = (Cancellation rid course_id CANCEL_REJECTED, s).
Proof.
  intros Hs Hreg Hname Hfree Hc Hallotted%allotted_true.
  destruct (registration_found_by_id s course_id rid registration name)
    as [Hvalid Hextract]; [done..|].
  unfold cancelRegistration, Ddb.get.
  assert (Js.falsy rid = false) as ->.
  { unfold isValidRegistrationIdFormat in Hvalid. by destruct (Js.falsy _). }
  by rewrite Hvalid, Hextract, Hreg, Hc, Hallotted.
Qed.

(** ** Registration followed by cancellation *)

Lemma add_current_count_inverse course n :
  Item.current_count course = Some n →
  Item.add_current_count (-1) (Item.add_current_count 1 course) = course.
Proof.
  destruct course. simpl. intros ->. unfold Item.add_current_count. simpl.
  do 2 f_equal. lia.
Qed.

(** For a registration id that leads back to the course of the
    registration (an id that passes the validation, made from a name
    without hyphen), the cancellation that follows the registration is
    accepted, removes both rows and gives the course its row back; the
    whole table is the one before the registration when no namesake had
    a row under the id. *)
Lemma register_cancel_roundtrip s now course_id employee_name email rid s1 course :
  registerForCourse now course_id employee_name email s
  = (Registered rid ACCEPTED, s1) →
  isValidRegistrationIdFormat rid = true →
  extractCourseIdFromRegistration rid = course_id →
  s !! courseKey course_id = Some course →
  is_Some (Item.current_count course) →
  ∃ s2,
    cancelRegistration rid s1 = (Cancellation rid course_id CANCEL_ACCEPTED, s2)
    ∧ s2 !! regKey course_id rid = None
    ∧ s2 !! employeeKey (sanitizeInput email) course_id = None
    ∧ s2 !! courseKey course_id = Some course
    ∧ (∀ k, k ≠ regKey course_id rid → s2 !! k = s !! k)
    ∧ (s !! regKey course_id rid = None → s2 = s).
Proof.
  intros (_ & _ & Hrid & course0 & Hc & _ & Hallotted & Hemp & _ & ->)
    %registerForCourse_Registered Hvalid Hextract Hc' [n Hn].
  assert (course0 = course) as -> by congruence.
  destruct (registerItems_lookup course_id rid (sanitizeInput employee_name)
              (sanitizeInput email) now s) as (Hreg1 & Hemp1 & Hcourse1 & Hframe1).
  set (s1 := foldl Ddb.apply s _) in *. rewrite Hc in Hcourse1. simpl in Hcourse1.
  destruct (cancelItems_lookup course_id rid (sanitizeInput email) s1)
    as (Hreg2 & Hemp2 & Hcourse2 & Hframe2).
  pose proof (cancelItems_commit course_id rid (sanitizeInput email) s1) as Hcommit.
  set (s2 := foldl Ddb.apply s1 _) in *.
  rewrite Hcourse1 in Hcourse2. simpl in Hcourse2.
  rewrite (add_current_count_inverse _ _ Hn) in Hcourse2.
  assert (Js.falsy rid = false) as Hf.
  { unfold isValidRegistrationIdFormat in Hvalid. by destruct (Js.falsy rid). }
  assert (∀ k, k ≠ regKey course_id rid → s2 !! k = s !! k) as Hrest.
  { intros k Hk.
    destruct (decide (k = employeeKey (sanitizeInput email) course_id)) as [->|?];
      [by rewrite Hemp2, Hemp|].
    destruct (decide (k = courseKey course_id)) as [->|?];
      [by rewrite Hcourse2, Hc|].
    by rewrite Hframe2, Hframe1. }
  exists s2. split.
  - unfold cancelRegistration, Ddb.get. rewrite Hf, Hvalid, Hextract. simpl.
    rewrite Hreg1, Hcourse1. simpl.
    change (Item.allotted (Item.add_current_count 1 course))
      with (Item.allotted course).
    by rewrite Hallotted, Hcommit.
  - do 3 (split; [done|]). split; [done|].
    intros Hfresh. apply map_eq. intros k.
    destruct (decide (k = regKey course_id rid)) as [->|Hk]; [|by apply Hrest].
    by rewrite Hreg2, Hfresh.
Qed.

(** X21.  In a table of the service, the registration of an employee
    whose name has no hyphen and the cancellation of the id returned are
    a round trip: the cancellation is accepted, both rows are gone, the
    course has its row back, and the table is the one before the
    registration unless a namesake had a row under the id. *)
Lemma register_cancel_roundtrip_reachable `{Collation} s now course_id employee_name email rid s1 :
  reachable s →
  registerForCourse now course_id employee_name email s
  = (Registered rid ACCEPTED, s1) →
  hyphen_free (sanitizeInput employee_name) = true →
  ∃ s2 course,
    cancelRegistration rid s1 = (Cancellation rid course_id CANCEL_ACCEPTED, s2)
    ∧ s !! courseKey course_id = Some course
    ∧ s2 !! regKey course_id rid = None
    ∧ s2 !! employeeKey (sanitizeInput email) course_id = None
    ∧ s2 !! courseKey course_id = Some course
    ∧ (∀ k, k ≠ regKey course_id rid → s2 !! k = s !! k)
    ∧ (s !! regKey course_id rid = None → s2 = s).
Proof.
  intros Hshape%reachable_shape Hregister Hfree.
  pose proof Hregister
    as (Hok & _ & Hrid & course & Hc & _)%registerForCourse_Registered.
  unfold registrationInputOk in Hok.
  apply andb_prop in Hok as [[[Hf He]%andb_prop _]%andb_prop Hv].
  apply negb_true_iff in Hf, He.
  apply orb_false_elim in Hf as [_ Hf].
  apply orb_false_elim in He as [He _].
  destruct (Hshape _ _ Hc) as [(Hcount & c & Hk & Htrim) _]; [done|].
  simpl in Hk. apply String.app_inj in Hk as <-.
  destruct (register_cancel_roundtrip s now course_id employee_name email rid s1 course)
    as (s2 & Hcancel & Hrest); [done|..|done|done|by exists s2, course].
  - subst rid. by apply generateRegistrationId_valid.
  - subst rid. by apply extract_generate.
Qed.

Lemma register_cancel_roundtrip_reachable_witness :
  let s := scenario [addJava 1 2] in
  let registered := registerForCourse "2022-06-02T09:00:00.000Z" JAVA "ANDY"
                      "ANDY@GMAIL.COM" s in
  @reachable rootCollation s
  ∧ registered.1 = Registered "ANDY-OFFERING-JAVA-JAMES" ACCEPTED
  ∧ cancelRegistration "ANDY-OFFERING-JAVA-JAMES" registered.2
    = (Cancellation "ANDY-OFFERING-JAVA-JAMES" JAVA CANCEL_ACCEPTED, s).
Proof.
  intros s registered.
  assert (@reachable rootCollation s) as Hreach by apply reachable_scenario.
  assert (registered
          = (Registered "ANDY-OFFERING-JAVA-JAMES" ACCEPTED, registered.2)) as Hreg
    by (apply response_eta; vm_compute; reflexivity).
  split; [exact Hreach|]. split; [by rewrite Hreg|].
  destruct (@register_cancel_roundtrip_reachable rootCollation s _ JAVA "ANDY"
              "ANDY@GMAIL.COM" _ _ Hreach Hreg eq_refl)
    as (s2 & course & Hcancel & _ & _ & _ & _ & _ & Hsame).
  rewrite Hcancel. f_equal. apply Hsame. vm_compute. reflexivity.
Defined.

Lemma register_cancel_roundtrip_example :
  let s := scenario [addJava 1 2] in
  let registered := registerForCourse "2022-06-02T09:00:00.000Z" JAVA "ANDY"
                      "ANDY@GMAIL.COM" s in
  (cancelRegistration "ANDY-OFFERING-JAVA-JAMES" registered.2).2 = s.
Proof.
  intros s registered.
  assert (registered
          = (Registered "ANDY-OFFERING-JAVA-JAMES" ACCEPTED, registered.2)) as Hreg
    by (apply response_eta; vm_compute; reflexivity).
  destruct (s !! courseKey JAVA) as [course|] eqn:Hc; [|by vm_compute in Hc].
  destruct (register_cancel_roundtrip s _ JAVA "ANDY" "ANDY@GMAIL.COM" _ _ course
              Hreg eq_refl eq_refl Hc) as (s2 & -> & _ & _ & _ & _ & Hsame).
  - vm_compute in Hc. injection Hc as <-. by eexists.
  - apply Hsame. vm_compute. reflexivity.
Qed.

(** The other way in which the pair is not a round trip: when a namesake
    is registered, the cancellation of the second registration removes
    the row that the two share, and the first employee is left with the
    row filed under the email alone. *)
Lemma roundtrip_removes_namesake :
  let s := scenario [addJava 1 2; RegisterForCourse JAVA "ANDY" "ANDY@GMAIL.COM"] in
  let registered := registerForCourse "2022-06-02T09:00:00.000Z" JAVA "ANDY"
                      "ANDY2@GMAIL.COM" s in
  let canceled := cancelRegistration "ANDY-OFFERING-JAVA-JAMES" registered.2 in
  Item.email <$> s !! regKey JAVA "ANDY-OFFERING-JAVA-JAMES"
    = Some (Some "ANDY@GMAIL.COM")
  ∧ registered.1 = Registered "ANDY-OFFERING-JAVA-JAMES" ACCEPTED
  ∧ canceled.1 = Cancellation "ANDY-OFFERING-JAVA-JAMES" JAVA CANCEL_ACCEPTED
  ∧ canceled.2 !! regKey JAVA "ANDY-OFFERING-JAVA-JAMES" = None
  ∧ is_Some (canceled.2 !! employeeKey "ANDY@GMAIL.COM" JAVA)
  ∧ Item.current_count <$> canceled.2 !! courseKey JAVA = Some (Some 1)
  ∧ length (Ddb.query ("COURSE#" +:+ JAVA) "REG#" canceled.2) = 0%nat.
Proof. vm_compute. repeat split; eauto. Qed.

(** C4 fails when the name ends in [-OFFERING]: the registration of
    A-OFFERING for OFFERING-JAVA-JAMES gets the id that A has for the
    course OFFERING-OFFERING-JAVA-JAMES; the cancellation of that id is
    accepted, removes the registration of A from the other course, and
    leaves the new registration and its count in place. *)
Theorem cancel_reaches_other_course :
  let other := "OFFERING-OFFERING-JAVA-JAMES" in
  let rid := "A-OFFERING-OFFERING-JAVA-JAMES" in
  let s := scenario [addJava 1 2;
                     AddCourseOffering "OFFERING-JAVA" "JAMES" "15062022" (Some 1) (Some 2);
                     RegisterForCourse other "A" "A@GMAIL.COM"] in
  let now := "2022-06-02T09:00:00.000Z" in
  let registered := registerForCourse now JAVA "A-OFFERING" "B@GMAIL.COM" s in
  let canceled := cancelRegistration rid registered.2 in
  Item.current_count <$> s !! courseKey JAVA = Some (Some 0)
  ∧ registered.1 = Registered rid ACCEPTED
  ∧ canceled.1 = Cancellation rid other CANCEL_ACCEPTED
  ∧ Item.current_count <$> canceled.2 !! courseKey JAVA = Some (Some 1)
  ∧ Item.email <$> canceled.2 !! regKey JAVA rid = Some (Some "B@GMAIL.COM")
  ∧ Item.registration_id <$> canceled.2 !! employeeKey "B@GMAIL.COM" JAVA
    = Some (Some rid)
  ∧ canceled.2 !! regKey other rid = None
  ∧ canceled.2 !! employeeKey "A@GMAIL.COM" other = None.
Proof. vm_compute. done. Qed.

(** ** Trimming and the validators *)

Lemma app_cons c (a b : string) : String c a +:+ b = String c (a +:+ b).
Proof. reflexivity. Qed.

Lemma string_forall_app p a b :
  string_forall p (a +:+ b) = string_forall p a && string_forall p b.
Proof.
  induction a as [|c a IH]; [done|].
  rewrite app_cons. cbn [string_forall]. by rewrite IH, andb_assoc.
Qed.

Lemma string_forall_rev p s : string_forall p (String.rev s) = string_forall p s.
Proof.
  induction s as [|c s IH]; [done|].
  rewrite rev_cons, string_forall_app, IH. cbn [string_forall].
  by rewrite andb_true_r, andb_comm.
Qed.

Lemma trimStart_split s :
  ∃ w, s = w +:+ Js.trimStart s ∧ string_forall Ascii.is_space w = true.
Proof.
  induction s as [|c s (w & IH & Hw)]; [by exists ""|]. cbn [Js.trimStart].
  destruct (Ascii.is_space c) eqn:Hc.
  - exists (String c w). rewrite app_cons, <- IH. split; [done|].
    cbn [string_forall]. by rewrite Hc.
  - by exists "".
Qed.

Lemma trim_split s :
  ∃ l r, s = l +:+ Js.trim s +:+ r
         ∧ string_forall Ascii.is_space l = true
         ∧ string_forall Ascii.is_space r = true.
Proof.
  destruct (trimStart_split s) as (l & Hl & Hsl).
  destruct (trimStart_split (String.rev (Js.trimStart s))) as (w & Hw & Hsw).
  exists l, (String.rev w). split; [|by rewrite string_forall_rev].
  unfold Js.trim, Js.trimEnd. rewrite <- rev_append, <- Hw, rev_involutive.
  exact Hl.
Qed.

Lemma trimStart_spaces s :
  string_forall Ascii.is_space s = true → Js.trimStart s = "".
Proof.
  induction s as [|c s IH]; [done|]. cbn [string_forall Js.trimStart].
  intros [-> Hs]%andb_prop. by apply IH.
Qed.

(** X1.  On an ASCII string [sanitizeInput] removes white space at the
    two ends and nothing else: the input is the result between two runs
    of white space (tab, line feed, vertical tab, form feed, carriage
    return, space), and the result is empty or begins and ends with a
    character that is no white space. *)
Theorem sanitizeInput_spec s :
  Js.ascii_only s = true →
  ∃ l r, s = l +:+ sanitizeInput s +:+ r
         ∧ string_forall Ascii.is_space l = true
         ∧ string_forall Ascii.is_space r = true
         ∧ (sanitizeInput s = ""
            ∨ (starts_clean (sanitizeInput s) = true
               ∧ ends_clean (sanitizeInput s) = true)).
Proof.
  intros _.
  unfold sanitizeInput. destruct s as [|c s]; [by exists "", ""; eauto|].
  cbn [Js.falsy].
  destruct (trim_split (String c s)) as (l & r & Hs & Hl & Hr).
  exists l, r. eauto using trim_clean.
Qed.

Lemma sanitizeInput_spec_witness :
  let s := String "009" " Java Basics  " in
  Js.ascii_only s = true
  ∧ sanitizeInput s = "Java Basics"
  ∧ ∃ l r, s = l +:+ "Java Basics" +:+ r
           ∧ string_forall Ascii.is_space l = true
           ∧ string_forall Ascii.is_space r = true.
Proof.
  intros s. split; [reflexivity|]. split; [reflexivity|].
  destruct (sanitizeInput_spec s eq_refl) as (l & r & Hs & Hl & Hr & _).
  exists l, r. split; [exact Hs|]. split; [exact Hl|exact Hr].
Defined.

(** X2.  Of an ASCII string [isEmptyAfterTrim] holds exactly when the
    string is made of white space only (tab, line feed, vertical tab,
    form feed, carriage return, space), the empty string included. *)
Theorem isEmptyAfterTrim_spec s :
  Js.ascii_only s = true →
  isEmptyAfterTrim s = true ↔ string_forall Ascii.is_space s = true.
Proof.
  intros _.
  unfold isEmptyAfterTrim. rewrite Nat.eqb_eq. split.
  - unfold sanitizeInput. destruct s as [|c s]; [done|]. cbn [Js.falsy].
    destruct (trim_split (String c s)) as (l & r & Hs & Hl & Hr). intros Hlen.
    destruct (Js.trim (String c s)); [|done].
    rewrite Hs, !string_forall_app, Hl, Hr. done.
  - intros Hs. unfold sanitizeInput. destruct (Js.falsy s); [done|].
    unfold Js.trim, Js.trimEnd. by rewrite (trimStart_spaces s Hs).
Qed.

Lemma isEmptyAfterTrim_spec_witness :
  Js.ascii_only (String "009" "  ") = true
  ∧ isEmptyAfterTrim (String "009" "  ") = true
  ∧ Js.ascii_only " x " = true
  ∧ isEmptyAfterTrim " x " = false.
Proof.
  split; [reflexivity|]. split.
  - apply (isEmptyAfterTrim_spec (String "009" "  ")); reflexivity.
  - split; [reflexivity|].
    destruct (isEmptyAfterTrim " x ") eqn:E; [|reflexivity].
    apply (isEmptyAfterTrim_spec " x ") in E; [discriminate E|reflexivity].
Defined.

Lemma trim_idempotent s : Js.trim (Js.trim s) = Js.trim s.
Proof.
  destruct (trim_clean s) as [->|[Hs He]]; [done|]. by apply trim_fixed.
Qed.

Lemma trim_falsy s : Js.falsy (Js.trim s) = true → Js.trim s = "".
Proof. by destruct (Js.trim s). Qed.

(** X4.  The validators of emails, of course ids and of registration ids
    trim before they test: a string and its trimmed form get the same
    verdict. *)
Theorem validators_ignore_padding s :
  isValidEmail (Js.trim s) = isValidEmail s
  ∧ isValidCourseIdFormat (Js.trim s) = isValidCourseIdFormat s
  ∧ isValidRegistrationIdFormat (Js.trim s) = isValidRegistrationIdFormat s.
Proof.
  unfold isValidEmail, isValidCourseIdFormat, isValidRegistrationIdFormat.
  rewrite trim_idempotent.
  destruct (Js.falsy (Js.trim s)) eqn:Hf.
  - apply trim_falsy in Hf. rewrite Hf. by destruct s.
  - destruct s as [|c s]; [done|]. done.
Qed.

(** ** The regular expression of the emails *)

Lemma span_spec p s a b :
  span p s = (a, b) →
  s = a +:+ b ∧ string_forall p a = true
  ∧ match b with String c _ => p c = false | EmptyString => True end.
Proof.
  revert a b. induction s as [|c s IH]; intros a b; cbn [span].
  - by intros [= <- <-].
  - destruct (p c) eqn:Hc.
    + destruct (span p s) as [a' b'] eqn:Hs. intros [= <- <-].
      destruct (IH a' b' eq_refl) as (-> & Ha & Hb).
      rewrite app_cons. cbn [string_forall]. by rewrite Hc, Ha.
    + intros [= <- <-]. by rewrite Hc.
Qed.

Lemma span_app p a c b :
  string_forall p a = true → p c = false →
  span p (a +:+ String c b) = (a, String c b).
Proof.
  intros Ha Hc. induction a as [|d a IH].
  - change (span p (String c b) = ("", String c b)). cbn [span]. by rewrite Hc.
  - cbn [string_forall] in Ha. apply andb_prop in Ha as [Hd Ha].
    rewrite app_cons. cbn [span]. by rewrite Hd, (IH Ha).
Qed.

Lemma length_rev s : String.length (String.rev s) = String.length s.
Proof.
  induction s as [|c s IH]; [done|].
  rewrite rev_cons, length_append, IH. simpl. lia.
Qed.

Lemma rev_falsy s : Js.falsy (String.rev s) = Js.falsy s.
Proof.
  pose proof (length_rev s) as Hlen.
  destruct s, (String.rev _); done.
Qed.

Lemma local_char_at : email_local_char "@" = false.
Proof. reflexivity. Qed.

Lemma is_alpha_dot : Num.is_alpha "." = false.
Proof. reflexivity. Qed.

(** The test of the regular expression, read as a grammar. *)
Lemma emailRegex_test_spec s :
  emailRegex_test s = true ↔
  ∃ loc host tld,
    s = loc +:+ "@" +:+ host +:+ "." +:+ tld
    ∧ loc ≠ "" ∧ string_forall email_local_char loc = true
    ∧ host ≠ "" ∧ string_forall email_domain_char host = true
    ∧ (2 ≤ String.length tld)%nat ∧ string_forall Num.is_alpha tld = true.
Proof.
  unfold emailRegex_test. split.
  - destruct (span email_local_char s) as [loc r1] eqn:Hloc.
    apply span_spec in Hloc as (-> & Hlocal & _).
    destruct r1 as [|c dom]; [done|].
    destruct (ascii_dec c "@") as [->|Hc];
      [|by destruct c as [[] [] [] [] [] [] [] []]].
    destruct (span Num.is_alpha (String.rev dom)) as [tld_rev r2] eqn:Htld.
    apply span_spec in Htld as (Hdom & Halpha & _).
    destruct r2 as [|d host_rev]; [done|].
    destruct (ascii_dec d ".") as [->|Hd];
      [|by destruct d as [[] [] [] [] [] [] [] []]].
    intros [[[Hl Hh]%andb_prop Hhost]%andb_prop Hlen%Nat.leb_le]%andb_prop.
    apply (f_equal String.rev) in Hdom.
    rewrite rev_involutive, rev_append, rev_cons, append_assoc in Hdom.
    exists loc, (String.rev host_rev), (String.rev tld_rev).
    rewrite Hdom, string_forall_rev, string_forall_rev, length_rev.
    repeat split; try done.
    + by destruct loc.
    + intros E. apply (f_equal Js.falsy) in E. rewrite rev_falsy in E.
      by rewrite E in Hh.
  - intros (loc & host & tld & -> & Hl & Hlocal & Hh & Hhost & Hlen & Halpha).
    change ("@" +:+ host +:+ "." +:+ tld) with (String "@" (host +:+ "." +:+ tld)).
    rewrite (span_app _ _ _ _ Hlocal local_char_at).
    rewrite rev_append, rev_append, append_assoc.
    change (String.rev "." +:+ String.rev host) with (String "." (String.rev host)).
    rewrite span_app; [|by rewrite string_forall_rev|apply is_alpha_dot].
    rewrite string_forall_rev, Hhost, length_rev, rev_falsy.
    apply Nat.leb_le in Hlen. rewrite Hlen.
    by destruct loc, host.
Qed.

(** X3.  [isValidEmail] accepts exactly the strings that, once trimmed,
    read local@host.tld: a local part, not empty, of letters, digits,
    dots, underscores and hyphens; a host, not empty, of letters, digits,
    dots and hyphens; then a dot and at least two letters. *)
Theorem isValidEmail_spec email :
  isValidEmail email = true ↔
  ∃ loc host tld,
    Js.trim email = loc +:+ "@" +:+ host +:+ "." +:+ tld
    ∧ loc ≠ "" ∧ string_forall email_local_char loc = true
    ∧ host ≠ "" ∧ string_forall email_domain_char host = true
    ∧ (2 ≤ String.length tld)%nat ∧ string_forall Num.is_alpha tld = true.
Proof.
  rewrite <- emailRegex_test_spec. unfold isValidEmail.
  destruct email as [|c email]; [|done]. split; [done|].
  by intros Htest.
Qed.

(** ** Start dates *)

(** Without a radix [parseInt] reads a string of digits in base 10. *)
Lemma parseInt_radix s :
  s ≠ "" → string_forall Num.is_digit s = true →
  Num.parseInt None s = Num.parseInt (Some 10) s.
Proof.
  destruct s as [|c s]; [done|]. intros _. cbn [string_forall].
  intros [Hc Hs]%andb_prop. apply is_digit_cases in Hc. simpl in Hc.
  destruct Hc as [<-|Hc].
  { destruct s as [|d s']; [done|].
    cbn [string_forall] in Hs. apply andb_prop in Hs as [Hd _].
    apply is_digit_cases in Hd. simpl in Hd.
    repeat (destruct Hd as [<-|Hd]; [reflexivity|]). done. }
  repeat (destruct Hc as [<-|Hc]; [reflexivity|]). done.
Qed.

Lemma daysInMonth_lookup year month :
  1 ≤ month ≤ 12 →
  daysInMonth (Some year) !! Z.to_nat (month - 1) = Some (calendarDays year month).
Proof.
  intros Hm. unfold daysInMonth, calendarDays, isLeapYear.
  assert (month = 1 ∨ month = 2 ∨ month = 3 ∨ month = 4 ∨ month = 5 ∨ month = 6
          ∨ month = 7 ∨ month = 8 ∨ month = 9 ∨ month = 10 ∨ month = 11
          ∨ month = 12) as Hcases by lia.
  destruct (_ || _);
    repeat (destruct Hcases as [->|Hcases]; [reflexivity|]); by subst.
Qed.

Lemma newDate_calendar year month day :
  1900 ≤ year → 1 ≤ month ≤ 12 →
  Num.newDate (Some year) (Some (month - 1)) (Some day)
  = Some (Num.days_from_civil year month day).
Proof.
  intros Hy Hm. unfold Num.newDate.
  assert ((0 <=? year) && (year <=? 99) = false) as ->
    by (apply andb_false_iff; right; lia).
  assert ((month - 1) / 12 = 0) as -> by (apply Z.div_small; lia).
  assert ((month - 1) mod 12 = month - 1) as -> by (apply Z.mod_small; lia).
  f_equal. unfold Num.days_from_civil.
  replace (year + 0) with year by lia. replace (month - 1 + 1) with month by lia.
  lia.
Qed.

(** X5.  A start date that [isValidDateFormat] accepts is DDMMYYYY with
    a month in 1..12, a day in 1..the days of that month (29 for the
    February of a leap year) and a year in 1900..2100; the controllers,
    which parse the three fields without a radix and build a [Date], read
    the very day that is written: no field is read in another base and
    the date does not carry over into the next month. *)
Theorem valid_start_date_is_read_as_written dateStr :
  isValidDateFormat dateStr = true →
  ∃ day month year,
    Num.parseInt (Some 10) (Js.substring 0 2 dateStr) = Some day
    ∧ Num.parseInt (Some 10) (Js.substring 2 4 dateStr) = Some month
    ∧ Num.parseInt (Some 10) (Js.substring 4 8 dateStr) = Some year
    ∧ 1 ≤ month ≤ 12
    ∧ 1 ≤ day ≤ calendarDays year month
    ∧ 1900 ≤ year ≤ 2100
    ∧ courseStartDate dateStr = Some (Num.days_from_civil year month day).
Proof.
  intros Hvalid. pose proof Hvalid as Hv. revert Hv.
  unfold isValidDateFormat at 1.
  destruct (Js.falsy dateStr || _) eqn:Hlen; [done|].
  apply orb_false_elim in Hlen as [_ Hlen%negb_false_iff%Nat.eqb_eq].
  destruct (string_forall Num.is_digit dateStr) eqn:Hdigits; [|done].
  destruct dateStr as [|c0 [|c1 [|c2 [|c3 [|c4 [|c5 [|c6 [|c7 [|]]]]]]]]];
    try discriminate Hlen.
  cbn [string_forall] in Hdigits.
  apply andb_prop in Hdigits as [Hc0 Hdigits].
  apply andb_prop in Hdigits as [Hc1 Hdigits].
  apply andb_prop in Hdigits as [Hc2 Hdigits].
  apply andb_prop in Hdigits as [Hc3 Hdigits].
  apply andb_prop in Hdigits as [Hc4 Hdigits].
  apply andb_prop in Hdigits as [Hc5 Hdigits].
  apply andb_prop in Hdigits as [Hc6 Hdigits].
  apply andb_prop in Hdigits as [Hc7 _].
  set (dateStr := String c0 (String c1 (String c2 (String c3 (String c4
                    (String c5 (String c6 (String c7 "")))))))) in *.
  set (dd := String c0 (String c1 "")).
  set (mm := String c2 (String c3 "")).
  set (yyyy := String c4 (String c5 (String c6 (String c7 "")))).
  assert (string_forall Num.is_digit dd = true) as Hdd
    by (cbn [dd string_forall]; by rewrite Hc0, Hc1).
  assert (string_forall Num.is_digit mm = true) as Hmm
    by (cbn [mm string_forall]; by rewrite Hc2, Hc3).
  assert (string_forall Num.is_digit yyyy = true) as Hyyyy
    by (cbn [yyyy string_forall]; by rewrite Hc4, Hc5, Hc6, Hc7).
  destruct (parseInt_digits dd) as [day Hday]; [done..|].
  destruct (parseInt_digits mm) as [month Hmonth]; [done..|].
  destruct (parseInt_digits yyyy) as [year Hyear]; [done..|].
  unfold courseStartDate.
  change (Js.substring 0 2 dateStr) with dd.
  change (Js.substring 2 4 dateStr) with mm.
  change (Js.substring 4 8 dateStr) with yyyy.
  rewrite <- !parseInt_radix by done. rewrite Hday, Hmonth, Hyear.
  cbn [negb Num.lt Num.gt fmap option_fmap option_map mbind option_bind].
  destruct (_ || _) eqn:Hm1; [done|].
  apply orb_false_elim in Hm1 as [Hm1%Z.ltb_ge Hm2%Z.ltb_ge].
  destruct (_ || _) eqn:Hd1; [done|].
  apply orb_false_elim in Hd1 as [Hd1%Z.ltb_ge Hd2%Z.ltb_ge].
  rewrite (daysInMonth_lookup year month) by lia. cbn [Num.gt Num.lt].
  destruct (calendarDays year month <? day) eqn:Hd3; [done|].
  apply Z.ltb_ge in Hd3.
  destruct (_ || _) eqn:Hy1; [done|].
  apply orb_false_elim in Hy1 as [Hy1%Z.ltb_ge Hy2%Z.ltb_ge].
  intros _. exists day, month, year.
  rewrite newDate_calendar by lia. repeat split; done || lia.
Qed.

Lemma valid_start_date_is_read_as_written_witness :
  isValidDateFormat "29022024" = true
  ∧ ∃ day month year,
      Num.parseInt (Some 10) (Js.substring 0 2 "29022024") = Some day
      ∧ Num.parseInt (Some 10) (Js.substring 2 4 "29022024") = Some month
      ∧ Num.parseInt (Some 10) (Js.substring 4 8 "29022024") = Some year
      ∧ 1 ≤ month ≤ 12
      ∧ 1 ≤ day ≤ calendarDays year month
      ∧ 1900 ≤ year ≤ 2100
      ∧ courseStartDate "29022024" = Some (Num.days_from_civil year month day).
Proof.
  split; [reflexivity|].
  apply (valid_start_date_is_read_as_written "29022024"). reflexivity.
Defined.

(** ** The ids of the courses *)

Lemma split_upper s :
  Js.split hyphen (Js.toUpperCase s) = Js.toUpperCase <$> Js.split hyphen s.
Proof.
  induction s as [|c s IH]; [done|]. cbn [Js.toUpperCase Js.split].
  rewrite upper_ascii_hyphen, IH.
  destruct (Ascii.eqb c hyphen); [done|].
  by destruct (Js.split hyphen s).
Qed.

Lemma length_upper s : String.length (Js.toUpperCase s) = String.length s.
Proof. induction s as [|c s IH]; [done|]. simpl. by rewrite IH. Qed.

Lemma parts_nonempty_upper s : parts_nonempty (Js.toUpperCase s) = parts_nonempty s.
Proof.
  unfold parts_nonempty. rewrite split_upper.
  induction (Js.split hyphen s) as [|p ps IH]; [done|].
  rewrite fmap_cons. cbn [forallb]. by rewrite length_upper, IH.
Qed.

(** X6.  For course names without hyphen, two offerings get the same
    course id only if the course names and the instructor names agree up
    to letter case. *)
Theorem generateCourseId_inj courseName instructorName courseName' instructorName' :
  hyphen_free courseName = true →
  hyphen_free courseName' = true →
  generateCourseId courseName instructorName
  = generateCourseId courseName' instructorName' →
  Js.toUpperCase courseName = Js.toUpperCase courseName'
  ∧ Js.toUpperCase instructorName = Js.toUpperCase instructorName'.
Proof.
  intros Hn Hn'. unfold generateCourseId. intros E%String.app_inj.
  change ("-" +:+ Js.toUpperCase instructorName)
    with (String hyphen (Js.toUpperCase instructorName)) in E.
  change ("-" +:+ Js.toUpperCase instructorName')
    with (String hyphen (Js.toUpperCase instructorName')) in E.
  pose proof (f_equal (Js.split hyphen) E) as Hsplit.
  rewrite !split_app in Hsplit.
  rewrite (split_hyphen_free (Js.toUpperCase courseName)),
    (split_hyphen_free (Js.toUpperCase courseName')) in Hsplit
    by (by rewrite toUpperCase_hyphen_free).
  cbn [app] in Hsplit. injection Hsplit as Hname _. split; [done|].
  rewrite Hname in E. by apply String.app_inj in E as [= ->].
Qed.

Lemma generateCourseId_inj_witness :
  hyphen_free "Java" = true ∧ hyphen_free "JAVA" = true
  ∧ generateCourseId "Java" "James" = generateCourseId "JAVA" "james"
  ∧ Js.toUpperCase "Java" = Js.toUpperCase "JAVA"
  ∧ Js.toUpperCase "James" = Js.toUpperCase "james".
Proof.
  split; [reflexivity|]. split; [reflexivity|]. split; [reflexivity|].
  apply (generateCourseId_inj "Java" "James" "JAVA" "james"); reflexivity.
Defined.

(** The id of a course made from names that are not empty after the
    trimming passes the validation exactly when no part of the names is
    empty. *)
Lemma generateCourseId_valid course_name instructor_name :
  isEmptyAfterTrim course_name = false →
  isEmptyAfterTrim instructor_name = false →
  isValidCourseIdFormat
    (generateCourseId (sanitizeInput course_name) (sanitizeInput instructor_name))
  = parts_nonempty (sanitizeInput course_name)
    && parts_nonempty (sanitizeInput instructor_name).
Proof.
  intros Hn Hi. unfold isValidCourseIdFormat.
  rewrite generateCourseId_trimmed by done. unfold generateCourseId.
  set (N := Js.toUpperCase (sanitizeInput course_name)).
  set (I := Js.toUpperCase (sanitizeInput instructor_name)).
  change (Js.falsy ("OFFERING-" +:+ N +:+ "-" +:+ I)) with false.
  change (Js.startsWith "OFFERING-" ("OFFERING-" +:+ N +:+ "-" +:+ I))
    with (String.prefix "" (N +:+ "-" +:+ I)).
  assert (String.prefix "" (N +:+ "-" +:+ I) = true) as ->
    by (by destruct (N +:+ "-" +:+ I)).
  change ("OFFERING-" +:+ N +:+ "-" +:+ I)
    with ("OFFERING" +:+ String hyphen (N +:+ String hyphen I)).
  rewrite !split_app. change (Js.split hyphen "OFFERING") with ["OFFERING"].
  rewrite <- (parts_nonempty_upper (sanitizeInput course_name)),
    <- (parts_nonempty_upper (sanitizeInput instructor_name)).
  fold N I. unfold parts_nonempty.
  pose proof (split_nonempty hyphen N) as HN.
  pose proof (split_nonempty hyphen I) as HI.
  destruct (Js.split hyphen N) as [|p ps]; [done|].
  destruct (Js.split hyphen I) as [|q qs]; [done|].
  assert ((length (["OFFERING"] ++ (p :: ps) ++ q :: qs) <? 3)%nat = false) as ->.
  { apply Nat.ltb_ge. rewrite !length_app. simpl. lia. }
  cbn [negb]. rewrite !List.forallb_app. reflexivity.
Qed.

(** What a successful [addCourseOffering] has checked and written. *)
Lemma addCourseOffering_CourseAdded today cn instr sd mn mx s cid s' :
  addCourseOffering today cn instr sd mn mx s = (CourseAdded cid, s') →
  ∃ min_employees max_employees,
    mn = Some min_employees ∧ mx = Some max_employees
    ∧ isEmptyAfterTrim cn = false ∧ isEmptyAfterTrim instr = false
    ∧ 0 ≤ min_employees ≤ max_employees
    ∧ isValidDateFormat (sanitizeInput sd) = true
    ∧ Num.lt (courseStartDate (sanitizeInput sd)) (Some today) = false
    ∧ cid = generateCourseId (sanitizeInput cn) (sanitizeInput instr)
    ∧ s !! courseKey cid = None
    ∧ s' = <[courseKey cid := newCourse cid (sanitizeInput cn) (sanitizeInput instr)
                                (sanitizeInput sd) min_employees max_employees]> s.
Proof.
  unfold addCourseOffering, Ddb.get.
  destruct mn as [min_employees|]; [|done]. destruct mx as [max_employees|]; [|done].
  destruct (_ || Js.falsy sd); [done|].
  destruct (_ || isEmptyAfterTrim sd) eqn:He; [done|].
  apply orb_false_elim in He as [[Hcn Hinstr]%orb_false_elim _].
  destruct (_ || _) eqn:Hneg; [done|].
  apply orb_false_elim in Hneg as [Hmn%Z.ltb_ge Hmx%Z.ltb_ge].
  destruct (max_employees <? min_employees) eqn:Hle; [done|]. apply Z.ltb_ge in Hle.
  destruct (isValidDateFormat _) eqn:Hdate; [|done]. cbn [negb].
  destruct (Num.lt _ _) eqn:Hpast; [done|].
  destruct (s !! courseKey _) eqn:Hc; [done|].
  destruct (Ddb.putCommand _ _ _) as [s1|] eqn:Hput; [|done].
  apply putCommand_Some in Hput as ->.
  intros [= <- <-]. exists min_employees, max_employees. by repeat split.
Qed.

(** X8.  The id under which [addCourseOffering] files a course passes
    the validation of the other endpoints when no part of the two names
    between hyphens is empty.  Otherwise (a name that begins or ends with
    a hyphen, or has two in a row) every [registerForCourse] and every
    [allotCourse] on the id answers 400 INPUT_DATA_ERROR, on any table:
    the course is there and cannot be used. *)
Theorem added_course_is_usable `{Collation} today cn instr sd mn mx s cid s' :
  addCourseOffering today cn instr sd mn mx s = (CourseAdded cid, s') →
  let ok := parts_nonempty (sanitizeInput cn) && parts_nonempty (sanitizeInput instr) in
  (ok = true → acceptedCourseId cid)
  ∧ (ok = false →
       ∀ today' now name email s'',
         registerForCourse now cid name email s'' = (Failure 400 INPUT_DATA_ERROR, s'')
         ∧ allotCourse today' cid s'' = (Failure 400 INPUT_DATA_ERROR, s'')).
Proof.
  intros (mn' & mx' & _ & _ & Hcn & Hinstr & _ & _ & _ & -> & _)
    %addCourseOffering_CourseAdded ok.
  pose proof (generateCourseId_valid cn instr Hcn Hinstr) as Hvalid. fold ok in Hvalid.
  split.
  - intros Hok. split; [done|]. by rewrite Hvalid.
  - intros Hok today' now name email s''. rewrite Hok in Hvalid. split.
    + unfold registerForCourse. rewrite Hvalid.
      by repeat (case_match; try done).
    + unfold allotCourse. rewrite Hvalid. by case_match.
Qed.

Lemma added_course_is_usable_witness :
  let today := june2022 1 in
  let good := addCourseOffering today "Java" "James" "15062022" (Some 1) (Some 2) ∅ in
  let bad := addCourseOffering today "-Java" "James" "15062022" (Some 1) (Some 2) ∅ in
  good.1 = CourseAdded "OFFERING-JAVA-JAMES"
  ∧ acceptedCourseId "OFFERING-JAVA-JAMES"
  ∧ bad.1 = CourseAdded "OFFERING--JAVA-JAMES"
  ∧ ∀ s, registerForCourse "2022-06-02T09:00:00.000Z" "OFFERING--JAVA-JAMES"
           "ANDY" "ANDY@GMAIL.COM" s
         = (Failure 400 INPUT_DATA_ERROR, s).
Proof.
  intros today good bad.
  assert (good = (CourseAdded "OFFERING-JAVA-JAMES", good.2)) as Hgood
    by (apply response_eta; vm_compute; reflexivity).
  assert (bad = (CourseAdded "OFFERING--JAVA-JAMES", bad.2)) as Hbad
    by (apply response_eta; vm_compute; reflexivity).
  split; [by rewrite Hgood|]. split.
  - destruct (@added_course_is_usable rootCollation today "Java" "James"
                "15062022" (Some 1) (Some 2) ∅ _ _ Hgood) as [Hok _].
    apply Hok. reflexivity.
  - split; [by rewrite Hbad|]. intros s.
    destruct (@added_course_is_usable rootCollation today "-Java" "James"
                "15062022" (Some 1) (Some 2) ∅ _ _ Hbad) as [_ Hnot].
    destruct (Hnot eq_refl today "2022-06-02T09:00:00.000Z" "ANDY" "ANDY@GMAIL.COM" s)
      as [Hregister _].
    exact Hregister.
Defined.

(** ** Ids with white space or with hyphens *)

Lemma registrationInputOk_inv course_id employee_name email :
  registrationInputOk course_id employee_name email = true →
  Js.falsy employee_name = false ∧ Js.falsy email = false
  ∧ Js.falsy course_id = false
  ∧ isEmptyAfterTrim employee_name = false ∧ isEmptyAfterTrim email = false
  ∧ isValidEmail (sanitizeInput email) = true
  ∧ isValidCourseIdFormat course_id = true.
Proof.
  unfold registrationInputOk.
  intros [[[Hf He]%andb_prop Hm]%andb_prop Hv]%andb_prop.
  apply negb_true_iff in Hf, He.
  apply orb_false_elim in Hf as [[? ?]%orb_false_elim ?].
  apply orb_false_elim in He as [? ?]. done.
Qed.

(** X9.  In a table of the service a course id with white space around
    it names no course: the validation, which trims, may accept it, but
    [registerForCourse] and [allotCourse] look the id up as it is and
    answer 404 Course not found, writing nothing. *)
Theorem padded_course_id_is_not_found `{Collation} s course_id :
  reachable s →
  Js.trim course_id ≠ course_id →
  (∀ now employee_name email,
     registrationInputOk course_id employee_name email = true →
     registerForCourse now course_id employee_name email s
     = (Failure 404 Course_not_found, s))
  ∧ (∀ today,
       acceptedCourseId course_id →
       allotCourse today course_id s = (Failure 404 Course_not_found, s)).
Proof.
  intros Hshape%reachable_shape Hpad.
  assert (s !! courseKey course_id = None) as Hnone.
  { destruct (s !! courseKey course_id) as [course|] eqn:Hc; [|done].
    destruct (Hshape _ _ Hc) as [(_ & c & Hk & Htrim) _]; [done|].
    simpl in Hk. apply String.app_inj in Hk as <-. done. }
  split.
  - intros now employee_name email
      (Hn & He & Hc & Hen & Hee & Hm & Hv)%registrationInputOk_inv.
    unfold registerForCourse, Ddb.get.
    by rewrite Hn, He, Hc, Hen, Hee, Hm, Hv, Hnone.
  - intros today [Hf Hv]. unfold allotCourse, Ddb.get.
    by rewrite Hf, Hv, Hnone.
Qed.

Lemma padded_course_id_is_not_found_witness :
  let s := scenario [addJava 1 2] in
  let padded := "OFFERING-JAVA-JAMES " in
  @reachable rootCollation s
  ∧ is_Some (s !! courseKey JAVA)
  ∧ Js.trim padded = JAVA
  ∧ registrationInputOk padded "ANDY" "ANDY@GMAIL.COM" = true
  ∧ registerForCourse "2022-06-02T09:00:00.000Z" padded "ANDY" "ANDY@GMAIL.COM" s
    = (Failure 404 Course_not_found, s).
Proof.
  intros s padded.
  assert (@reachable rootCollation s) as Hreach by apply reachable_scenario.
  split; [exact Hreach|]. split; [vm_compute; eauto|].
  split; [reflexivity|]. split; [reflexivity|].
  destruct (@padded_course_id_is_not_found rootCollation s padded Hreach)
    as [Hregister _]; [by intros [=]|].
  by apply Hregister.
Defined.

(** X10.  A registration made under a name with a hyphen whose second
    part is not OFFERING gets an id that [cancelRegistration] turns down
    on every table with 400 INPUT_DATA_ERROR: the registration cannot be
    cancelled. *)
Theorem hyphenated_name_cannot_cancel `{Collation} s now course_id employee_name
    email rid st s1 p0 p1 ps :
  reachable s →
  registerForCourse now course_id employee_name email s = (Registered rid st, s1) →
  Js.split hyphen (sanitizeInput employee_name) = p0 :: p1 :: ps →
  Js.toUpperCase p1 ≠ "OFFERING" →
  ∀ s', cancelRegistration rid s' = (Failure 400 INPUT_DATA_ERROR, s').
Proof.
  intros Hshape%reachable_shape
    (Hok & _ & -> & course & Hc & _)%registerForCourse_Registered Hparts Hp1 s'.
  apply registrationInputOk_inv in Hok as (_ & _ & Hf & Hn & _ & _ & Hv).
  destruct (Hshape _ _ Hc) as [(_ & c & Hk & Htrim) _]; [done|].
  simpl in Hk. apply String.app_inj in Hk as <-.
  destruct (sanitizeInput_upper_clean employee_name Hn) as [Hs _].
  assert (ends_clean course_id = true) as He.
  { destruct (trim_clean course_id) as [E|[_ E]]; rewrite Htrim in E; [|done].
    by rewrite E in Hf. }
  unfold cancelRegistration.
  assert (isValidRegistrationIdFormat
            (generateRegistrationId (sanitizeInput employee_name) course_id) = false)
    as ->; [|by case_match].
  unfold isValidRegistrationIdFormat, generateRegistrationId.
  rewrite trim_fixed by eauto using starts_clean_app, ends_clean_app.
  change ("-" +:+ course_id) with (String hyphen course_id).
  destruct (Js.falsy (_ +:+ _)); [done|].
  rewrite split_app, split_upper, Hparts, !fmap_cons. cbn [app lookup list_lookup].
  destruct (_ <? 4)%nat; [done|].
  rewrite bool_decide_false; [done|]. by intros [= E].
Qed.

Lemma hyphenated_name_cannot_cancel_witness :
  let s := scenario [addJava 1 2] in
  let registered := registerForCourse "2022-06-02T09:00:00.000Z" JAVA "Mary-Ann"
                      "MARY@GMAIL.COM" s in
  @reachable rootCollation s
  ∧ registered.1 = Registered "MARY-ANN-OFFERING-JAVA-JAMES" ACCEPTED
  ∧ cancelRegistration "MARY-ANN-OFFERING-JAVA-JAMES" registered.2
    = (Failure 400 INPUT_DATA_ERROR, registered.2).
Proof.
  intros s registered.
  assert (@reachable rootCollation s) as Hreach by apply reachable_scenario.
  assert (registered
          = (Registered "MARY-ANN-OFFERING-JAVA-JAMES" ACCEPTED, registered.2))
    as Hreg by (apply response_eta; vm_compute; reflexivity).
  split; [exact Hreach|]. split; [by rewrite Hreg|].
  apply (@hyphenated_name_cannot_cancel rootCollation s _ JAVA "Mary-Ann"
           "MARY@GMAIL.COM" _ _ _ "Mary" "Ann" [] Hreach Hreg); [reflexivity|].
  by intros [=].
Defined.

(** ** Sound tables *)

Lemma courseOk_rowCount s s' c course :
  rowCount c s' = rowCount c s → courseOk s c course → courseOk s' c course.
Proof. unfold courseOk. by intros ->. Qed.

Lemma courseOk_open s c course :
  courseOk s c course → Item.allotted course = false →
  Item.course_status course = None ∧ Item.is_allotted course = Some false.
Proof.
  intros (mn & mx & n & _ & _ & _ & _ & _ & Hst) Ha. unfold Item.allotted in Ha.
  destruct (Item.course_status course) as [[]|]; try done;
    destruct Hst as [Hst _]; rewrite Hst in Ha; done.
Qed.

Lemma rowCount_pos c x s : is_Some (s !! regKey c x) → (0 < rowCount c s)%nat.
Proof.
  intros Hrow. rewrite <- (rowCount_delete_row c x s Hrow). lia.
Qed.

Lemma sound_no_rows s c :
  sound s → s !! courseKey c = None → rowCount c s = 0%nat.
Proof.
  intros (_ & Hrows & _) Hnone. apply rowCount_zero. intros x.
  destruct (s !! regKey c x) as [reg|] eqn:Hreg; [|done].
  destruct (Hrows _ _ _ Hreg) as (course & Hc & _). congruence.
Qed.

Lemma addCourseOffering_outcome today cn instr sd mn mx s :
  (addCourseOffering today cn instr sd mn mx s).2 = s
  ∨ ∃ cid, (addCourseOffering today cn instr sd mn mx s).1 = CourseAdded cid.
Proof. unfold addCourseOffering. repeat case_match; simpl; eauto. Qed.

Lemma sound_addCourseOffering today cn instr sd mn mx s :
  sound s → sound (addCourseOffering today cn instr sd mn mx s).2.
Proof.
  intros Hsound.
  destruct (addCourseOffering_outcome today cn instr sd mn mx s) as [->|[cid0 Hr]];
    [done|].
  destruct (addCourseOffering today cn instr sd mn mx s) as [r s'] eqn:Hadd.
  simpl in *. subst r.
  apply addCourseOffering_CourseAdded in Hadd
    as (mn' & mx' & -> & -> & _ & _ & Hle & _ & _ & -> & Hnone' & ->).
  set (cid := generateCourseId _ _) in *.
  pose proof Hsound as (Hcourses & Hrows & Hemp).
  assert (∀ c, rowCount c (<[courseKey cid := newCourse cid (sanitizeInput cn)
                               (sanitizeInput instr) (sanitizeInput sd) mn' mx']> s)
               = rowCount c s) as Hcnt.
  { intros c. apply rowCount_insert_other. intros x E. by eapply courseKey_regKey. }
  split; [|split].
  - intros c course. destruct (decide (c = cid)) as [->|Hne].
    + rewrite lookup_insert_eq. intros [= <-]. exists mn', mx', 0.
      rewrite Hcnt, (sound_no_rows s cid) by done. simpl. repeat split; lia.
    + rewrite lookup_insert_ne by (by intros E%courseKey_inj). intros Hc.
      eapply courseOk_rowCount; [apply Hcnt|]. by apply Hcourses.
  - intros c x reg. rewrite lookup_insert_ne by apply courseKey_regKey.
    intros (course & Hc & Hrest)%Hrows. exists course. split; [|done].
    rewrite lookup_insert_ne; [done|]. intros E%courseKey_inj. congruence.
  - intros pk c. rewrite lookup_insert_ne by (by intros [=]).
    intros Hk%Hemp. destruct (decide (c = cid)) as [->|Hne].
    + rewrite lookup_insert_eq. eauto.
    + by rewrite lookup_insert_ne by (by intros E%courseKey_inj).
Qed.

Lemma sound_registerForCourse now course_id employee_name email s :
  sound s → sound (registerForCourse now course_id employee_name email s).2.
Proof.
  intros Hsound.
  destruct (registerForCourse_table now course_id employee_name email s)
    as [->|(rid & st & Hr)]; [done|].
  destruct (registerForCourse now course_id employee_name email s) as [r s'] eqn:E.
  simpl in *. subst r.
  apply registerForCourse_Registered
    in E as (_ & _ & -> & course & Hc & _ & Hallotted & _ & Hcap & ->).
  set (rid := generateRegistrationId (sanitizeInput employee_name) course_id) in *.
  destruct (registerItems_lookup course_id rid (sanitizeInput employee_name)
              (sanitizeInput email) now s) as (Hreg1 & Hemp1 & Hcourse1 & Hframe1).
  rewrite Hc in Hcourse1. cbn [default from_option id] in Hcourse1.
  assert (∀ c, rowCount c (foldl Ddb.apply s
                             (registerItems course_id rid (sanitizeInput employee_name)
                                (sanitizeInput email) now))
               = if decide (c = course_id)
                 then if decide (is_Some (s !! regKey course_id rid))
                      then rowCount c s else S (rowCount c s)
                 else rowCount c s)
    as Hcnt.
  { intros c. cbn [registerItems foldl Ddb.apply]. unfold Ddb.update, Ddb.put.
    rewrite rowCount_insert_other by (intros x E; by eapply courseKey_regKey).
    rewrite rowCount_insert_other
      by (intros x E; symmetry in E; by eapply regKey_employeeKey).
    case_decide as Hcid.
    - subst c. case_decide as Hrow.
      + by apply rowCount_insert_Some.
      + apply rowCount_insert_fresh. by apply eq_None_not_Some.
    - apply rowCount_insert_other. intros x. by apply regKey_course. }
  set (s1 := foldl Ddb.apply s _) in *.
  pose proof Hsound as (Hcourses & Hrows & Hemp).
  destruct (courseOk_open s course_id course) as [Hstatus Hopen]; [by apply Hcourses|done|].
  assert (∀ c course', s !! courseKey c = Some course' →
            ∃ course'', s1 !! courseKey c = Some course''
                        ∧ Item.course_status course'' = Item.course_status course')
    as Hkeep.
  { intros c course' Hc'. destruct (decide (c = course_id)) as [->|Hne].
    - rewrite Hcourse1. eexists. split; [done|]. simpl. congruence.
    - exists course'. split; [|done]. rewrite Hframe1; [done|..].
      + apply courseKey_regKey.
      + apply courseKey_employeeKey.
      + by intros E%courseKey_inj. }
  split; [|split].
  - intros c course'. specialize (Hcnt c). case_decide as Hcid.
    + subst c. rewrite Hcourse1. intros [= <-].
      destruct (Hcourses _ _ Hc) as (mn & mx & n & Hmn & Hmx & Hn & Hle & Hbound & _).
      rewrite Hn, Hmx in Hcap. simpl in Hcap. apply Z.leb_gt in Hcap.
      exists mn, mx, (n + 1). simpl. rewrite Hn, Hstatus. simpl.
      repeat split; try done; try lia.
      case_decide; lia.
    + rewrite Hframe1; [|apply courseKey_regKey|apply courseKey_employeeKey
                        |by intros E%courseKey_inj].
      intros Hc'. eapply courseOk_rowCount; [exact Hcnt|]. by apply Hcourses.
  - intros c x reg Hreg.
    destruct (decide (regKey c x = regKey course_id rid)) as [E|Hne].
    + rewrite E, Hreg1 in Hreg. injection Hreg as <-.
      apply regKey_inj in E as [-> _]. eexists. split; [exact Hcourse1|].
      simpl. rewrite Hstatus. simpl. repeat split; eauto.
    + rewrite Hframe1 in Hreg; [|done|apply regKey_employeeKey
                                |apply not_eq_sym, courseKey_regKey].
      destruct (Hrows _ _ _ Hreg) as (course' & Hc' & Hst & Hrest).
      destruct (Hkeep _ _ Hc') as (course'' & Hc'' & Hsame).
      exists course''. rewrite Hsame. done.
  - intros pk c Hk.
    assert (is_Some (s !! courseKey c)) as [course' Hc'].
    { destruct (decide ((pk, "COURSE#" +:+ c) = employeeKey (sanitizeInput email) course_id))
        as [E|Hne].
      - injection E as _ E. apply String.app_inj in E as ->. eauto.
      - apply (Hemp pk). rewrite Hframe1 in Hk; [done| |done|]; by intros [=]. }
    destruct (Hkeep _ _ Hc') as (course'' & Hc'' & _). eauto.
Qed.

Lemma sound_cancelRegistration rid s :
  sound s → sound (cancelRegistration rid s).2.
Proof.
  intros Hsound.
  destruct (cancelRegistration_table rid s) as [->|[c0 Hacc]]; [done|].
  destruct (cancelRegistration rid s) as [r s'] eqn:Hcancel. simpl in *. subst r.
  apply cancelRegistration_accepted
    in Hcancel as (_ & -> & _ & reg & course & email & Hreg & _ & Hc & Hallotted & ->).
  set (c' := extractCourseIdFromRegistration rid) in *.
  destruct (cancelItems_lookup c' rid email s) as (Hreg2 & Hemp2 & Hcourse2 & Hframe2).
  rewrite Hc in Hcourse2. cbn [default from_option id] in Hcourse2.
  assert (∀ c, (rowCount c (foldl Ddb.apply s (cancelItems c' rid email))
                + (if decide (c = c') then 1 else 0))%nat = rowCount c s) as Hcnt.
  { intros c. cbn [cancelItems foldl Ddb.apply]. unfold Ddb.update.
    rewrite rowCount_insert_other by (intros x E; by eapply courseKey_regKey).
    rewrite rowCount_delete_other
      by (intros x E; symmetry in E; by eapply regKey_employeeKey).
    case_decide as Hcid.
    - subst c. rewrite <- (rowCount_delete_row c' rid s) by eauto. lia.
    - rewrite rowCount_delete_other; [lia|]. intros x. by apply regKey_course. }
  set (s2 := foldl Ddb.apply s _) in *.
  pose proof Hsound as (Hcourses & Hrows & Hemp).
  destruct (courseOk_open s c' course) as [Hstatus Hopen]; [by apply Hcourses|done|].
  assert (∀ c course', s !! courseKey c = Some course' →
            ∃ course'', s2 !! courseKey c = Some course''
                        ∧ Item.course_status course'' = Item.course_status course')
    as Hkeep.
  { intros c course' Hc'. destruct (decide (c = c')) as [->|Hne].
    - rewrite Hcourse2. eexists. split; [done|]. simpl. congruence.
    - exists course'. split; [|done]. rewrite Hframe2; [done|..].
      + apply courseKey_regKey.
      + apply courseKey_employeeKey.
      + by intros E%courseKey_inj. }
  assert (∀ k, is_Some (s2 !! k) → k.2 ≠ "METADATA" → s2 !! k = s !! k) as Hleft.
  { intros k Hk Hsk.
    destruct (decide (k = regKey c' rid)) as [->|?]; [rewrite Hreg2 in Hk; by destruct Hk|].
    destruct (decide (k = employeeKey email c')) as [->|?];
      [rewrite Hemp2 in Hk; by destruct Hk|].
    apply Hframe2; [done..|]. by intros ->. }
  split; [|split].
  - intros c course'. specialize (Hcnt c). case_decide as Hcid.
    + subst c. rewrite Hcourse2. intros [= <-].
      destruct (Hcourses _ _ Hc) as (mn & mx & n & Hmn & Hmx & Hn & Hle & Hbound & _).
      exists mn, mx, (n - 1). simpl. rewrite Hn, Hstatus. simpl.
      repeat split; try done; lia.
    + rewrite Hframe2; [|apply courseKey_regKey|apply courseKey_employeeKey
                        |by intros E%courseKey_inj].
      intros Hc'. eapply courseOk_rowCount; [|by apply Hcourses]. lia.
  - intros c x reg' Hreg'. rewrite Hleft in Hreg' by (by eauto || by intros [=]).
    destruct (Hrows _ _ _ Hreg') as (course' & Hc' & Hst & Hrest).
    destruct (Hkeep _ _ Hc') as (course'' & Hc'' & Hsame).
    exists course''. rewrite Hsame. done.
  - intros pk c Hk. pose proof Hk as Hk'. rewrite Hleft in Hk' by (by eauto || by intros [=]).
    destruct (Hemp _ _ Hk') as [course' Hc'].
    destruct (Hkeep _ _ Hc') as (course'' & Hc'' & _). eauto.
Qed.

Lemma allotKey_in course_id (regs : list Item.t) k :
  k ∈ allotKey course_id <$> regs → ∃ x, k = regKey course_id x.
Proof. intros (reg & -> & _)%list_elem_of_fmap. unfold allotKey. eauto. Qed.

(** What an allotment writes, key by key. *)
Lemma allotCourse_effect `{Collation} today c0 s :
  wf s →
  (allotCourse today c0 s).2 = s
  ∨ ∃ course st,
      acceptedCourseId c0
      ∧ s !! courseKey c0 = Some course
      ∧ startDatePassed today course = false
      ∧ Item.allotted course = false
      ∧ st = (if (0 <? rowCount c0 s)%nat
              then finalStatus (Ddb.query ("COURSE#" +:+ c0) "REG#" s) course
              else COURSE_CANCELED)
      ∧ (allotCourse today c0 s).2 !! courseKey c0
        = Some (Item.set_allotted true st course)
      ∧ (∀ x, (allotCourse today c0 s).2 !! regKey c0 x
              = Item.set_status st <$> s !! regKey c0 x)
      ∧ (∀ k, k.1 ≠ "COURSE#" +:+ c0 → (allotCourse today c0 s).2 !! k = s !! k)
      ∧ (∀ c, rowCount c (allotCourse today c0 s).2 = rowCount c s)
      ∧ (∀ k, is_Some ((allotCourse today c0 s).2 !! k) ↔ is_Some (s !! k)).
Proof.
  intros Hwf. unfold allotCourse, rowCount.
  destruct (Js.falsy c0) eqn:Hf; [by left|].
  destruct (isValidCourseIdFormat c0) eqn:Hv; [|by left]. simpl.
  unfold Ddb.get. destruct (s !! courseKey c0) as [course|] eqn:Hc; [|by left].
  destruct (startDatePassed today course) eqn:Hdate; [by left|].
  destruct (Item.allotted course) eqn:Hallotted; [by left|].
  set (regs := Ddb.query ("COURSE#" +:+ c0) "REG#" s).
  destruct (0 <? length regs)%nat eqn:Hlen.
  - destruct (Ddb.transactWrite _ s) as [s'|] eqn:Hw; [|by left].
    right. exists course, (finalStatus regs course).
    assert ((match sortByRegistrationId
                     (updatedRegistration c0 course (finalStatus regs course) <$> regs) with
             | Some sortedRegistrations =>
                 (Allotted (bool_decide (finalStatus regs course = COURSE_CANCELED))
                    sortedRegistrations, s')
             | None => (handleControllerError, s')
             end).2 = s') as -> by (by destruct (sortByRegistrationId _)).
    assert (Forall (λ a, actionOk s a ∧ isUpdate a)
              (allotItems c0 regs (finalStatus regs course))) as Hall
      by (by eapply allotItems_ok).
    do 5 (split; [done|]).
    split; [by eapply allot_write_course|].
    split; [intros x; by apply allot_write_reg|].
    pose proof Hw as [_ Hs']%transactWrite_Some.
    split; [|split].
    + intros k Hk. rewrite (transactWrite_lookup _ _ _ _ Hw).
      rewrite action_for_allotItems_reg by (by intros ->).
      rewrite decide_False; [done|]. intros [x ->]%allotKey_in. done.
    + intros c. rewrite Hs'. by apply foldl_updates_rowCount.
    + intros k. rewrite Hs'. by apply foldl_updates_keys.
  - right. exists course, COURSE_CANCELED.
    assert ((match sortByRegistrationId
                     (updatedRegistration c0 course (finalStatus regs course) <$> regs) with
             | Some sortedRegistrations =>
                 (Allotted (bool_decide (finalStatus regs course = COURSE_CANCELED))
                    sortedRegistrations,
                  Ddb.update (courseKey c0)
                    (Ddb.SET_is_allotted_course_status true COURSE_CANCELED) s)
             | None =>
                 (handleControllerError,
                  Ddb.update (courseKey c0)
                    (Ddb.SET_is_allotted_course_status true COURSE_CANCELED) s)
             end).2
            = Ddb.update (courseKey c0)
                (Ddb.SET_is_allotted_course_status true COURSE_CANCELED) s) as ->
      by (by destruct (sortByRegistrationId _)).
    unfold Ddb.update. rewrite Hc. simpl.
    do 5 (split; [done|]).
    split; [by rewrite lookup_insert_eq|].
    split; [|split; [|split]].
    + intros x. rewrite lookup_insert_ne by apply courseKey_regKey.
      destruct (s !! regKey c0 x) as [reg|] eqn:Hreg; [|done].
      assert (0 < rowCount c0 s)%nat as Hpos by (eapply rowCount_pos; eauto).
      apply Nat.ltb_ge in Hlen. unfold rowCount in Hpos. fold regs in Hpos. lia.
    + intros k Hk. by rewrite lookup_insert_ne by (by intros <-).
    + intros c. apply rowCount_insert_Some. eauto.
    + intros k. destruct (decide (courseKey c0 = k)) as [<-|Hne].
      * rewrite lookup_insert_eq, Hc. split; eauto.
      * by rewrite lookup_insert_ne.
Qed.

Lemma sound_allotCourse `{Collation} today c0 s :
  wf s → sound s → sound (allotCourse today c0 s).2.
Proof.
  intros Hwf Hsound.
  destruct (allotCourse_effect today c0 s Hwf)
    as [->|(course & st & Hacc & Hc & _ & Hallotted & Hst & Hcourse' & Hreg' & Hframe
            & Hcnt & Hkeys)]; [done|].
  set (s' := (allotCourse today c0 s).2) in *.
  pose proof Hsound as (Hcourses & Hrows & Hemp).
  destruct (courseOk_open s c0 course) as [Hstatus Hopen]; [by apply Hcourses|done|].
  assert (∀ c, c ≠ c0 → s' !! courseKey c = s !! courseKey c) as Hother.
  { intros c Hne. apply Hframe. simpl. by intros E%String.app_inj. }
  split; [|split].
  - intros c course'. destruct (decide (c = c0)) as [->|Hne].
    + rewrite Hcourse'. intros [= <-].
      destruct (Hcourses _ _ Hc) as (mn & mx & n & Hmn & Hmx & Hn & Hle & Hbound & _).
      exists mn, mx, n. rewrite Hcnt. simpl. do 5 (split; [done|]).
      rewrite Hst. destruct (0 <? rowCount c0 s)%nat eqn:Hpos.
      * apply Nat.ltb_lt in Hpos. rewrite (finalStatus_min _ _ _ Hmn).
        fold (rowCount c0 s).
        destruct (mn <=? Z.of_nat (rowCount c0 s)) eqn:Hmin.
        -- apply Z.leb_le in Hmin. done.
        -- apply Z.leb_gt in Hmin. split; [done|]. by left.
      * apply Nat.ltb_ge in Hpos. split; [done|]. right. lia.
    + rewrite Hother by done. intros Hc'.
      eapply courseOk_rowCount; [apply Hcnt|]. by apply Hcourses.
  - intros c x reg'. destruct (decide (c = c0)) as [->|Hne].
    + rewrite Hreg'. destruct (s !! regKey c0 x) as [reg|] eqn:Hreg; [|done].
      intros [= <-]. destruct (Hrows _ _ _ Hreg) as (course' & Hc' & _ & Hrest).
      eexists. split; [exact Hcourse'|]. done.
    + rewrite Hframe by (simpl; by intros E%String.app_inj).
      intros (course' & Hc' & Hrest)%Hrows. exists course'.
      by rewrite Hother.
  - intros pk c. rewrite !Hkeys. apply Hemp.
Qed.

Lemma sound_handle `{Collation} today now req s :
  wf s → sound s → sound (handle today now req s).2.
Proof.
  intros Hwf Hsound. destruct req; simpl.
  - by apply sound_addCourseOffering.
  - by apply sound_registerForCourse.
  - by apply sound_cancelRegistration.
  - by apply sound_allotCourse.
Qed.

Lemma reachable_sound `{Collation} s : reachable s → sound s.
Proof.
  induction 1 as [|today now req s Hs IH].
  - split; [|split].
    + intros c course. by rewrite lookup_empty.
    + intros c x reg. by rewrite lookup_empty.
    + intros pk c. rewrite lookup_empty. by intros [? ?].
  - apply sound_handle; [by apply reachable_wf|done].
Qed.

(** ** The list of the registrations of a course *)

Lemma elem_of_query_rows s c reg :
  reg ∈ Ddb.query ("COURSE#" +:+ c) "REG#" s → ∃ x, s !! regKey c x = Some reg.
Proof.
  intros (sk & [x ->]%prefix_app & Hlook)%elem_of_query. by exists x.
Qed.









(** X23.  A successful registration is seen by [getCourseRegistrations]
    at once: the course is listed as not allotted yet, with an entry that
    carries the new id, the trimmed name and email, ACCEPTED and the
    instant of the registration. *)
Theorem registration_is_listed now c employee_name email s rid st s1 :
  registerForCourse now c employee_name email s = (Registered rid st, s1) →
  ∃ l, getCourseRegistrations c s1 = Listed l
       ∧ Listing.message l = Listing.Course_is_not_allotted_yet
       ∧ {| Listing.registration_id := Some rid;
            Listing.employee_name := Some (sanitizeInput employee_name);
            Listing.email := Some (sanitizeInput email);
            Listing.status := Some ACCEPTED;
            Listing.created_at := Some now |} ∈ Listing.registrations l.
Proof.
  intros (Hok & _ & -> & course & Hc & Hstatus & Hallotted & _ & _ & ->)
    %registerForCourse_Registered.
  apply registrationInputOk_inv in Hok as (_ & _ & Hf & _ & _ & _ & Hv).
  set (rid := generateRegistrationId (sanitizeInput employee_name) c) in *.
  destruct (registerItems_lookup c rid (sanitizeInput employee_name)
              (sanitizeInput email) now s) as (Hreg1 & _ & Hcourse1 & _).
  rewrite Hc in Hcourse1. cbn [default from_option id] in Hcourse1.
  set (s1 := foldl Ddb.apply s _) in *.
  set (row := registrationByCourse rid (sanitizeInput employee_name)
                (sanitizeInput email) c now) in *.
  assert (row ∈ Ddb.query ("COURSE#" +:+ c) "REG#" s1) as Hin.
  { apply elem_of_query. exists ("REG#" +:+ rid). split; [|exact Hreg1].
    apply prefix_app. eauto. }
  unfold getCourseRegistrations, Ddb.get. rewrite Hf, Hv, Hcourse1. simpl.
  rewrite bool_decide_false by done.
  destruct (length (Ddb.query ("COURSE#" +:+ c) "REG#" s1) =? 0)%nat eqn:Hz.
  { apply Nat.eqb_eq in Hz. destruct (Ddb.query _ _ s1); [|done].
    by apply elem_of_nil in Hin. }
  change (Item.allotted (Item.add_current_count 1 course)) with (Item.allotted course).
  rewrite Hallotted. eexists. split; [done|]. split; [done|]. simpl.
  apply list_elem_of_fmap. exists row. done.
Qed.

Lemma registration_is_listed_witness :
  let s := scenario [addJava 1 2] in
  let now := "2022-06-02T09:00:00.000Z" in
  let registered := registerForCourse now JAVA " Andy " "andy@gmail.com" s in
  registered.1 = Registered "ANDY-OFFERING-JAVA-JAMES" ACCEPTED
  ∧ ∃ l, getCourseRegistrations JAVA registered.2 = Listed l
         ∧ {| Listing.registration_id := Some "ANDY-OFFERING-JAVA-JAMES";
              Listing.employee_name := Some "Andy";
              Listing.email := Some "andy@gmail.com";
              Listing.status := Some ACCEPTED;
              Listing.created_at := Some now |} ∈ Listing.registrations l.
Proof.
  intros s now registered.
  assert (registered
          = (Registered "ANDY-OFFERING-JAVA-JAMES" ACCEPTED, registered.2)) as Hreg
    by (apply response_eta; vm_compute; reflexivity).
  split; [by rewrite Hreg|].
  destruct (registration_is_listed now JAVA " Andy " "andy@gmail.com" s _ _ _ Hreg)
    as (l & Hl & _ & Hin).
  exists l. split; [exact Hl|exact Hin].
Defined.

(** X24.  After an accepted cancellation no entry of the listing of the
    course carries the cancelled id. *)
Theorem cancelled_registration_is_not_listed `{Collation} s rid c s' l :
  reachable s →
  cancelRegistration rid s = (Cancellation rid c CANCEL_ACCEPTED, s') →
  getCourseRegistrations c s' = Listed l →
  ∀ e, e ∈ Listing.registrations l → Listing.registration_id e ≠ Some rid.
Proof.
  intros Hs Hcancel Hl e He Hid.
  assert (wf s') as Hwf.
  { apply reachable_wf.
    change s' with (Cancellation rid c CANCEL_ACCEPTED, s').2. rewrite <- Hcancel.
    by apply (reachable_handle 0 "" (CancelRegistration rid)). }
  apply cancelRegistration_accepted
    in Hcancel as (_ & -> & _ & reg & course & email & _ & _ & _ & _ & ->).
  destruct (cancelItems_lookup (extractCourseIdFromRegistration rid) rid email s)
    as (Hgone & _).
  set (c := extractCourseIdFromRegistration rid) in *.
  set (s' := foldl Ddb.apply s _) in *.
  assert (∃ reg', reg' ∈ Ddb.query ("COURSE#" +:+ c) "REG#" s' ∧ e = listingEntry reg')
    as (reg' & Hin & ->).
  { revert Hl He. unfold getCourseRegistrations.
    repeat case_match; try done; intros [= <-]; simpl;
      try (by intros ?%elem_of_nil);
      intros (reg' & -> & Hin)%list_elem_of_fmap; eauto. }
  apply elem_of_query_reg in Hin as (x & Hlook & Hx); [|done].
  simpl in Hid. congruence.
Qed.

Lemma cancelled_registration_is_not_listed_witness :
  let s := scenario [addJava 1 2; RegisterForCourse JAVA "ANDY" "ANDY@GMAIL.COM";
                     RegisterForCourse JAVA "JHON" "JHON@GMAIL.COM"] in
  let canceled := cancelRegistration "ANDY-OFFERING-JAVA-JAMES" s in
  @reachable rootCollation s
  ∧ canceled.1 = Cancellation "ANDY-OFFERING-JAVA-JAMES" JAVA CANCEL_ACCEPTED
  ∧ ∃ l, getCourseRegistrations JAVA canceled.2 = Listed l
         ∧ ∀ e, e ∈ Listing.registrations l →
                Listing.registration_id e ≠ Some "ANDY-OFFERING-JAVA-JAMES".
Proof.
  intros s canceled.
  assert (@reachable rootCollation s) as Hreach by apply reachable_scenario.
  assert (canceled
          = (Cancellation "ANDY-OFFERING-JAVA-JAMES" JAVA CANCEL_ACCEPTED, canceled.2))
    as Hcancel by (apply response_eta; vm_compute; reflexivity).
  split; [exact Hreach|]. split; [by rewrite Hcancel|].
  destruct (getCourseRegistrations JAVA canceled.2) as [|l] eqn:Hl;
    [by vm_compute in Hl|].
  exists l. split; [reflexivity|].
  exact (@cancelled_registration_is_not_listed rootCollation s _ JAVA _ l
           Hreach Hcancel Hl).
Defined.

(** X25.  After a successful allotment [getCourseRegistrations] reports
    the course as allotted, with the registrations (id and email) of the
    answer of the allotment and no others; its message is "Course is
    canceled" when the allotment answered a cancellation or an empty
    list, "Course is allotted" otherwise. *)
Theorem allotment_is_listed `{Collation} today c s isCanceled rows s' :
  reachable s →
  allotCourse today c s = (Allotted isCanceled rows, s') →
  ∃ l, getCourseRegistrations c s' = Listed l
       ∧ Listing.is_allotted l = true
       ∧ Listing.message l
         = (if isCanceled || bool_decide (rows = [])
            then Listing.Course_is_canceled else Listing.Course_is_allotted)
       ∧ ∀ x email,
           (∃ e, e ∈ Listing.registrations l
                 ∧ Listing.registration_id e = Some x ∧ Listing.email e = email)
           ↔ (∃ r, r ∈ rows
                   ∧ Allotment.registration_id r = Some x
                   ∧ Allotment.email r = email).
Proof.
  intros Hs Hallot. pose proof (reachable_wf s Hs) as Hwf.
  assert (reachable s') as Hs'.
  { change s' with (Allotted isCanceled rows, s').2. rewrite <- Hallot.
    by apply (reachable_handle today "" (AllotCourse c)). }
  pose proof (reachable_wf s' Hs') as Hwf'.
  pose proof (allotCourse_effect today c s Hwf) as Heffect.
  rewrite Hallot in Heffect. simpl in Heffect.
  apply allotCourse_Allotted in Hallot
    as ([Hf Hv] & course & Hc & _ & Hallotted & HisCanceled & Hsort & Hwrite).
  simpl in HisCanceled, Hsort, Hwrite.
  set (regs := Ddb.query ("COURSE#" +:+ c) "REG#" s) in *.
  pose proof (sortByRegistrationId_Permutation _ _ Hsort) as Hperm.
  assert (s' ≠ s) as Hchanged.
  { intros ->. destruct (0 <? length regs)%nat.
    - pose proof (allot_write_course _ _ _ _ _ _ Hc Hwrite) as Hc'.
      rewrite Hc in Hc'. injection Hc' as Hc'.
      apply (f_equal Item.allotted) in Hc'. by rewrite Hallotted in Hc'.
    - apply (f_equal (λ t, Item.allotted <$> t !! courseKey c)) in Hwrite.
      unfold Ddb.update in Hwrite. rewrite lookup_insert_eq, Hc in Hwrite.
      simpl in Hwrite. injection Hwrite as Hwrite. by rewrite Hallotted in Hwrite. }
  destruct Heffect as [?|(course' & st & _ & Hc' & _ & _ & Hst & Hcourse' & Hreg' & _)];
    [done|].
  assert (course' = course) as -> by congruence.
  assert (∀ x reg', s' !! regKey c x = Some reg' ↔
                    ∃ reg, s !! regKey c x = Some reg ∧ reg' = Item.set_status st reg)
    as Hrow.
  { intros x reg'. rewrite Hreg'. destruct (s !! regKey c x) as [reg|]; simpl.
    - split; [intros [= <-]; eauto|]. by intros (? & [= <-] & ->).
    - split; [done|]. by intros (? & [=] & _). }
  assert (length rows = rowCount c s) as Hlen.
  { rewrite (Permutation_length Hperm), length_fmap. done. }
  assert (st = if isCanceled || bool_decide (rows = [])
               then COURSE_CANCELED else CONFIRMED) as Hfinal.
  { rewrite Hst, HisCanceled. unfold rowCount in *. fold regs in Hlen |- *.
    destruct rows as [|r rows].
    - simpl in Hlen. rewrite <- Hlen. simpl. by rewrite orb_true_r.
    - simpl in Hlen. rewrite <- Hlen. simpl. rewrite orb_false_r.
      unfold finalStatus. by destruct (Num.ge _ _). }
  clear Hst.
  unfold getCourseRegistrations, Ddb.get. rewrite Hf, Hv, Hcourse'. simpl.
  set (regs' := Ddb.query ("COURSE#" +:+ c) "REG#" s').
  assert (∀ x email,
            (∃ e, e ∈ listingEntry <$> regs'
                  ∧ Listing.registration_id e = Some x ∧ Listing.email e = email)
            ↔ (∃ r, r ∈ rows
                    ∧ Allotment.registration_id r = Some x
                    ∧ Allotment.email r = email)) as Hentries.
  { intros x email. split.
    - intros (e & (reg' & -> & Hin)%list_elem_of_fmap & Hid & Hemail).
      apply elem_of_query_reg in Hin as (x' & Hlook & Hid'); [|done].
      apply Hrow in Hlook as (reg & Hlook & ->). simpl in *.
      exists (updatedRegistration c course (finalStatus regs course) reg).
      split; [|done]. rewrite Hperm. apply list_elem_of_fmap. exists reg.
      split; [done|]. apply elem_of_query_reg; [done|]. exists x'.
      split; [done|]. congruence.
    - intros (r & Hin & Hid & Hemail). rewrite Hperm in Hin.
      apply list_elem_of_fmap in Hin as (reg & -> & Hin).
      apply elem_of_query_reg in Hin as (x' & Hlook & Hid'); [|done].
      simpl in Hid, Hemail.
      exists (listingEntry (Item.set_status st reg)). split; [|done].
      apply list_elem_of_fmap. eexists. split; [done|].
      apply elem_of_query_reg; [done|]. exists x'. split; [|done].
      apply Hrow. eauto. }
  destruct (isCanceled || bool_decide (rows = [])) eqn:Hcanceled; subst st.
  - rewrite bool_decide_true by done. eexists. split; [reflexivity|]. split; [reflexivity|].
    split; [reflexivity|]. exact Hentries.
  - apply orb_false_elim in Hcanceled as [_ Hrows%bool_decide_eq_false].
    rewrite bool_decide_false by done.
    assert ((length regs' =? 0)%nat = false) as ->.
    { apply Nat.eqb_neq. change (length regs') with (rowCount c s').
      destruct (reachable_sound s' Hs') as (Hcourses & _).
      destruct (Hcourses _ _ Hcourse') as (? & ? & ? & _ & _ & _ & _ & _ & _ & Hpos & _).
      lia. }
    eexists. split; [reflexivity|]. split; [reflexivity|].
    split; [reflexivity|]. exact Hentries.
Qed.

Lemma allotment_is_listed_witness :
  let s := scenario [addJava 1 2; RegisterForCourse JAVA "ANDY" "ANDY@GMAIL.COM"] in
  let out := @allotCourse rootCollation (june2022 10) JAVA s in
  @reachable rootCollation s
  ∧ out.1 = Allotted false (rowsOf out.1)
  ∧ ∃ l, getCourseRegistrations JAVA out.2 = Listed l
         ∧ Listing.message l = Listing.Course_is_allotted.
Proof.
  intros s out.
  assert (@reachable rootCollation s) as Hreach by apply reachable_scenario.
  assert (out.1 = Allotted false (rowsOf out.1)) as Hout1 by (vm_compute; reflexivity).
  assert (out = (Allotted false (rowsOf out.1), out.2)) as Hout
    by (by apply response_eta).
  split; [exact Hreach|]. split; [exact Hout1|].
  destruct (@allotment_is_listed rootCollation (june2022 10) JAVA s _ _ _
              Hreach Hout) as (l & Hl & _ & Hm & _).
  exists l. split; [exact Hl|]. rewrite Hm.
  assert (bool_decide (rowsOf out.1 = []) = false) as -> by (vm_compute; reflexivity).
  reflexivity.
Defined.

(** ** Requests that fail *)

Lemma insertSorted_total `{Collation} a l :
  is_Some (Allotment.registration_id a) → is_Some (insertSorted a l).
Proof.
  intros [ida Ha]. induction l as [|b l [r IH]]; simpl; [eauto|].
  unfold compareRegistrations. rewrite Ha. simpl.
  destruct (_ <=? 0); [eauto|]. rewrite IH. simpl. eauto.
Qed.

Lemma sortByRegistrationId_total `{Collation} items :
  Forall (λ a, is_Some (Allotment.registration_id a)) items →
  is_Some (sortByRegistrationId items).
Proof.
  induction 1 as [|a items Ha _ [sorted IH]]; simpl; [eauto|].
  rewrite IH. simpl. by apply insertSorted_total.
Qed.

(** In a well-formed table an allotment that writes is answered with the
    list. *)
Lemma allotCourse_outcome `{Collation} today c s :
  wf s →
  (allotCourse today c s).2 = s
  ∨ ∃ isCanceled rows, (allotCourse today c s).1 = Allotted isCanceled rows.
Proof.
  intros Hwf. unfold allotCourse.
  destruct (Js.falsy c); [by left|].
  destruct (isValidCourseIdFormat c); [|by left]. simpl.
  destruct (Ddb.get (courseKey c) s) as [course|]; [|by left].
  destruct (startDatePassed today course); [by left|].
  destruct (Item.allotted course); [by left|].
  set (regs := Ddb.query ("COURSE#" +:+ c) "REG#" s).
  destruct (sortByRegistrationId_total
              (updatedRegistration c course (finalStatus regs course) <$> regs))
    as [sorted ->].
  { apply Forall_fmap, Forall_forall. intros reg Hin. simpl.
    apply elem_of_query_reg in Hin as (x & _ & ->); [eauto|done]. }
  destruct (0 <? length regs)%nat.
  - destruct (Ddb.transactWrite _ s); [right; eauto|by left].
  - right. eauto.
Qed.

(** X16.  In a table of the service, a request that is answered with a
    failure (400, 404 or 500) has written nothing. *)
Theorem failed_request_changes_nothing `{Collation} today now req s status msg :
  reachable s →
  (handle today now req s).1 = Failure status msg →
  (handle today now req s).2 = s.
Proof.
  intros Hwf%reachable_wf. destruct req as [cn instr sd mn mx|c n e|rid|c]; simpl.
  - destruct (addCourseOffering_outcome today cn instr sd mn mx s) as [->|[cid ->]];
      done.
  - destruct (registerForCourse_table now c n e s) as [->|(rid & st & ->)]; done.
  - destruct (cancelRegistration_table rid s) as [->|[c ->]]; done.
  - destruct (allotCourse_outcome today c s Hwf) as [->|(b & rows & ->)]; done.
Qed.

Lemma failed_request_changes_nothing_witness :
  let s := scenario [addJava 1 1; RegisterForCourse JAVA "ANDY" "ANDY@GMAIL.COM"] in
  let out := @handle rootCollation (june2022 2) "2022-06-02T09:00:00.000Z"
               (RegisterForCourse JAVA "JHON" "JHON@GMAIL.COM") s in
  @reachable rootCollation s
  ∧ out.1 = Failure 400 COURSE_FULL
  ∧ out.2 = s.
Proof.
  intros s out.
  assert (@reachable rootCollation s) as Hreach by apply reachable_scenario.
  assert (out.1 = Failure 400 COURSE_FULL) as Hout by (vm_compute; reflexivity).
  split; [exact Hreach|]. split; [exact Hout|].
  exact (@failed_request_changes_nothing rootCollation _ _ _ s _ _ Hreach Hout).
Defined.




(** The refusal of a number does end in the catch block: a request for a
    new course that is accepted with [max_employees] at
    [Number.MAX_SAFE_INTEGER] is answered 500 with any greater
    [max_employees], and nothing is written. *)
Lemma unsafe_number_is_refused today cn instr sd mn mx s s' cid :
  addCourseOffering today cn instr sd (Some mn) (Some Ddb.MAX_SAFE_INTEGER) s
  = (CourseAdded cid, s') →
  Ddb.MAX_SAFE_INTEGER < mx →
  addCourseOffering today cn instr sd (Some mn) (Some mx) s
  = (handleControllerError, s).
Proof.
  unfold addCourseOffering, Ddb.putCommand, Ddb.marshalls, Ddb.safeNumber.
  cbn [newCourse Item.min_employees Item.max_employees Item.current_count].
  destruct (_ || Js.falsy sd); [done|].
  destruct (_ || isEmptyAfterTrim sd); [done|].
  destruct (_ || _) eqn:Hneg; [done|].
  apply orb_false_elim in Hneg as [Hmn%Z.ltb_ge _].
  destruct (_ <? mn) eqn:Hle; [done|]. apply Z.ltb_ge in Hle.
  destruct (negb _); [done|]. destruct (Num.lt _ _); [done|].
  destruct (Ddb.get _ s); [done|]. intros _ Hmx.
  assert ((mn <? 0) || (mx <? 0) = false) as ->.
  { apply orb_false_intro; apply Z.ltb_ge; unfold Ddb.MAX_SAFE_INTEGER in *; lia. }
  assert ((mx <? mn) = false) as -> by (apply Z.ltb_ge; lia).
  assert ((mx <=? Ddb.MAX_SAFE_INTEGER) = false) as -> by (apply Z.leb_gt; lia).
  by rewrite !andb_false_r.
Qed.

(** ** The courses in a run *)

Lemma eval_courseAttributes u it :
  courseAttributes (Ddb.eval u it) = courseAttributes it.
Proof. by destruct u. Qed.

Lemma apply_keeps_course s a pk course :
  keepsAllotted a →
  s !! (pk, "METADATA") = Some course →
  ∃ course', Ddb.apply s a !! (pk, "METADATA") = Some course'
             ∧ courseAttributes course' = courseAttributes course.
Proof.
  intros Ha Hc.
  destruct (decide (Ddb.key_of a = (pk, "METADATA"))) as [Hk|Hk].
  - rewrite <- Hk, apply_lookup_eq, Hk, Hc.
    destruct a as [k it|k u|k]; simpl in *; [by subst k..| |by subst k].
    eexists. split; [done|]. apply eval_courseAttributes.
  - rewrite apply_lookup_ne by done. eauto.
Qed.

Lemma foldl_keeps_course s items pk course :
  Forall keepsAllotted items →
  s !! (pk, "METADATA") = Some course →
  ∃ course', foldl Ddb.apply s items !! (pk, "METADATA") = Some course'
             ∧ courseAttributes course' = courseAttributes course.
Proof.
  revert s course. induction items as [|a items IH]; intros s course Hall Hc.
  - eauto.
  - apply Forall_cons in Hall as [Hka Hall]. simpl.
    destruct (apply_keeps_course s a pk course Hka Hc) as (c1 & Hc1 & Ha1).
    destruct (IH _ _ Hall Hc1) as (c2 & Hc2 & Ha2).
    exists c2. split; [done|]. congruence.
Qed.

(** One request keeps the courses and their attributes. *)
Lemma handle_keeps_course `{Collation} today now req s c course :
  s !! courseKey c = Some course →
  ∃ course', (handle today now req s).2 !! courseKey c = Some course'
             ∧ courseAttributes course' = courseAttributes course.
Proof.
  intros Hc.
  assert (∃ course', s !! courseKey c = Some course'
                     ∧ courseAttributes course' = courseAttributes course)
    as Hsame by eauto.
  destruct req as [cn instr sd mn mx|cid name email|rid|cid]; simpl.
  - destruct (addCourseOffering_outcome today cn instr sd mn mx s) as [->|[cid Hr]];
      [done|].
    destruct (addCourseOffering today cn instr sd mn mx s) as [r s'] eqn:Hadd.
    simpl in *. subst r.
    apply addCourseOffering_CourseAdded in Hadd
      as (mn' & mx' & _ & _ & _ & _ & _ & _ & _ & _ & Hnone & ->).
    rewrite lookup_insert_ne; [done|]. intros E%courseKey_inj. congruence.
  - destruct (registerForCourse_table now cid name email s)
      as [->|(rid & st & Hr)]; [done|].
    destruct (registerForCourse now cid name email s) as [r s'] eqn:E.
    simpl in *. subst r.
    apply registerForCourse_Registered in E as (_ & _ & _ & _ & _ & _ & _ & _ & _ & ->).
    apply foldl_keeps_course; [apply keepsAllotted_registerItems|done].
  - destruct (cancelRegistration_table rid s) as [->|[c0 Hacc]]; [done|].
    destruct (cancelRegistration rid s) as [r s'] eqn:E. simpl in *. subst r.
    apply cancelRegistration_accepted
      in E as (_ & _ & _ & reg & course0 & email & _ & _ & _ & _ & ->).
    apply foldl_keeps_course; [apply keepsAllotted_cancelItems|done].
  - destruct (allotCourse_table today cid s)
      as [->|(_ & c0 & _ & [[st Hw]| ->])]; [done|..].
    + apply transactWrite_Some in Hw as [_ ->].
      apply foldl_keeps_course; [apply keepsAllotted_allotItems|done].
    + by apply (apply_keeps_course s (Ddb.Update _ _)).
Qed.

(** X14.  Along any run of the service no course is removed and what
    [addCourseOffering] wrote into it stays: [course_id], [course_name],
    [instructor_name], [start_date], [min_employees], [max_employees] and
    [entity_type] are the same after any number of requests; only
    [current_count], [is_allotted] and [course_status] move. *)
Theorem course_attributes_are_fixed `{Collation} s s' c course :
  reaches s s' →
  s !! courseKey c = Some course →
  ∃ course', s' !! courseKey c = Some course'
             ∧ courseAttributes course' = courseAttributes course.
Proof.
  intros Hrun Hc. induction Hrun as [|today now req s' _ (c1 & Hc1 & Ha1)]; [eauto|].
  destruct (handle_keeps_course today now req s' c c1 Hc1) as (c2 & Hc2 & Ha2).
  exists c2. split; [done|]. congruence.
Qed.

Lemma course_attributes_are_fixed_witness :
  let s := scenario [addJava 1 2; RegisterForCourse JAVA "ANDY" "ANDY@GMAIL.COM"] in
  let s' := (@handle rootCollation (june2022 10) "2022-06-10T09:00:00.000Z"
               (AllotCourse JAVA) s).2 in
  ∃ course course',
    s !! courseKey JAVA = Some course
    ∧ s' !! courseKey JAVA = Some course'
    ∧ Item.is_allotted course = Some false
    ∧ Item.is_allotted course' = Some true
    ∧ courseAttributes course' = courseAttributes course.
Proof.
  intros s s'.
  assert (@reaches rootCollation s s') as Hrun
    by (apply reaches_handle, reaches_here).
  destruct (s !! courseKey JAVA) as [course|] eqn:Hc; [|by vm_compute in Hc].
  destruct (@course_attributes_are_fixed rootCollation s s' JAVA course Hrun Hc)
    as (course' & Hc' & Hsame).
  exists course, course'. split; [reflexivity|]. split; [exact Hc'|].
  split; [vm_compute in Hc; by injection Hc as <-|].
  split; [|exact Hsame].
  vm_compute in Hc'. by injection Hc' as <-.
Defined.

Lemma reaches_course `{Collation} s s' c :
  reaches s s' → is_Some (s !! courseKey c) → is_Some (s' !! courseKey c).
Proof.
  induction 1 as [|today now req s' _ IH]; [done|].
  intros [course Hc]%IH.
  destruct (handle_keeps_course today now req s' c course Hc) as (? & ? & _).
  eauto.
Qed.

Lemma generateCourseId_upper n i n' i' :
  Js.toUpperCase n' = Js.toUpperCase n → Js.toUpperCase i' = Js.toUpperCase i →
  generateCourseId n' i' = generateCourseId n i.
Proof. unfold generateCourseId. by intros -> ->. Qed.

(** X13.  Once a course is added, no request with the same course and
    instructor names, up to letter case and surrounding white space, is
    accepted again, however many requests are served in between: the
    answer is 400 INPUT_DATA_ERROR or 400 DUPLICATE_COURSE_ERROR and the
    table stays as it is. *)
Theorem course_cannot_be_added_twice `{Collation} today cn instr sd mn mx s cid s1 s2 :
  addCourseOffering today cn instr sd mn mx s = (CourseAdded cid, s1) →
  reaches s1 s2 →
  ∀ today' cn' instr' sd' mn' mx',
    Js.toUpperCase (sanitizeInput cn') = Js.toUpperCase (sanitizeInput cn) →
    Js.toUpperCase (sanitizeInput instr') = Js.toUpperCase (sanitizeInput instr) →
    addCourseOffering today' cn' instr' sd' mn' mx' s2
    = (Failure 400 INPUT_DATA_ERROR, s2)
    ∨ addCourseOffering today' cn' instr' sd' mn' mx' s2
      = (Failure 400 DUPLICATE_COURSE_ERROR, s2).
Proof.
  intros (mn0 & mx0 & _ & _ & _ & _ & _ & _ & _ & Hcid & _ & ->)
    %addCourseOffering_CourseAdded Hrun today' cn' instr' sd' mn' mx' Hn Hi.
  assert (is_Some (s2 !! courseKey cid)) as [course Hc].
  { eapply reaches_course; [exact Hrun|]. rewrite lookup_insert_eq. eauto. }
  unfold addCourseOffering, Ddb.get.
  rewrite (generateCourseId_upper _ _ _ _ Hn Hi), <- Hcid, Hc.
  repeat case_match; eauto.
Qed.

Lemma course_cannot_be_added_twice_witness :
  let today := june2022 1 in
  let first := addCourseOffering today "JAVA" "JAMES" "15062022" (Some 1) (Some 2) ∅ in
  let s2 := (@handle rootCollation today "2022-06-01T08:00:00.000Z"
               (RegisterForCourse JAVA "ANDY" "ANDY@GMAIL.COM") first.2).2 in
  first.1 = CourseAdded JAVA
  ∧ addCourseOffering today " java" "James " "20062022" (Some 3) (Some 5) s2
    = (Failure 400 DUPLICATE_COURSE_ERROR, s2).
Proof.
  intros today first s2.
  assert (first = (CourseAdded JAVA, first.2)) as Hfirst
    by (apply response_eta; vm_compute; reflexivity).
  split; [by rewrite Hfirst|].
  assert (@reaches rootCollation first.2 s2) as Hrun
    by (apply reaches_handle, reaches_here).
  destruct (@course_cannot_be_added_twice rootCollation today "JAVA" "JAMES"
              "15062022" (Some 1) (Some 2) ∅ JAVA first.2 s2 Hfirst Hrun
              today " java" "James " "20062022" (Some 3) (Some 5)) as [Hin|Hdup];
    [reflexivity|reflexivity| |exact Hdup].
  apply (f_equal fst) in Hin. vm_compute in Hin. discriminate Hin.
Defined.

(** X11.  After a successful [addCourseOffering] with [max_employees] at
    least 1, a registration with valid input for the id returned is
    accepted, under the id made of the name and the course id, and the
    count of the course is 1. *)
Theorem new_course_takes_a_registration `{Collation} today now cn instr sd mn mx s
    cid s1 employee_name email :
  reachable s →
  addCourseOffering today cn instr sd mn (Some mx) s = (CourseAdded cid, s1) →
  1 ≤ mx →
  registrationInputOk cid employee_name email = true →
  ∃ s2, registerForCourse now cid employee_name email s1
        = (Registered (generateRegistrationId (sanitizeInput employee_name) cid)
             ACCEPTED, s2)
        ∧ Item.current_count <$> s2 !! courseKey cid = Some (Some 1).
Proof.
  intros (_ & _ & Hemp)%reachable_sound
    (mn0 & mx0 & _ & [= <-] & _ & _ & _ & _ & _ & _ & Hnone & ->)
    %addCourseOffering_CourseAdded Hmx
    (Hn & He & Hc & Hen & Hee & Hm & Hv)%registrationInputOk_inv.
  set (course := newCourse _ _ _ _ _ _).
  assert (s !! employeeKey (sanitizeInput email) cid = None) as Hfree.
  { apply eq_None_not_Some. intros Hrow%Hemp. rewrite Hnone in Hrow. by destruct Hrow. }
  unfold registerForCourse, Ddb.get.
  rewrite Hn, He, Hc, Hen, Hee, Hm, Hv. cbn [orb negb].
  rewrite lookup_insert_eq. cbn [Item.course_status course newCourse].
  rewrite bool_decide_false by done.
  change (Item.allotted course) with false. cbn iota.
  rewrite lookup_insert_ne by apply courseKey_employeeKey. rewrite Hfree.
  change (Num.ge (Item.current_count course) (Item.max_employees course))
    with (mx <=? 0).
  assert ((mx <=? 0) = false) as -> by (apply Z.leb_gt; lia).
  rewrite registerItems_commit. eexists. split; [done|].
  edestruct registerItems_lookup as (_ & _ & -> & _).
  by rewrite lookup_insert_eq.
Qed.

Lemma new_course_takes_a_registration_witness :
  let today := june2022 1 in
  let added := addCourseOffering today "Kubernetes" "Woody" "16062022"
                 (Some 2) (Some 6) ∅ in
  let registered := registerForCourse "2022-06-02T09:00:00.000Z"
                      "OFFERING-KUBERNETES-WOODY" "Andy" "andy@gmail.com" added.2 in
  added.1 = CourseAdded "OFFERING-KUBERNETES-WOODY"
  ∧ registered.1 = Registered "ANDY-OFFERING-KUBERNETES-WOODY" ACCEPTED.
Proof.
  intros today added registered.
  assert (added = (CourseAdded "OFFERING-KUBERNETES-WOODY", added.2)) as Hadded
    by (apply response_eta; vm_compute; reflexivity).
  split; [by rewrite Hadded|].
  destruct (@new_course_takes_a_registration rootCollation today
              "2022-06-02T09:00:00.000Z" "Kubernetes" "Woody" "16062022" (Some 2) 6 ∅
              "OFFERING-KUBERNETES-WOODY" added.2 "Andy" "andy@gmail.com")
    as (s2 & Hreg & _); [constructor|exact Hadded|lia|reflexivity|].
  unfold registered. by rewrite Hreg.
Defined.

(** X12.  The two checks of the start date agree: a course that has just
    been added (its start date is the current day or a later one), under
    an id that the controller accepts, can be allotted on the same day.
    Having no registration it is stored as allotted and COURSE_CANCELED;
    the answer is the empty list, flagged as a cancellation exactly when
    [min_employees] is positive. *)
Theorem new_course_can_be_allotted_at_once `{Collation} today cn instr sd mn mx s
    cid s1 :
  reachable s →
  addCourseOffering today cn instr sd (Some mn) mx s = (CourseAdded cid, s1) →
  acceptedCourseId cid →
  ∃ s2 course,
    allotCourse today cid s1 = (Allotted (bool_decide (0 < mn)) [], s2)
    ∧ s2 !! courseKey cid = Some course
    ∧ Item.is_allotted course = Some true
    ∧ Item.course_status course = Some COURSE_CANCELED.
Proof.
  intros Hs (mn0 & mx0 & [= <-] & _ & _ & _ & Hle & Hdate & Hpast & _ & Hnone & ->)
    %addCourseOffering_CourseAdded [Hf Hv].
  set (course := newCourse _ _ _ _ _ _).
  set (s1 := <[courseKey cid := course]> s).
  assert (Ddb.query ("COURSE#" +:+ cid) "REG#" s1 = []) as Hregs.
  { apply length_zero_iff_nil. change (rowCount cid s1 = 0%nat).
    unfold s1. rewrite rowCount_insert_other
      by (intros x E; by eapply courseKey_regKey).
    apply sound_no_rows; [by apply reachable_sound|done]. }
  destruct (isValidDateFormat_parses _ Hdate) as [Hlen _].
  unfold allotCourse, Ddb.get. rewrite Hf, Hv. cbn [negb]. unfold s1 at 1.
  rewrite lookup_insert_eq.
  assert (startDatePassed today course = false) as ->.
  { unfold startDatePassed. cbn [course newCourse Item.start_date].
    rewrite Hlen, Nat.eqb_refl. unfold Num.gt. rewrite Hpast. by destruct (negb _). }
  change (Item.allotted course) with false. cbn iota.
  rewrite Hregs. cbn [length Nat.ltb Nat.leb fmap list_fmap sortByRegistrationId].
  unfold Ddb.update. unfold s1 at 1. rewrite lookup_insert_eq.
  cbn [default from_option id].
  eexists _, (Item.set_allotted true COURSE_CANCELED course).
  split; [|split; [apply lookup_insert_eq|done]].
  do 2 f_equal. unfold finalStatus.
  cbn [length course newCourse Item.min_employees Num.ge Z.of_nat].
  apply bool_decide_ext. change (Z.of_nat 0) with 0. destruct (mn <=? 0) eqn:E.
  - apply Z.leb_le in E. split; [done|lia].
  - apply Z.leb_gt in E. done.
Qed.

Lemma new_course_can_be_allotted_at_once_witness :
  let today := june2022 15 in
  let added := addCourseOffering today "Java" "James" "15062022" (Some 1) (Some 2) ∅ in
  added.1 = CourseAdded JAVA
  ∧ (@allotCourse rootCollation today JAVA added.2).1 = Allotted true [].
Proof.
  intros today added.
  assert (added = (CourseAdded JAVA, added.2)) as Hadded
    by (apply response_eta; vm_compute; reflexivity).
  split; [by rewrite Hadded|].
  destruct (@new_course_can_be_allotted_at_once rootCollation today "Java" "James"
              "15062022" 1 (Some 2) ∅ JAVA added.2) as (s2 & course & Hallot & _);
    [constructor|exact Hadded|by split|].
  by rewrite Hallot.
Defined.

(** X15.  A request changes items of one course only: an item whose
    partition key and whose sort key are not COURSE#<id>, for the id of
    the course of the request, is left as it was. *)
Theorem request_touches_one_course `{Collation} today now req s k :
  k.1 ≠ "COURSE#" +:+ courseOf req →
  k.2 ≠ "COURSE#" +:+ courseOf req →
  (handle today now req s).2 !! k = s !! k.
Proof.
  intros Hpk Hsk.
  destruct req as [cn instr sd mn mx|c name email|rid|c]; simpl in *.
  - destruct (addCourseOffering_outcome today cn instr sd mn mx s) as [->|[cid Hr]];
      [done|].
    destruct (addCourseOffering today cn instr sd mn mx s) as [r s'] eqn:Hadd.
    simpl in *. subst r.
    apply addCourseOffering_CourseAdded in Hadd
      as (mn' & mx' & _ & _ & _ & _ & _ & _ & _ & -> & _ & ->).
    rewrite lookup_insert_ne; [done|]. by intros <-.
  - destruct (registerForCourse_table now c name email s)
      as [->|(rid & st & Hr)]; [done|].
    destruct (registerForCourse now c name email s) as [r s'] eqn:E.
    simpl in *. subst r.
    apply registerForCourse_Registered in E as (_ & _ & _ & _ & _ & _ & _ & _ & _ & ->).
    edestruct registerItems_lookup as (_ & _ & _ & Hframe).
    apply Hframe; by intros ->.
  - destruct (cancelRegistration_table rid s) as [->|[c0 Hacc]]; [done|].
    destruct (cancelRegistration rid s) as [r s'] eqn:E. simpl in *. subst r.
    apply cancelRegistration_accepted
      in E as (_ & -> & _ & reg & course0 & email & _ & _ & _ & _ & ->).
    edestruct cancelItems_lookup as (_ & _ & _ & Hframe).
    apply Hframe; by intros ->.
  - destruct (allotCourse_table today c s)
      as [->|(_ & c0 & _ & [[st Hw]| ->])]; [done|..].
    + apply transactWrite_Some in Hw as [_ ->]. apply foldl_apply_notin.
      unfold allotItems. rewrite fmap_app, <- list_fmap_compose.
      intros [[x ->]%allotKey_in|[->|[]%elem_of_nil]%elem_of_cons]%elem_of_app; done.
    + unfold Ddb.update. rewrite lookup_insert_ne; [done|]. by intros <-.
Qed.

Lemma request_touches_one_course_witness :
  let s := scenario [addJava 1 2;
                     AddCourseOffering "KUBERNETES" "WOODY" "16062022" (Some 2) (Some 6);
                     RegisterForCourse JAVA "ANDY" "ANDY@GMAIL.COM";
                     RegisterForCourse "OFFERING-KUBERNETES-WOODY" "ANDY"
                       "ANDY@GMAIL.COM"] in
  let k := regKey "OFFERING-KUBERNETES-WOODY" "ANDY-OFFERING-KUBERNETES-WOODY" in
  let s' := (@handle rootCollation (june2022 10) "2022-06-10T09:00:00.000Z"
               (AllotCourse JAVA) s).2 in
  is_Some (s !! k)
  ∧ Item.is_allotted <$> s' !! courseKey JAVA = Some (Some true)
  ∧ s' !! k = s !! k.
Proof.
  intros s k s'. split; [vm_compute; eauto|]. split; [vm_compute; reflexivity|].
  apply (@request_touches_one_course rootCollation); by intros [=].
Defined.

(** ** The two copies of a registration *)









(** ** The scenarios of the specification *)

(** Threshold 1, capacity 2, Andy and Jhon registered: the allotment
    confirms both and the course. *)
Example scenario_threshold_met :
  let s := scenario [addJava 1 2; RegisterForCourse JAVA "ANDY" "ANDY@GMAIL.COM";
                     RegisterForCourse JAVA "JHON" "JHON@GMAIL.COM"] in
  let out := @allotCourse rootCollation (june2022 10) JAVA s in
  Item.current_count <$> s !! courseKey JAVA = Some (Some 2)
  ∧ Allotment.status <$> rowsOf out.1 = [CONFIRMED; CONFIRMED]
  ∧ Item.status <$> Ddb.query ("COURSE#" +:+ JAVA) "REG#" out.2
    = [Some CONFIRMED; Some CONFIRMED]
  ∧ Item.is_allotted <$> out.2 !! courseKey JAVA = Some (Some true)
  ∧ Item.course_status <$> out.2 !! courseKey JAVA = Some (Some CONFIRMED).
Proof. vm_compute. done. Qed.

(** Threshold 2, capacity 6, Andy alone: the allotment cancels the
    registration and the course. *)
Example scenario_threshold_not_met :
  let s := scenario [addJava 2 6; RegisterForCourse JAVA "ANDY" "ANDY@GMAIL.COM"] in
  let out := @allotCourse rootCollation (june2022 10) JAVA s in
  out.1 = Allotted true
            [ {| Allotment.registration_id := Some "ANDY-OFFERING-JAVA-JAMES";
                 Allotment.email := Some "ANDY@GMAIL.COM";
                 Allotment.course_name := Some "JAVA";
                 Allotment.course_id := JAVA;
                 Allotment.status := COURSE_CANCELED |} ]
  ∧ Item.status <$> Ddb.query ("COURSE#" +:+ JAVA) "REG#" out.2
    = [Some COURSE_CANCELED]
  ∧ Item.course_status <$> out.2 !! courseKey JAVA = Some (Some COURSE_CANCELED).
Proof. vm_compute. done. Qed.

(** Andy registers twice for the same course: the second request is a
    duplicate. *)
Example scenario_duplicate :
  let s := scenario [addJava 1 2; RegisterForCourse JAVA "ANDY" "ANDY@GMAIL.COM"] in
  (registerForCourse "2022-06-02T09:00:00.000Z" JAVA "ANDY" "ANDY@GMAIL.COM" s).1
  = Failure 400 Already_registered.
Proof. vm_compute. done. Qed.

(** A registration at [current_count = max_employees] is turned down. *)
Example scenario_full :
  let s := scenario [addJava 1 2; RegisterForCourse JAVA "ANDY" "ANDY@GMAIL.COM";
                     RegisterForCourse JAVA "JHON" "JHON@GMAIL.COM"] in
  (registerForCourse "2022-06-02T09:00:00.000Z" JAVA "BOB" "BOB@GMAIL.COM" s).1
  = Failure 400 COURSE_FULL.
Proof. vm_compute. done. Qed.
